(** * Jarvis backend: request orchestration pipeline and memory store

    A shallow embedding of the Python sources
    [core/intent.py], [core/planner.py], [core/skill_registry.py],
    [routes/ask.py] and [core/memory.py], and the properties of the
    specification that concern them.

    Conventions of the embedding.
    - A Python [str] is a Rocq [string] holding one code point per
      character; the embedding covers the code points below 256, for
      which [str.lower], [str.isspace] and the regular-expression classes
      are written out below as CPython computes them.
    - A Python object ([Dict[str, Any]], lists, JSON data) is a [value].
    - A call that may raise returns a [result].
    - The completion capability ([Brain.generate_response]) is an oracle
      from prompts to texts; every function that may call it also returns
      the list of prompts it sent. *)

From Stdlib Require Import List Bool Arith ZArith QArith Lia.
From Stdlib Require Import Ascii String.

#[local] Set Warnings "-register-all".
#[local] Set Warnings "-automation".

Import ListNotations.

Local Close Scope Q_scope.
Local Open Scope list_scope.
Local Open Scope string_scope.

(** ** Python string operations *)

Module PyStr.

Definition code (c : ascii) : nat := nat_of_ascii c.

(** The double-quote character. *)
Definition dquote : ascii := ascii_of_nat 34.

Definition between (lo hi n : nat) : bool := ((lo <=? n) && (n <=? hi))%nat.

(** [str.lower] on one character: A-Z, and the Latin-1 capitals
    U+00C0..U+00DE except the multiplication sign U+00D7. *)
Definition lower_char (c : ascii) : ascii :=
  let n := code c in
  if between 65 90 n || (between 192 222 n && negb (n =? 215)%nat)
  then ascii_of_nat (n + 32) else c.

Fixpoint lower (s : string) : string :=
  match s with
  | EmptyString => EmptyString
  | String c r => String (lower_char c) (lower r)
  end.

(** [str.isspace] on one character. *)
Definition is_space (c : ascii) : bool :=
  let n := code c in
  between 9 13 n || between 28 32 n || (n =? 133)%nat || (n =? 160)%nat.

(** [s.startswith(p)] *)
Fixpoint startswith (s p : string) {struct p} : bool :=
  match p, s with
  | EmptyString, _ => true
  | String a p', String b s' => Ascii.eqb a b && startswith s' p'
  | String _ _, EmptyString => false
  end.

Fixpoint drop (n : nat) (s : string) : string :=
  match n, s with
  | O, _ => s
  | S n', String _ r => drop n' r
  | S _, EmptyString => EmptyString
  end.

Fixpoint take (n : nat) (s : string) : string :=
  match n, s with
  | S n', String c r => String c (take n' r)
  | _, _ => EmptyString
  end.

(** [sub in s] *)
Fixpoint contains (sub s : string) : bool :=
  startswith s sub ||
  match s with
  | EmptyString => false
  | String _ r => contains sub r
  end.

(** [s.find(sub)]: index of the first occurrence, or -1. *)
Fixpoint find (s sub : string) : Z :=
  if startswith s sub then 0%Z
  else match s with
       | EmptyString => (-1)%Z
       | String _ r =>
           let i := find r sub in
           if (i <? 0)%Z then (-1)%Z else (i + 1)%Z
       end.

(** [s.rfind(sub)]: index of the last occurrence, or -1. *)
Fixpoint rfind (s sub : string) : Z :=
  match s with
  | EmptyString => if startswith s sub then 0%Z else (-1)%Z
  | String _ r =>
      let i := rfind r sub in
      if (0 <=? i)%Z then (i + 1)%Z
      else if startswith s sub then 0%Z else (-1)%Z
  end.

(** [s[a:b]] for indices [0 <= a], [0 <= b]. *)
Definition slice (s : string) (a b : Z) : string :=
  take (Z.to_nat (b - a)) (drop (Z.to_nat a) s).

(** [s.split(sep, 1)] for a non-empty separator: the text before the
    first occurrence and the text after it, or [s] alone. *)
Fixpoint split1 (s sep : string) : list string :=
  if startswith s sep then [EmptyString; drop (String.length sep) s]
  else match s with
       | EmptyString => [s]
       | String c r =>
           match split1 r sep with
           | [a; b] => [String c a; b]
           | _ => [s]
           end
       end.

Fixpoint lstrip_by (p : ascii -> bool) (s : string) : string :=
  match s with
  | EmptyString => EmptyString
  | String c r => if p c then lstrip_by p r else s
  end.

Fixpoint rstrip_by (p : ascii -> bool) (s : string) : string :=
  match s with
  | EmptyString => EmptyString
  | String c r =>
      match rstrip_by p r with
      | EmptyString => if p c then EmptyString else String c EmptyString
      | r' => String c r'
      end
  end.

(** [s.strip()] *)
Definition strip (s : string) : string := rstrip_by is_space (lstrip_by is_space s).

Fixpoint mem_char (c : ascii) (chars : string) : bool :=
  match chars with
  | EmptyString => false
  | String d r => Ascii.eqb c d || mem_char c r
  end.

(** [s.strip(chars)] *)
Definition strip_chars (s chars : string) : string :=
  rstrip_by (fun c => mem_char c chars) (lstrip_by (fun c => mem_char c chars) s).

(** [s.split()]: the maximal runs of non-whitespace characters.  The
    accumulator [cur] holds the current run. *)
Fixpoint split_ws_aux (cur : string) (s : string) : list string :=
  match s with
  | EmptyString => match cur with EmptyString => [] | _ => [cur] end
  | String c r =>
      if is_space c
      then match cur with
           | EmptyString => split_ws_aux EmptyString r
           | _ => cur :: split_ws_aux EmptyString r
           end
      else split_ws_aux (cur ++ String c EmptyString) r
  end.

Definition split_ws (s : string) : list string := split_ws_aux EmptyString s.

(** [sep.join(l)] *)
Fixpoint join (sep : string) (l : list string) : string :=
  match l with
  | [] => EmptyString
  | [x] => x
  | x :: r => x ++ sep ++ join sep r
  end.

(** [any(k in s for k in keywords)] *)
Definition any_in (keywords : list string) (s : string) : bool :=
  existsb (fun k => contains k s) keywords.

End PyStr.


(** ** Python values, exceptions and results *)

(** A Python [float]: a finite value, written as the rational it
    denotes, or one of the special values. *)
Inductive pyfloat : Type :=
| Fin (q : Q)
| NaN
| Inf (negative : bool).

(** The Python objects the pipeline passes around: JSON-shaped data with
    string-keyed dictionaries.  A [dict] keeps its insertion order. *)
Inductive value : Type :=
| VNone
| VBool (b : bool)
| VInt (z : Z)
| VFloat (f : pyfloat)
| VStr (s : string)
| VList (l : list value)
| VDict (d : list (string * value)).

(** A raised exception: its class and [str(e)]. *)
Inductive exn : Type :=
| Exn (cls : string) (msg : string).

Definition exn_str (e : exn) : string := let 'Exn _ m := e in m.

Inductive result (A : Type) : Type :=
| Ok (a : A)
| Raise (e : exn).
Arguments Ok {A} a.
Arguments Raise {A} e.

Module Py.

Fixpoint lookup (k : string) (d : list (string * value)) : option value :=
  match d with
  | [] => None
  | (k', v) :: r => if String.eqb k k' then Some v else lookup k r
  end.

(** [d[k] = v]: an existing key keeps its place. *)
Fixpoint set (k : string) (v : value) (d : list (string * value)) : list (string * value) :=
  match d with
  | [] => [(k, v)]
  | (k', v') :: r => if String.eqb k k' then (k, v) :: r else (k', v') :: set k v r
  end.

Definition from_pairs (l : list (string * value)) : list (string * value) :=
  fold_left (fun d kv => set (fst kv) (snd kv) d) l [].

(** [bool(v)] *)
Definition truthy (v : value) : bool :=
  match v with
  | VNone => false
  | VBool b => b
  | VInt z => negb (z =? 0)%Z
  | VFloat (Fin q) => negb (Qeq_bool q 0)
  | VFloat _ => true
  | VStr s => negb (String.eqb s "")
  | VList l => match l with [] => false | _ => true end
  | VDict d => match d with [] => false | _ => true end
  end.

(** [v[k]] for a string key [k]. *)
Definition subscript (v : value) (k : string) : result value :=
  match v with
  | VDict d =>
      match lookup k d with
      | Some x => Ok x
      | None => Raise (Exn "KeyError" ("'" ++ k ++ "'"))
      end
  | _ => Raise (Exn "TypeError" "object is not subscriptable with a str key")
  end.

(** [v.get(k, default)] *)
Definition get (v : value) (k : string) (default : value) : result value :=
  match v with
  | VDict d => Ok (match lookup k d with Some x => x | None => default end)
  | _ => Raise (Exn "AttributeError" "object has no attribute 'get'")
  end.

(** [v == s] for a string literal [s]. *)
Definition eq_str (v : value) (s : string) : bool :=
  match v with
  | VStr t => String.eqb t s
  | _ => false
  end.

(** [a < b] on floats. *)
Definition float_ltb (a b : pyfloat) : bool :=
  match a, b with
  | Fin x, Fin y => match Qcompare x y with Lt => true | _ => false end
  | Fin _, Inf neg => negb neg
  | Inf neg, Fin _ => neg
  | Inf n1, Inf n2 => n1 && negb n2
  | _, _ => false
  end.

(** [v < f] for a float literal [f]. *)
Definition lt_float (v : value) (f : pyfloat) : result bool :=
  match v with
  | VFloat a => Ok (float_ltb a f)
  | VInt z => Ok (float_ltb (Fin (inject_Z z)) f)
  | VBool b => Ok (float_ltb (Fin (if b then 1 else 0)) f)
  | _ => Raise (Exn "TypeError" "'<' not supported between these instances")
  end.

(** *** Text of numbers *)

Definition digit_char (n : Z) : ascii := ascii_of_nat (48 + Z.to_nat n).

(** Decimal digits of a non-negative integer, most significant first. *)
Fixpoint digits_fuel (fuel : nat) (n : Z) : string :=
  match fuel with
  | O => EmptyString
  | S f =>
      if (n <? 10)%Z then String (digit_char n) EmptyString
      else digits_fuel f (n / 10)%Z ++ String (digit_char (n mod 10)%Z) EmptyString
  end.

Definition str_nat (n : Z) : string := digits_fuel (S (Z.to_nat (Z.log2 n))) n.

(** [str(z)] for an [int]. *)
Definition str_int (z : Z) : string :=
  if (z <? 0)%Z then "-" ++ str_nat (- z) else str_nat z.

(** Exactly [k] decimal digits of [n], padded with zeros. *)
Fixpoint digits_fixed (k : nat) (n : Z) : string :=
  match k with
  | O => EmptyString
  | S k' => digits_fixed k' (n / 10)%Z ++ String (digit_char (n mod 10)%Z) EmptyString
  end.

(** [repr(f)] for a float.  A finite value is printed by its decimal
    expansion, cut after 17 fractional digits, without trailing zeros;
    CPython prints the shortest decimal that reads back as the same
    binary64 number, which is the same text for the short decimals that
    occur in this program (0.5, 0.85, 0.9, ...). *)
Definition repr_float (f : pyfloat) : string :=
  match f with
  | NaN => "nan"
  | Inf neg => if neg then "-inf" else "inf"
  | Fin q =>
      let a := Z.abs (Qnum q) in
      let d := Zpos (Qden q) in
      let frac := PyStr.rstrip_by (fun c => Ascii.eqb c "0")
                    (digits_fixed 17 ((a mod d) * 10 ^ 17 / d)%Z) in
      (if (Qnum q <? 0)%Z then "-" else "") ++ str_nat (a / d)%Z ++ "." ++
      (match frac with EmptyString => "0" | _ => frac end)
  end.

Definition hex_char (n : nat) : ascii :=
  if (n <? 10)%nat then ascii_of_nat (48 + n) else ascii_of_nat (87 + n).

(** Two lowercase hexadecimal digits of a character code. *)
Definition hex2 (c : ascii) : string :=
  let n := PyStr.code c in
  String (hex_char (n / 16)) (String (hex_char (n mod 16)) EmptyString).

(** *** [repr] and [str] *)

(** [str.isprintable] on one character, as [repr] uses it. *)
Definition printable (c : ascii) : bool :=
  let n := PyStr.code c in
  PyStr.between 32 126 n || (PyStr.between 161 255 n && negb (n =? 173)%nat).

Definition repr_char (quote : ascii) (c : ascii) : string :=
  if Ascii.eqb c "\" then "\\"
  else if Ascii.eqb c quote then String "\" (String c EmptyString)
  else if (PyStr.code c =? 9)%nat then "\t"
  else if (PyStr.code c =? 10)%nat then "\n"
  else if (PyStr.code c =? 13)%nat then "\r"
  else if printable c then String c EmptyString
  else "\x" ++ hex2 c.

Fixpoint concat_map (f : ascii -> string) (s : string) : string :=
  match s with
  | EmptyString => EmptyString
  | String c r => f c ++ concat_map f r
  end.

(** [repr(s)] for a [str]: single quotes, unless the text has a single
    quote and no double quote. *)
Definition repr_str (s : string) : string :=
  let quote : ascii :=
    if PyStr.contains "'" s && negb (PyStr.contains (String PyStr.dquote EmptyString) s)
    then PyStr.dquote else "'"%char in
  String quote (concat_map (repr_char quote) s) ++ String quote EmptyString.

Fixpoint repr (v : value) : string :=
  match v with
  | VNone => "None"
  | VBool b => if b then "True" else "False"
  | VInt z => str_int z
  | VFloat f => repr_float f
  | VStr s => repr_str s
  | VList l => "[" ++ PyStr.join ", " (map repr l) ++ "]"
  | VDict d =>
      "{" ++ PyStr.join ", " (map (fun kv => repr_str (fst kv) ++ ": " ++ repr (snd kv)) d) ++ "}"
  end.

(** [str(v)], also what an f-string inserts. *)
Definition str (v : value) : string :=
  match v with
  | VStr s => s
  | _ => repr v
  end.

End Py.


(** ** The [json] module: [json.loads] and [json.dumps] *)

Module Json.

Import PyStr.

(** JSON whitespace: space, tab, line feed, carriage return. *)
Definition is_ws (c : ascii) : bool :=
  let n := code c in
  (n =? 32)%nat || (n =? 9)%nat || (n =? 10)%nat || (n =? 13)%nat.

Definition skip_ws (s : string) : string := lstrip_by is_ws s.

Definition is_digit (c : ascii) : bool := between 48 57 (code c).

(** The longest prefix of digits, and what follows it. *)
Fixpoint span_digits (s : string) : string * string :=
  match s with
  | EmptyString => (EmptyString, EmptyString)
  | String c r =>
      if is_digit c
      then let (ds, rest) := span_digits r in (String c ds, rest)
      else (EmptyString, s)
  end.

Fixpoint digits_value (acc : Z) (ds : string) : Z :=
  match ds with
  | EmptyString => acc
  | String c r => digits_value (acc * 10 + Z.of_nat (code c - 48))%Z r
  end.

Definition hex_val (c : ascii) : option nat :=
  let n := code c in
  if between 48 57 n then Some (n - 48)
  else if between 97 102 n then Some (n - 87)
  else if between 65 70 n then Some (n - 55)
  else None.

Definition hex4 (a b c d : ascii) : option nat :=
  match hex_val a, hex_val b, hex_val c, hex_val d with
  | Some x, Some y, Some z, Some w => Some (((x * 16 + y) * 16 + z) * 16 + w)
  | _, _, _, _ => None
  end.

(** The character a one-letter escape stands for. *)
Definition unescape (e : ascii) : option ascii :=
  if Ascii.eqb e dquote then Some dquote
  else if Ascii.eqb e "\" then Some "\"%char
  else if Ascii.eqb e "/" then Some "/"%char
  else if Ascii.eqb e "b" then Some (ascii_of_nat 8)
  else if Ascii.eqb e "f" then Some (ascii_of_nat 12)
  else if Ascii.eqb e "n" then Some (ascii_of_nat 10)
  else if Ascii.eqb e "r" then Some (ascii_of_nat 13)
  else if Ascii.eqb e "t" then Some (ascii_of_nat 9)
  else None.

Definition cons_fst (c : ascii) (p : option (string * string)) : option (string * string) :=
  match p with
  | Some (t, rest) => Some (String c t, rest)
  | None => None
  end.

(** The body of a string literal, from just after its opening quote:
    the decoded text and what follows the closing quote.  Control
    characters are refused (strict mode); a [\uXXXX] escape of a code
    point from 256 on denotes text outside the embedding and is refused
    too. *)
Fixpoint parse_string (s : string) : option (string * string) :=
  match s with
  | EmptyString => None
  | String c r =>
      if Ascii.eqb c dquote then Some (EmptyString, r)
      else if Ascii.eqb c "\" then
        match r with
        | EmptyString => None
        | String e r1 =>
            if Ascii.eqb e "u" then
              match r1 with
              | String h1 (String h2 (String h3 (String h4 r2))) =>
                  match hex4 h1 h2 h3 h4 with
                  | Some n =>
                      if (n <? 256)%nat then cons_fst (ascii_of_nat n) (parse_string r2)
                      else None
                  | None => None
                  end
              | _ => None
              end
            else match unescape e with
                 | Some ch => cons_fst ch (parse_string r1)
                 | None => None
                 end
        end
      else if (code c <? 32)%nat then None
      else cons_fst c (parse_string r)
  end.

Definition pow10 (n : Z) : Z := (10 ^ n)%Z.

(** Whether the next character of [s] is [c], and [s] without its first
    character. *)
Definition next_is (c : ascii) (s : string) : bool :=
  match s with
  | String d _ => Ascii.eqb d c
  | EmptyString => false
  end.

Definition tail (s : string) : string :=
  match s with
  | String _ r => r
  | EmptyString => EmptyString
  end.

(** The fraction part [.digits], if present. *)
Definition parse_frac (s : string) : option string * string :=
  if next_is "." s then
    match span_digits (tail s) with
    | (EmptyString, _) => (None, s)
    | (fd, rest) => (Some fd, rest)
    end
  else (None, s).

(** The exponent part [e] or [E], an optional sign, digits; if present. *)
Definition parse_exp (s : string) : option Z * string :=
  if next_is "e" s || next_is "E" s then
    let r := tail s in
    let neg := next_is "-" r in
    let r1 := if next_is "-" r || next_is "+" r then tail r else r in
    match span_digits r1 with
    | (EmptyString, _) => (None, s)
    | (ed, rest) =>
        let e := digits_value 0 ed in
        (Some (if neg then (- e)%Z else e), rest)
    end
  else (None, s).

(** A number: an [int] when it has neither fraction nor exponent, a
    [float] otherwise.  A float is kept as the exact value of its
    literal: the rounding to binary64, and the overflow to infinity of a
    literal beyond its range, are not modelled. *)
Definition parse_number (s : string) : option (value * string) :=
  let neg := next_is "-" s in
  let s1 := if neg then tail s else s in
  match s1 with
  | String c r =>
      if is_digit c then
        let (ip, r1) := if Ascii.eqb c "0" then (String c EmptyString, r) else span_digits s1 in
        let (frac, r2) := parse_frac r1 in
        let (ex, r3) := parse_exp r2 in
        let sign (z : Z) := if neg then (- z)%Z else z in
        match frac, ex with
        | None, None => Some (VInt (sign (digits_value 0 ip)), r3)
        | _, _ =>
            let fd := match frac with Some d => d | None => EmptyString end in
            let e := match ex with Some e => e | None => 0%Z end in
            let m := sign (digits_value 0 (ip ++ fd)) in
            let k := Z.of_nat (String.length fd) in
            let q := if (0 <=? e)%Z
                     then Qmake (m * pow10 e) (Z.to_pos (pow10 k))
                     else Qmake m (Z.to_pos (pow10 k * pow10 (- e))) in
            Some (VFloat (Fin (Qred q)), r3)
        end
      else None
  | EmptyString => None
  end.

(** [s] without the prefix [p], when it starts with it. *)
Definition after (p s : string) : option string :=
  if startswith s p then Some (drop (String.length p) s) else None.

(** The constants, then numbers, then the non-finite floats, in the
    order the scanner tries them. *)
Definition parse_atom (s : string) : option (value * string) :=
  match after "null" s with Some r => Some (VNone, r) | None =>
  match after "true" s with Some r => Some (VBool true, r) | None =>
  match after "false" s with Some r => Some (VBool false, r) | None =>
  match parse_number s with Some p => Some p | None =>
  match after "NaN" s with Some r => Some (VFloat NaN, r) | None =>
  match after "Infinity" s with Some r => Some (VFloat (Inf false), r) | None =>
  match after "-Infinity" s with Some r => Some (VFloat (Inf true), r) | None =>
  None end end end end end end end.

(** One value at the head of [s], and what follows it.  [fuel] bounds the
    nesting and the number of elements; the length of the text is enough
    (see [JsonFacts.fuel_is_enough]). *)
Fixpoint parse_value (fuel : nat) (s : string) : option (value * string) :=
  match fuel with
  | O => None
  | S f =>
      if next_is dquote s then
        match parse_string (tail s) with
        | Some (t, rest) => Some (VStr t, rest)
        | None => None
        end
      else if next_is "[" s then
        let r := skip_ws (tail s) in
        if next_is "]" r then Some (VList [], tail r) else parse_elems f r []
      else if next_is "{" s then
        let r := skip_ws (tail s) in
        if next_is "}" r then Some (VDict [], tail r) else parse_members f r []
      else parse_atom s
  end
with parse_elems (fuel : nat) (s : string) (acc : list value) : option (value * string) :=
  match fuel with
  | O => None
  | S f =>
      match parse_value f s with
      | Some (v, r) =>
          let r1 := skip_ws r in
          if next_is "," r1 then parse_elems f (skip_ws (tail r1)) (v :: acc)
          else if next_is "]" r1 then Some (VList (rev (v :: acc)), tail r1)
          else None
      | None => None
      end
  end
with parse_members (fuel : nat) (s : string) (acc : list (string * value)) : option (value * string) :=
  match fuel with
  | O => None
  | S f =>
      if next_is dquote s then
        match parse_string (tail s) with
        | Some (k, r1) =>
            let r2 := skip_ws r1 in
            if next_is ":" r2 then
              match parse_value f (skip_ws (tail r2)) with
              | Some (v, r3) =>
                  let r4 := skip_ws r3 in
                  if next_is "," r4 then parse_members f (skip_ws (tail r4)) ((k, v) :: acc)
                  else if next_is "}" r4
                  then Some (VDict (Py.from_pairs (rev ((k, v) :: acc))), tail r4)
                  else None
              | None => None
              end
            else None
        | None => None
        end
      else None
  end.

(** [json.loads(s)]; [None] stands for the exception it raises on text
    that is not one JSON document. *)
Definition loads (s : string) : option value :=
  match parse_value (S (String.length s)) (skip_ws s) with
  | Some (v, rest) =>
      match skip_ws rest with
      | EmptyString => Some v
      | _ => None
      end
  | None => None
  end.

(** How [json.dumps] writes one character of a string
    ([ensure_ascii=True]). *)
Definition escape_char (c : ascii) : string :=
  let n := code c in
  if Ascii.eqb c dquote then String "\" (String dquote EmptyString)
  else if Ascii.eqb c "\" then "\\"
  else if (n =? 10)%nat then "\n"
  else if (n =? 13)%nat then "\r"
  else if (n =? 9)%nat then "\t"
  else if (n =? 12)%nat then "\f"
  else if (n =? 8)%nat then "\b"
  else if between 32 126 n then String c EmptyString
  else "\u00" ++ Py.hex2 c.

Definition dumps_str (s : string) : string :=
  String dquote (Py.concat_map escape_char s) ++ String dquote EmptyString.

(** [json.dumps(v)] with the default separators. *)
Fixpoint dumps (v : value) : string :=
  match v with
  | VNone => "null"
  | VBool b => if b then "true" else "false"
  | VInt z => Py.str_int z
  | VFloat NaN => "NaN"
  | VFloat (Inf neg) => if neg then "-Infinity" else "Infinity"
  | VFloat f => Py.repr_float f
  | VStr s => dumps_str s
  | VList l => "[" ++ join ", " (map dumps l) ++ "]"
  | VDict d => "{" ++ join ", " (map (fun kv => dumps_str (fst kv) ++ ": " ++ dumps (snd kv)) d) ++ "}"
  end.

End Json.

(** ** Computations that may call the completion capability *)

(** [Brain.generate_response]: the text returned for a prompt.  The method
    catches every failure of the model call and returns an error text, so
    it always returns a string.  Each operation below calls it at most
    once, so a function of the prompt describes every behaviour it can
    show to one operation. *)
Definition Brain : Type := string -> string.

(** A computation run against a brain: its outcome, and the prompts it
    sent to the completion capability, in order. *)
Definition M (A : Type) : Type := Brain -> result A * list string.

Definition ret {A} (a : A) : M A := fun _ => (Ok a, []).

Definition bind {A B} (m : M A) (k : A -> M B) : M B :=
  fun brain =>
    match m brain with
    | (Ok a, sent) => let (r, sent') := k a brain in (r, (sent ++ sent')%list)
    | (Raise e, sent) => (Raise e, sent)
    end.

Definition lift {A} (r : result A) : M A := fun _ => (r, []).

Definition generate_response (prompt : string) : M string :=
  fun brain => (Ok (brain prompt), [prompt]).

Notation "x <- m ;; k" := (bind m (fun x => k))
  (at level 61, m at next level, right associativity).

(** Prompt templates are written with a backquote where the source has a
    double quote; [tpl] puts the double quotes back. *)
Fixpoint tpl (s : string) : string :=
  match s with
  | EmptyString => EmptyString
  | String c r => String (if Ascii.eqb c "`" then PyStr.dquote else c) (tpl r)
  end.

(** ** The [re] module, for the patterns of [_extract_file_path] *)

Module Re.

Import PyStr.

Inductive re : Type :=
| Cls (p : ascii -> bool)   (* one character of a class *)
| Str (s : string)          (* literal text *)
| Seq (a b : re)
| Alt (a b : re)
| Plus (a : re)             (* greedy [a+] *)
| WordB                     (* [\b] *)
| Group1 (a : re).          (* the capturing group number 1 *)

(** The class [\w] *)
Definition is_word (c : ascii) : bool :=
  let n := code c in
  between 48 57 n || between 65 90 n || (n =? 95)%nat || between 97 122 n ||
  (n =? 170)%nat || between 178 179 n || (n =? 181)%nat || between 185 186 n ||
  between 188 190 n || between 192 214 n || between 216 246 n || between 248 255 n.

Definition is_alpha (c : ascii) : bool :=
  between 65 90 (code c) || between 97 122 (code c).

Definition word_opt (c : option ascii) : bool :=
  match c with Some x => is_word x | None => false end.

Definition head (s : string) : option ascii :=
  match s with String c _ => Some c | EmptyString => None end.

Fixpoint last_char (prev : option ascii) (s : string) : option ascii :=
  match s with
  | EmptyString => prev
  | String c r => last_char (Some c) r
  end.

Section Matcher.
Variable A : Type.

(** Backtracking match of [r] at the head of [s]; [prev] is the
    character before it, [cap] the text of group 1 so far; [k] continues
    with what is left and decides whether the match stands. *)
Fixpoint run (r : re) (prev : option ascii) (s : string) (cap : option string)
    (k : option ascii -> string -> option string -> option A) : option A :=
  match r with
  | Cls p =>
      match s with
      | String c rest => if p c then k (Some c) rest cap else None
      | EmptyString => None
      end
  | Str t =>
      if startswith s t
      then k (last_char prev (take (String.length t) s)) (drop (String.length t) s) cap
      else None
  | Seq a b => run a prev s cap (fun prev' s' cap' => run b prev' s' cap' k)
  | Alt a b =>
      match run a prev s cap k with
      | Some x => Some x
      | None => run b prev s cap k
      end
  | Plus a =>
      (fix loop (n : nat) (prev : option ascii) (s : string) (cap : option string) : option A :=
         run a prev s cap (fun prev' s' cap' =>
           match n with
           | S n' =>
               if (String.length s' <? String.length s)%nat
               then match loop n' prev' s' cap' with
                    | Some x => Some x
                    | None => k prev' s' cap'
                    end
               else k prev' s' cap'
           | O => k prev' s' cap'
           end)) (String.length s) prev s cap
  | WordB => if xorb (word_opt prev) (word_opt (head s)) then k prev s cap else None
  | Group1 a =>
      run a prev s cap (fun prev' s' _ =>
        k prev' s' (Some (take (String.length s - String.length s') s)))
  end.

End Matcher.

(** [re.search(r, s)], then [.group(1)] of the match. *)
Fixpoint search_from (r : re) (prev : option ascii) (s : string) : option (option string) :=
  match run _ r prev s None (fun _ _ cap => Some cap) with
  | Some cap => Some cap
  | None =>
      match s with
      | EmptyString => None
      | String c rest => search_from r (Some c) rest
      end
  end.

Definition search_group1 (r : re) (s : string) : option string :=
  match search_from r None s with
  | Some (Some g) => Some g
  | _ => None
  end.

Definition chr_in (chars : string) : re := Cls (fun c => mem_char c chars).
Definition chr_not_in (chars : string) : re := Cls (fun c => negb (mem_char c chars)).

Fixpoint alts (l : list string) : re :=
  match l with
  | [] => Cls (fun _ => false)
  | [x] => Str x
  | x :: r => Alt (Str x) (alts r)
  end.

End Re.

(** ** [core/intent.py]: the intent classifier *)

Module IntentExtractor.

Import PyStr.

Definition mem_str (s : string) (l : list string) : bool :=
  existsb (String.eqb s) l.

(** [app_patterns], in the order the dictionary lists them. *)
Definition app_patterns : list (string * string) :=
  [("vs code", "vscode"); ("visual studio code", "vscode"); ("vs", "vscode"); ("code", "vscode")].

(** The body of the keyword loop of [_extract_app_name] once the text
    after the keyword is known: [Some] when it returns, [None] when the
    loop goes on to the next keyword. *)
Definition app_name_of (remaining : string) : option string :=
  match List.find (fun p => startswith remaining (fst p)) app_patterns with
  | Some (_, app_name) => Some app_name
  | None =>
      let words := split_ws remaining in
      match words with
      | [] => None
      | w0 :: _ =>
          let w1 := nth 1 words EmptyString in
          if mem_str w0 ["the"; "a"; "an"] && (1 <? List.length words)%nat then
            if (2 <=? List.length words)%nat then
              if String.eqb w0 "vs" && String.eqb w1 "code" then Some "vscode"
              else if (3 <=? List.length words)%nat
                      && String.eqb (join " " (firstn 3 words)) "visual studio code"
              then Some "vscode"
              else Some (join " " (firstn 2 words))
            else Some w1
          else
            if (2 <=? List.length words)%nat && String.eqb w0 "vs" && String.eqb w1 "code"
            then Some "vscode"
            else Some w0
      end
  end.

Fixpoint app_name_loop (keywords : list string) (message_lower : string) : option string :=
  match keywords with
  | [] => None
  | keyword :: rest =>
      if contains keyword message_lower then
        let parts := split1 message_lower keyword in
        if (1 <? List.length parts)%nat then
          match app_name_of (strip (nth 1 parts EmptyString)) with
          | Some app_name => Some app_name
          | None => app_name_loop rest message_lower
          end
        else app_name_loop rest message_lower
      else app_name_loop rest message_lower
  end.

Definition _extract_app_name (message : string) : option string :=
  app_name_loop ["open"; "launch"; "start"] (lower message).

(** The loop shared by [_extract_search_query] and [_extract_command]:
    for the first keyword that occurs, the stripped text after its first
    occurrence. *)
Fixpoint text_after_keyword (keywords : list string) (message_lower : string) : option string :=
  match keywords with
  | [] => None
  | keyword :: rest =>
      if contains keyword message_lower then
        let parts := split1 message_lower keyword in
        if (1 <? List.length parts)%nat then Some (strip (nth 1 parts EmptyString))
        else text_after_keyword rest message_lower
      else text_after_keyword rest message_lower
  end.

Definition _extract_search_query (message : string) : string :=
  let message_lower := lower message in
  match text_after_keyword ["play"] message_lower with
  | Some q => q
  | None =>
      match text_after_keyword ["search"; "find"; "look up"; "google"; "youtube"] message_lower with
      | Some q => q
      | None => message
      end
  end.

Definition _extract_command (message : string) : option string :=
  let message_lower := lower message in
  match text_after_keyword ["run"; "execute"; "command"] message_lower with
  | Some c => Some c
  | None =>
      if startswith message "$" || startswith message "`"
      then Some (strip (strip_chars message "$`"))
      else None
  end.

Definition quotes : string := String dquote "'".

(** The three patterns of [_extract_file_path]; the inner group of the
    first one is not read, so it is not recorded. *)
Definition file_patterns : list Re.re :=
  [ Re.Seq (Re.chr_in quotes)
      (Re.Seq (Re.Group1 (Re.Seq (Re.Plus (Re.chr_not_in quotes))
                 (Re.Seq (Re.Str ".")
                    (Re.alts ["txt"; "py"; "json"; "md"; "yaml"; "yml"; "xml"; "html"; "css"; "js"]))))
         (Re.chr_in quotes));
    Re.Seq Re.WordB
      (Re.Group1 (Re.Seq (Re.Cls Re.is_alpha) (Re.Seq (Re.Str ":") (Re.Seq (Re.chr_in "\/")
         (Re.Seq (Re.Plus (Re.Cls (fun c => negb (is_space c))))
            (Re.Seq (Re.Str ".") (Re.Plus (Re.Cls Re.is_word))))))));
    Re.Seq Re.WordB
      (Re.Group1 (Re.Seq (Re.chr_in "./")
         (Re.Seq (Re.Plus (Re.Cls (fun c => negb (is_space c))))
            (Re.Seq (Re.Str ".") (Re.Plus (Re.Cls Re.is_word)))))) ].

Fixpoint first_match (patterns : list Re.re) (message : string) : option string :=
  match patterns with
  | [] => None
  | pattern :: rest =>
      match Re.search_group1 pattern message with
      | Some g => Some g
      | None => first_match rest message
      end
  end.

Definition _extract_file_path (message : string) : option string :=
  first_match file_patterns message.

(** [if x:] on an optional string *)
Definition nonempty (x : option string) : option string :=
  match x with
  | Some EmptyString => None
  | other => other
  end.

Definition intent_dict (kind : string) (confidence : Q) (parameters : list (string * value)) : value :=
  VDict [("intent", VStr kind); ("confidence", VFloat (Fin confidence)); ("parameters", VDict parameters)].

Definition conversational_default : value := intent_dict "conversational" (5 # 10) [].

Definition read_rule (message message_lower : string) : value :=
  match (if any_in ["read"; "show"; "display"; "file"] message_lower
         then nonempty (_extract_file_path message) else None) with
  | Some file_path => intent_dict "read_file" (8 # 10) [("file_path", VStr file_path)]
  | None => conversational_default
  end.

Definition run_rule (message message_lower : string) : value :=
  match (if any_in ["run"; "execute"; "command"; "terminal"] message_lower
         then nonempty (_extract_command message) else None) with
  | Some command => intent_dict "run_command" (9 # 10) [("command", VStr command)]
  | None => read_rule message message_lower
  end.

Definition search_rule (message message_lower : string) : value :=
  if any_in ["search"; "find"; "look up"; "google"; "youtube"] message_lower then
    intent_dict "web_search"
      (if contains "youtube" message_lower then 9 # 10 else 85 # 100)
      [("query", VStr (_extract_search_query message))]
  else run_rule message message_lower.

Definition play_rule (message message_lower : string) : value :=
  if contains "play" message_lower then
    intent_dict "web_search" (95 # 100) [("query", VStr (_extract_search_query message))]
  else search_rule message message_lower.

(** The rules in their order: open/launch/start, play, search, run, read,
    and the conversational default. *)
Definition _rule_based_extraction (message : string) : value :=
  let message_lower := lower message in
  match (if any_in ["open"; "launch"; "start"] message_lower
         then nonempty (_extract_app_name message) else None) with
  | Some app_name => intent_dict "open_app" (9 # 10) [("app_name", VStr app_name)]
  | None => play_rule message message_lower
  end.

Definition extraction_prompt (message : string) : string :=
  tpl "Analyze this user message and extract the intent and parameters.

User message: `" ++ message ++ tpl "`

Respond in JSON format with:
- intent: one of [`open_app`, `web_search`, `run_command`, `read_file`, `conversational`, `multi_step`]
- confidence: float between 0 and 1
- parameters: object with relevant parameters

Examples:
- `open vscode` -> {`intent`: `open_app`, `confidence`: 0.95, `parameters`: {`app_name`: `vscode`}}
- `search python decorators` -> {`intent`: `web_search`, `confidence`: 0.95, `parameters`: {`query`: `python decorators`}}
- `what's the weather?` -> {`intent`: `conversational`, `confidence`: 0.9, `parameters`: {}}

Respond with ONLY valid JSON, no other text:".

(** The [try] block of [_llm_assisted_extraction]: the JSON document
    between the first opening brace and the last closing brace, when
    there is one and it parses. *)
Definition parse_object_text (response : string) : option value :=
  let json_start := find response "{" in
  let json_end := (rfind response "}" + 1)%Z in
  if (0 <=? json_start)%Z && (json_start <? json_end)%Z
  then Json.loads (slice response json_start json_end)
  else None.

Definition _llm_assisted_extraction (message : string) : M value :=
  response <- generate_response (extraction_prompt message) ;;
  match parse_object_text response with
  | Some intent_data => ret intent_data
  | None => ret conversational_default
  end.

Definition threshold : pyfloat := Fin (7 # 10).

Definition extract_intent (message : string) : M value :=
  let intent := _rule_based_extraction message in
  confidence <- lift (Py.subscript intent "confidence") ;;
  unclear <- lift (Py.lt_float confidence threshold) ;;
  if (unclear : bool) then _llm_assisted_extraction message else ret intent.

End IntentExtractor.

(** ** [core/planner.py]: the task planner *)

Module Planner.

Import PyStr.

Definition complex_indicators : list string := ["and"; "then"; "after"; "also"; "plus"; ","].

Definition _is_complex_request (request : string) : bool :=
  any_in complex_indicators (lower request).

(** The dictionary [mapping] of [_map_intent_to_skill]. *)
Definition mapping : list (string * string) :=
  [("open_app", "open_app");
   ("web_search", "web_search");
   ("run_command", "run_command");
   ("read_file", "read_file");
   ("conversational", "conversational")].

Fixpoint mapping_get (m : list (string * string)) (k default : string) : string :=
  match m with
  | [] => default
  | (k', v) :: r => if String.eqb k k' then v else mapping_get r k default
  end.

(** [mapping.get(intent, "conversational")]; the keys are strings, and a
    list or a dictionary cannot be hashed. *)
Definition _map_intent_to_skill (intent : value) : result string :=
  match intent with
  | VStr s => Ok (mapping_get mapping s "conversational")
  | VList _ => Raise (Exn "TypeError" "unhashable type: 'list'")
  | VDict _ => Raise (Exn "TypeError" "unhashable type: 'dict'")
  | _ => Ok "conversational"
  end.

Definition rbind {A B} (r : result A) (k : A -> result B) : result B :=
  match r with
  | Ok a => k a
  | Raise e => Raise e
  end.

(** The one-step plan that [plan] and the fallback of [_llm_plan] build. *)
Definition single_step (intent : value) : result (list value) :=
  rbind (Py.subscript intent "intent") (fun kind =>
  rbind (_map_intent_to_skill kind) (fun skill =>
  rbind (Py.subscript intent "parameters") (fun parameters =>
  Ok [VDict [("step", VInt 1);
             ("skill", VStr skill);
             ("parameters", parameters);
             ("description", VStr ("Execute " ++ Py.str kind))]]))).

Definition file_keywords : list string :=
  ["create"; "write"; "make"; "file"; "java"; "python"; "code"; "program"].

Definition file_creation_note (user_request : string) : string :=
  if any_in file_keywords (lower user_request)
  then String (ascii_of_nat 10) (String (ascii_of_nat 10)
       "CRITICAL: If the request involves creating or writing a file, you MUST use the 'write_file' skill with 'file_path' and 'content' parameters. NEVER use 'run_command' with echo for file creation as it doesn't work reliably on Windows.")
  else EmptyString.

Definition plan_prompt (available_skills : list string) (user_request : string) (kind : value) : string :=
  tpl "Break down this user request into a step-by-step plan.

User Request: `" ++ user_request ++ tpl "`
Intent: " ++ Py.str kind ++ "

Available Skills: " ++ join ", " available_skills ++ "
" ++ file_creation_note user_request ++ tpl "

Create a plan with multiple steps. For each step, specify:
- step: step number
- skill: which skill to use (must be one of the available skills)
- parameters: parameters needed for that skill (for write_file, use `file_path` and `content`)
- description: what this step does

For file creation, ALWAYS use write_file skill. Example for creating a Java file:
{`step`: 2, `skill`: `write_file`, `parameters`: {`file_path`: `HelloWorld.java`, `content`: `public class HelloWorld {\n    public static void main(String[] args) {\n        System.out.println(\`Hello, World!\`);\n    }\n}`}, `description`: `Create HelloWorld.java file`}

Respond in JSON format as an array of step objects. Example:
[
  {`step`: 1, `skill`: `open_app`, `parameters`: {`app_name`: `vscode`}, `description`: `Open VS Code`},
  {`step`: 2, `skill`: `write_file`, `parameters`: {`file_path`: `HelloWorld.java`, `content`: `public class HelloWorld {\n    public static void main(String[] args) {\n        System.out.println(\`Hello, World!\`);\n    }\n}`}, `description`: `Create HelloWorld.java file`}
]

Respond with ONLY valid JSON array, no other text:".

(** The [try] block of [_llm_plan]: the JSON document between the first
    opening bracket and the last closing bracket, when there is one, it
    parses, and it is a list. *)
Definition parse_array_text (response : string) : option (list value) :=
  let json_start := find response "[" in
  let json_end := (rfind response "]" + 1)%Z in
  if (0 <=? json_start)%Z && (json_start <? json_end)%Z then
    match Json.loads (slice response json_start json_end) with
    | Some (VList plan) => Some plan
    | _ => None
    end
  else None.

Definition _llm_plan (available_skills : list string) (user_request : string) (intent : value)
    : M (list value) :=
  kind <- lift (Py.subscript intent "intent") ;;
  response <- generate_response (plan_prompt available_skills user_request kind) ;;
  match parse_array_text response with
  | Some plan => ret plan
  | None => lift (single_step intent)
  end.

Definition plan (available_skills : list string) (user_request : string) (intent : value)
    : M (list value) :=
  kind <- lift (Py.subscript intent "intent") ;;
  if Py.eq_str kind "multi_step" || _is_complex_request user_request
  then _llm_plan available_skills user_request intent
  else lift (single_step intent).

End Planner.

(** ** [core/skill_registry.py]: the capability registry *)

Module SkillRegistry.

Section Registry.

(** The part of the machine that skills act on. *)
Context {World : Type}.

(** A skill: [run] returns a result or raises, and may change the world. *)
Record Skill : Type := {
  name : string;
  description : string;
  run : value -> World -> result value * World
}.

(** [self.skills], the dictionary from names to skill instances. *)
Definition registry : Type := list (string * Skill).

Fixpoint skills_get (skills : registry) (k : string) : option Skill :=
  match skills with
  | [] => None
  | (k', s) :: r => if String.eqb k k' then Some s else skills_get r k
  end.

(** [self.skills.get(skill_name)]; the keys are strings, and a list or a
    dictionary cannot be hashed. *)
Definition get_skill (skills : registry) (skill_name : value) : result (option Skill) :=
  match skill_name with
  | VStr s => Ok (skills_get skills s)
  | VList _ => Raise (Exn "TypeError" "unhashable type: 'list'")
  | VDict _ => Raise (Exn "TypeError" "unhashable type: 'dict'")
  | _ => Ok None
  end.

Definition list_skills (skills : registry) : list string := map fst skills.

Definition failure (error : string) : value :=
  VDict [("success", VBool false); ("error", VStr error)].

Definition execute_skill (skills : registry) (skill_name : value) (parameters : value)
    (w : World) : result value * World :=
  match get_skill skills skill_name with
  | Raise e => (Raise e, w)
  | Ok None => (Ok (failure ("Skill '" ++ Py.str skill_name ++ "' not found")), w)
  | Ok (Some skill) =>
      match run skill parameters w with
      | (Ok r, w') => (Ok r, w')
      | (Raise e, w') => (Ok (failure (exn_str e)), w')
      end
  end.

End Registry.

Arguments Skill : clear implicits.
Arguments registry : clear implicits.

End SkillRegistry.

(** ** [routes/ask.py]: the execution coordinator *)

Module Executor.

Import SkillRegistry.

Section Execute.

Context {World : Type}.

(** An entry of [results]: the dictionary with the keys [step],
    [description] and [result]. *)
Record entry : Type := {
  step_number : value;
  step_description : value;
  step_result : value
}.

(** The loop of [execute_plan] over the steps of the plan, in order.  The
    four [step.get] calls are on the same object: they all succeed when
    the step is a dictionary, and the first one raises when it is not. *)
Fixpoint run_steps (skills : registry World) (plan : list value) (w : World)
    : result (list entry) * World :=
  match plan with
  | [] => (Ok [], w)
  | st :: rest =>
      match Py.get st "skill" (VStr "conversational"),
            Py.get st "parameters" (VDict []),
            Py.get st "description" (VStr EmptyString),
            Py.get st "step" (VInt 0) with
      | Ok skill_name, Ok parameters, Ok descr, Ok number =>
          match execute_skill skills skill_name parameters w with
          | (Ok r, w') =>
              match run_steps skills rest w' with
              | (Ok results, w'') =>
                  (Ok ({| step_number := number; step_description := descr; step_result := r |} :: results), w'')
              | (Raise e, w'') => (Raise e, w'')
              end
          | (Raise e, w') => (Raise e, w')
          end
      | Raise e, _, _, _ | _, Raise e, _, _ | _, _, Raise e, _ | _, _, _, Raise e => (Raise e, w)
      end
  end.

(** The branch for one successful step: the first of the fields
    [formatted], [content], [message], [stdout] that the result has, or
    [str(result)]. *)
Definition unwrap (r : value) : value :=
  match r with
  | VDict d =>
      match Py.lookup "formatted" d with
      | Some v => v
      | None =>
          match Py.lookup "content" d with
          | Some v => v
          | None =>
              match Py.lookup "message" d with
              | Some v => v
              | None =>
                  match Py.lookup "stdout" d with
                  | Some v => v
                  | None => VStr (Py.str r)
                  end
              end
          end
      end
  | _ => VStr (Py.str r)
  end.

Definition nl : string := String (ascii_of_nat 10) EmptyString.

Definition results_text (results : list entry) : string :=
  PyStr.join nl
    (map (fun r => "Step " ++ Py.str (step_number r) ++ ": " ++ Py.str (step_description r) ++ nl ++
                   "Result: " ++ Py.str (step_result r) ++ nl) results).

Definition summary_prompt (user_message : string) (results : list entry) : string :=
  tpl "The user requested: `" ++ user_message ++ tpl "`

I executed the following steps:
" ++ results_text results ++ "

Provide a clear, concise summary of what was accomplished, combining all the results into a natural response.".

Definition summarize (user_message : string) (results : list entry) (brain : Brain)
    : result value * list string :=
  let prompt := summary_prompt user_message results in
  (Ok (VStr (brain prompt)), [prompt]).

(** [execute_plan(plan, user_message, brain)] with the registry it
    loads: the returned value, the prompts sent to the completion
    capability, and the world the skills leave. *)
Definition execute_plan (skills : registry World) (plan : list value) (user_message : string)
    (brain : Brain) (w : World) : (result value * list string) * World :=
  match run_steps skills plan w with
  | (Raise e, w') => ((Raise e, []), w')
  | (Ok results, w') =>
      match results with
      | [r] =>
          match Py.get (step_result r) "success" VNone with
          | Raise e => ((Raise e, []), w')
          | Ok success =>
              if Py.truthy success
              then ((Ok (unwrap (step_result r)), []), w')
              else (summarize user_message results brain, w')
          end
      | _ => (summarize user_message results brain, w')
      end
  end.

End Execute.

End Executor.

(** ** [core/memory.py]: the memory store *)

Module Memory.

(** A [datetime] in UTC, as microseconds since 1970-01-01T00:00:00. *)
Definition datetime : Type := Z.

Definition pad (k : nat) (n : Z) : string := Py.digits_fixed k n.

(** [dt.isoformat()], for the years 1 to 9999 that [datetime] has: the
    civil date of the day number, then the time of day, with the
    microseconds when they are not zero. *)
Definition isoformat (dt : datetime) : string :=
  let days := (dt / 86400000000)%Z in
  let us := (dt mod 86400000000)%Z in
  let z := (days + 719468)%Z in
  let era := (z / 146097)%Z in
  let doe := (z - era * 146097)%Z in
  let yoe := ((doe - doe / 1460 + doe / 36524 - doe / 146096) / 365)%Z in
  let doy := (doe - (365 * yoe + yoe / 4 - yoe / 100))%Z in
  let mp := ((5 * doy + 2) / 153)%Z in
  let d := (doy - (153 * mp + 2) / 5 + 1)%Z in
  let m := (if mp <? 10 then mp + 3 else mp - 9)%Z in
  let y := (yoe + era * 400 + (if m <=? 2 then 1 else 0))%Z in
  let secs := (us / 1000000)%Z in
  let micro := (us mod 1000000)%Z in
  pad 4 y ++ "-" ++ pad 2 m ++ "-" ++ pad 2 d ++ "T" ++
  pad 2 (secs / 3600)%Z ++ ":" ++ pad 2 (secs / 60 mod 60)%Z ++ ":" ++ pad 2 (secs mod 60)%Z ++
  (if (micro =? 0)%Z then EmptyString else "." ++ pad 6 micro).

(** [str(dt.timestamp())]: the seconds since the epoch as a float, the
    local zone being UTC. *)
Definition timestamp_str (dt : datetime) : string :=
  Py.repr_float (Fin (Qred (Qmake dt 1000000))).

Record UserPreference : Type := {
  pref_id : nat;
  key : string;
  value_of : string;
  pref_created_at : datetime;
  pref_updated_at : datetime
}.

Record ConversationHistory : Type := {
  id : nat;
  user_message : string;
  assistant_response : string;
  intent : option string;
  skills_used : option string;      (* JSON array of skill names *)
  created_at : datetime
}.

(** An entry of the [semantic_memory] collection. *)
Record SemanticEntry : Type := {
  entry_id : string;
  document : string;
  metadata : list (string * value)
}.

(** An access to one of the two stores. *)
Inductive event : Type :=
| SqlSelect (table : string)
| SqlCommit (table : string)
| ChromaAdd (entry : string).

(** The two stores, the number of clock readings taken so far, and the
    accesses attempted so far, oldest first. *)
Record State : Type := {
  user_preferences : list UserPreference;
  conversation_history : list ConversationHistory;
  semantic_memory : list SemanticEntry;
  ticks : nat;
  attempts : list event
}.

(** What the store does not control: the successive readings of
    [datetime.utcnow()], and whether each store can be reached. *)
Record Env : Type := {
  clock : nat -> datetime;
  sql_up : bool;
  chroma_up : bool
}.

Definition Mem (A : Type) : Type := Env -> State -> result A * State.

Definition mret {A} (a : A) : Mem A := fun _ st => (Ok a, st).

Definition mbind {A B} (m : Mem A) (k : A -> Mem B) : Mem B :=
  fun env st =>
    match m env st with
    | (Ok a, st') => k a env st'
    | (Raise e, st') => (Raise e, st')
    end.

Notation "x <~ m ;; k" := (mbind m (fun x => k))
  (at level 61, m at next level, right associativity).

Definition mraise {A} (e : exn) : Mem A := fun _ st => (Raise e, st).

Definition record (ev : event) (st : State) : State :=
  {| user_preferences := user_preferences st;
     conversation_history := conversation_history st;
     semantic_memory := semantic_memory st;
     ticks := ticks st;
     attempts := (attempts st ++ [ev])%list |}.

(** [datetime.utcnow()] *)
Definition utcnow : Mem datetime :=
  fun env st =>
    (Ok (clock env (ticks st)),
     {| user_preferences := user_preferences st;
        conversation_history := conversation_history st;
        semantic_memory := semantic_memory st;
        ticks := S (ticks st);
        attempts := attempts st |}).

Definition unreachable (store : string) : exn :=
  Exn "OperationalError" (store ++ " cannot be reached").

(** A query of a session: it reads the tables, or fails. *)
Definition sql_select {A} (table : string) (q : State -> A) : Mem A :=
  fun env st =>
    let st1 := record (SqlSelect table) st in
    if sql_up env then (Ok (q st), st1) else (Raise (unreachable "database"), st1).

(** [session.commit()]: the pending changes are applied, or it fails and
    nothing is changed. *)
Definition sql_commit (table : string) (change : State -> State) : Mem unit :=
  fun env st =>
    let st1 := record (SqlCommit table) st in
    if sql_up env then (Ok tt, change st1) else (Raise (unreachable "database"), st1).

Definition set_preferences (rows : list UserPreference) (st : State) : State :=
  {| user_preferences := rows;
     conversation_history := conversation_history st;
     semantic_memory := semantic_memory st;
     ticks := ticks st;
     attempts := attempts st |}.

Definition set_history (rows : list ConversationHistory) (st : State) : State :=
  {| user_preferences := user_preferences st;
     conversation_history := rows;
     semantic_memory := semantic_memory st;
     ticks := ticks st;
     attempts := attempts st |}.

Definition set_semantic (entries : list SemanticEntry) (st : State) : State :=
  {| user_preferences := user_preferences st;
     conversation_history := conversation_history st;
     semantic_memory := entries;
     ticks := ticks st;
     attempts := attempts st |}.

(** [select(UserPreference).where(UserPreference.key == key)] then
    [.first()]; rows come in the order of the table. *)
Definition first_with_key (k : string) (rows : list UserPreference) : option UserPreference :=
  List.find (fun p => String.eqb (key p) k) rows.

(** The row that query returned, updated in its place: the first row of
    the table with the key [k]. *)
Fixpoint update_first (k v : string) (now : datetime) (rows : list UserPreference)
    : list UserPreference :=
  match rows with
  | [] => []
  | p :: r =>
      if String.eqb (key p) k
      then {| pref_id := pref_id p; key := key p; value_of := v;
              pref_created_at := pref_created_at p; pref_updated_at := now |} :: r
      else p :: update_first k v now r
  end.

Definition save_preference (k v : string) : Mem unit :=
  existing <~ sql_select "user_preferences" (fun st => first_with_key k (user_preferences st)) ;;
  match existing with
  | Some _ =>
      now <~ utcnow ;;
      sql_commit "user_preferences"
        (fun st => set_preferences (update_first k v now (user_preferences st)) st)
  | None =>
      created <~ utcnow ;;
      updated <~ utcnow ;;
      sql_commit "user_preferences"
        (fun st => set_preferences
           (user_preferences st ++
            [{| pref_id := S (List.length (user_preferences st)); key := k; value_of := v;
                pref_created_at := created; pref_updated_at := updated |}])%list st)
  end.

Definition get_preference (k : string) : Mem (option string) :=
  pref <~ sql_select "user_preferences" (fun st => first_with_key k (user_preferences st)) ;;
  mret (option_map value_of pref).

(** [{p.key: p.value for p in prefs}] *)
Definition get_all_preferences : Mem (list (string * value)) :=
  prefs <~ sql_select "user_preferences" user_preferences ;;
  mret (Py.from_pairs (map (fun p => (key p, VStr (value_of p))) prefs)).

(** [json.dumps(skills_used) if skills_used else ...] *)
Definition dumps_skills (skills : option (list string)) : option string :=
  match skills with
  | None | Some [] => None
  | Some l => Some (Json.dumps (VList (map VStr l)))
  end.

Definition or_else (x : option string) (default : string) : string :=
  match x with
  | None | Some EmptyString => default
  | Some s => s
  end.

Definition nl : string := String (ascii_of_nat 10) EmptyString.

(** [self.memory_collection.add(...)] *)
Definition chroma_add (e : SemanticEntry) : Mem unit :=
  fun env st =>
    let st1 := record (ChromaAdd (entry_id e)) st in
    if chroma_up env
    then (Ok tt, set_semantic (semantic_memory st1 ++ [e])%list st1)
    else (Raise (unreachable "collection"), st1).

Definition save_conversation (user_msg assistant_resp : string)
    (intent_ : option string) (skills : option (list string)) : Mem unit :=
  created <~ utcnow ;;
  _ <~ sql_commit "conversation_history"
        (fun st => set_history
           (conversation_history st ++
            [{| id := S (List.length (conversation_history st));
                user_message := user_msg;
                assistant_response := assistant_resp;
                intent := intent_;
                skills_used := dumps_skills skills;
                created_at := created |}])%list st) ;;
  let conversation_text := "User: " ++ user_msg ++ nl ++ "Assistant: " ++ assistant_resp in
  stamp <~ utcnow ;;
  ident <~ utcnow ;;
  chroma_add {| entry_id := "conv_" ++ timestamp_str ident;
                document := conversation_text;
                metadata := [("intent", VStr (or_else intent_ "unknown"));
                             ("timestamp", VStr (isoformat stamp));
                             ("skills", VStr (or_else (dumps_skills skills) EmptyString))] |}.

(** [ORDER BY created_at DESC]: rows with equal times keep the order of
    the table. *)
Fixpoint insert_desc (c : ConversationHistory) (l : list ConversationHistory)
    : list ConversationHistory :=
  match l with
  | [] => [c]
  | y :: r => if (created_at y <=? created_at c)%Z then c :: l else y :: insert_desc c r
  end.

Fixpoint order_by_created_at_desc (l : list ConversationHistory) : list ConversationHistory :=
  match l with
  | [] => []
  | c :: r => insert_desc c (order_by_created_at_desc r)
  end.

(** The dictionary built for one row; [None] when [json.loads] raises. *)
Definition conversation_dict (c : ConversationHistory) : option value :=
  match (match skills_used c with
         | None | Some EmptyString => Some (VList [])
         | Some s => Json.loads s
         end) with
  | Some skills =>
      Some (VDict [("user_message", VStr (user_message c));
                   ("assistant_response", VStr (assistant_response c));
                   ("intent", match intent c with Some i => VStr i | None => VNone end);
                   ("skills_used", skills);
                   ("created_at", VStr (isoformat (created_at c)))])
  | None => None
  end.

Fixpoint all_dicts (l : list ConversationHistory) : option (list value) :=
  match l with
  | [] => Some []
  | c :: r =>
      match conversation_dict c, all_dicts r with
      | Some d, Some ds => Some (d :: ds)
      | _, _ => None
      end
  end.

Definition get_recent_conversations (limit : nat) : Mem (list value) :=
  convs <~ sql_select "conversation_history"
             (fun st => firstn limit (order_by_created_at_desc (conversation_history st))) ;;
  match all_dicts (rev convs) with
  | Some ds => mret ds
  | None => mraise (Exn "JSONDecodeError" "skills_used is not a JSON document")
  end.

Definition empty : State :=
  {| user_preferences := []; conversation_history := []; semantic_memory := [];
     ticks := 0; attempts := [] |}.

End Memory.

(** * More of the code

    The embedding of [core/brain.py], [core/search.py], [core/executor.py],
    the skills of [skills/] that wrap the executor, the table of facts of
    [core/memory.py] and [core/personalization.py], in the conventions
    set out above. *)

(** ** [core/brain.py]: the prompt and the rolling conversation window *)

Module BrainCore.

Import PyStr.

(** An entry of [conversation_history]: the dictionary with the keys
    [role] and [content]. *)
Record message : Type := {
  role : string;
  content : string
}.

(** [l[-n:]] for an integer [n]: the last [n] elements for a positive
    [n], the whole list for 0, and the list without its first [-n]
    elements for a negative [n]. *)
Definition last_n {A} (n : Z) (l : list A) : list A :=
  if (0 <? n)%Z then skipn (List.length l - Z.to_nat n) l
  else skipn (Z.to_nat (- n)) l.

Definition nl : string := String (ascii_of_nat 10) EmptyString.

(** [if x:] on an optional string *)
Definition given (x : option string) : option string :=
  match x with
  | Some EmptyString => None
  | other => other
  end.

Definition _build_prompt (conversation_history : list message) (prompt : string)
    (context system_instruction : option string) : string :=
  let parts1 :=
    match given system_instruction with
    | Some s => ["System Instructions:" ++ nl ++ s ++ nl]
    | None => []
    end in
  let parts2 :=
    match given context with
    | Some c => ["Context:" ++ nl ++ c ++ nl]
    | None => []
    end in
  let parts3 :=
    match conversation_history with
    | [] => []
    | _ =>
        ("Recent Conversation:" ::
         map (fun msg => (role msg ++ ": " ++ content msg)%string) (last_n 5 conversation_history)
         ++ [EmptyString])%list
    end in
  join nl (parts1 ++ parts2 ++ parts3 ++ [("User: " ++ prompt)%string; "Assistant:"])%list.

(** [model.generate_content(full_prompt)] and [response.text]: the text,
    or the failure raised. *)
Definition Model : Type := string -> result string.

Definition generate_response (model : Model) (conversation_history : list message)
    (prompt : string) (context system_instruction : option string) : string :=
  match model (_build_prompt conversation_history prompt context system_instruction) with
  | Ok text => text
  | Raise e => "Error generating response: " ++ exn_str e
  end.

(** [add_to_history], with [settings.MAX_CONVERSATION_HISTORY]. *)
Definition add_to_history (max_conversation_history : Z) (conversation_history : list message)
    (user_message assistant_response : string) : list message :=
  let h := (conversation_history ++
            [{| role := "user"; content := user_message |};
             {| role := "assistant"; content := assistant_response |}])%list in
  if (max_conversation_history <? Z.of_nat (List.length h))%Z
  then last_n max_conversation_history h
  else h.

Definition clear_history (conversation_history : list message) : list message := [].

(** The default of [settings.MAX_CONVERSATION_HISTORY]. *)
Definition MAX_CONVERSATION_HISTORY : Z := 50.

End BrainCore.

(** ** [core/search.py]: web search *)

Module Search.

Import PyStr.

Definition rbind {A B} (r : result A) (k : A -> result B) : result B :=
  match r with
  | Ok a => k a
  | Raise e => Raise e
  end.

Notation "x <-- r ;; k" := (rbind r (fun x => k))
  (at level 61, r at next level, right associativity).

(** [k in v] for a string [k]: a key of a dictionary, an element of a
    list, a part of a string.  The texts of [TypeError] and
    [AttributeError] differ between versions of the interpreter; the
    ones written here stand for them. *)
Definition contains_key (k : string) (v : value) : result bool :=
  match v with
  | VDict d => Ok (match Py.lookup k d with Some _ => true | None => false end)
  | VList l => Ok (existsb (fun x => Py.eq_str x k) l)
  | VStr s => Ok (contains k s)
  | _ => Raise (Exn "TypeError" "argument is not iterable")
  end.

(** [l[:n]] for an integer [n]: a negative [n] counts from the end. *)
Definition upto {A} (n : Z) (l : list A) : list A :=
  if (n <? 0)%Z then firstn (List.length l - Z.to_nat (- n)) l
  else firstn (Z.to_nat n) l.

(** The items that [for item in v[:n]] goes through: the elements of a
    list, the characters of a string. *)
Definition slice_items (v : value) (n : Z) : result (list value) :=
  match v with
  | VList l => Ok (upto n l)
  | VStr s => Ok (map (fun c => VStr (String c EmptyString)) (upto n (list_ascii_of_string s)))
  | VDict _ => Raise (Exn "TypeError" "unhashable type: 'slice'")
  | _ => Raise (Exn "TypeError" "object is not subscriptable")
  end.

(** The loop over the organic results. *)
Fixpoint organic_entries (items : list value) : result (list value) :=
  match items with
  | [] => Ok []
  | item :: rest =>
      title <-- Py.get item "title" (VStr EmptyString) ;;
      url <-- Py.get item "link" (VStr EmptyString) ;;
      snippet <-- Py.get item "snippet" (VStr EmptyString) ;;
      more <-- organic_entries rest ;;
      Ok (VDict [("title", title); ("url", url); ("snippet", snippet)] :: more)
  end.

Definition error_entry (text : string) : value := VDict [("error", VStr text)].

(** The body of [_search_serper] after the response is decoded. *)
Definition serper_results (response_data : value) (query : string) (max_results : Z)
    : result (list value) :=
  has_organic <-- contains_key "organic" response_data ;;
  results <--
    (if has_organic : bool then
       organic <-- Py.subscript response_data "organic" ;;
       items <-- slice_items organic max_results ;;
       organic_entries items
     else Ok []) ;;
  results <--
    match results with
    | [] =>
        has_answer <-- contains_key "answerBox" response_data ;;
        if has_answer : bool then
          answer <-- Py.subscript response_data "answerBox" ;;
          title <-- Py.get answer "title" (VStr query) ;;
          url <-- Py.get answer "link" (VStr EmptyString) ;;
          snippet <-- Py.get answer "snippet" (VStr EmptyString) ;;
          snippet <-- Py.get answer "answer" snippet ;;
          Ok [VDict [("title", title); ("url", url); ("snippet", snippet)]]
        else
          has_graph <-- contains_key "knowledgeGraph" response_data ;;
          if has_graph : bool then
            kg <-- Py.subscript response_data "knowledgeGraph" ;;
            title <-- Py.get kg "title" (VStr query) ;;
            url <-- Py.get kg "website" (VStr EmptyString) ;;
            snippet <-- Py.get kg "description" (VStr EmptyString) ;;
            Ok [VDict [("title", title); ("url", url); ("snippet", snippet)]]
          else Ok []
    | _ => Ok results
    end ;;
  Ok (match results with
      | [] => [error_entry "No search results found"]
      | _ => results
      end).

(** The request to the search service: the text of the response to the
    payload posted, or the exception raised on the way. *)
Definition Service : Type := string -> result string.

Definition loads (data : string) : result value :=
  match Json.loads data with
  | Some v => Ok v
  | None => Raise (Exn "JSONDecodeError" "Expecting value")
  end.

Definition _search_serper (post : Service) (query : string) (max_results : Z) : list value :=
  let payload := Json.dumps (VDict [("q", VStr query); ("num", VInt max_results)]) in
  match (data <-- post payload ;;
         response_data <-- loads data ;;
         serper_results response_data query max_results) with
  | Ok results => results
  | Raise e => [error_entry ("Serper.dev search failed: " ++ exn_str e)]
  end.

(** [DDGS().text(query, max_results=max_results)]: the results, or the
    exception raised. *)
Definition Ddgs : Type := string -> Z -> result (list value).

Fixpoint duckduckgo_entries (search_results : list value) : result (list value) :=
  match search_results with
  | [] => Ok []
  | r :: rest =>
      title <-- Py.get r "title" (VStr EmptyString) ;;
      url <-- Py.get r "href" (VStr EmptyString) ;;
      snippet <-- Py.get r "body" (VStr EmptyString) ;;
      more <-- duckduckgo_entries rest ;;
      Ok (VDict [("title", title); ("url", url); ("snippet", snippet)] :: more)
  end.

Definition _search_duckduckgo (ddgs : option Ddgs) (query : string) (max_results : Z)
    : list value :=
  match ddgs with
  | None => [error_entry "No search API configured. Please set SERPER_API_KEY in .env file"]
  | Some text =>
      match (search_results <-- text query max_results ;;
             duckduckgo_entries search_results) with
      | Ok [] => [error_entry "No search results found"]
      | Ok results => results
      | Raise e => [error_entry ("DuckDuckGo search failed: " ++ exn_str e)]
      end
  end.

(** The object [WebSearch()]: the key of the service from the settings,
    the service, and the fallback when its package is installed. *)
Record WebSearch : Type := {
  api_key : option string;
  post : Service;
  ddgs : option Ddgs
}.

Definition use_serper (ws : WebSearch) : bool :=
  match api_key ws with
  | Some (String _ _) => true
  | _ => false
  end.

Definition search (ws : WebSearch) (query : string) (max_results : Z) : list value :=
  if use_serper ws then _search_serper (post ws) query max_results
  else _search_duckduckgo (ddgs ws) query max_results.

Definition nl : string := String (ascii_of_nat 10) EmptyString.

(** The lines of [format_results], the entries being numbered from [i]. *)
Fixpoint format_lines (i : Z) (results : list value) : result (list string) :=
  match results with
  | [] => Ok []
  | r :: rest =>
      is_error <-- contains_key "error" r ;;
      lines <--
        (if is_error : bool then
           e <-- Py.subscript r "error" ;;
           Ok ["Error: " ++ Py.str e]
         else
           title <-- Py.subscript r "title" ;;
           url <-- Py.subscript r "url" ;;
           snippet <-- Py.subscript r "snippet" ;;
           Ok [Py.str_int i ++ ". " ++ Py.str title;
               "   URL: " ++ Py.str url;
               "   " ++ Py.str snippet;
               EmptyString]) ;;
      more <-- format_lines (i + 1) rest ;;
      Ok (lines ++ more)%list
  end.

Definition format_results (results : list value) : result string :=
  match results with
  | [] => Ok "No search results found."
  | _ =>
      lines <-- format_lines 1 results ;;
      Ok (join nl lines)
  end.

End Search.

(** ** [core/executor.py]: applications, commands and files *)

Module CoreExecutor.

Import PyStr.

(** [platform.system()]; every value other than "Windows" and "Darwin"
    is handled as Linux. *)
Inductive System : Type := Windows | Darwin | Linux.

Fixpoint table_get {A} (k : string) (d : list (string * A)) : option A :=
  match d with
  | [] => None
  | (k', v) :: r => if String.eqb k k' then Some v else table_get k r
  end.

Fixpoint table_set {A} (k : string) (v : A) (d : list (string * A)) : list (string * A) :=
  match d with
  | [] => [(k, v)]
  | (k', v') :: r => if String.eqb k k' then (k, v) :: r else (k', v') :: table_set k v r
  end.

(** [_load_app_paths], with the value of the environment variable
    USERNAME and [os.path.exists]. *)
Definition _load_app_paths (system : System) (username : string) (path_exists : string -> bool)
    : list (string * string) :=
  match system with
  | Windows =>
      let common_paths :=
        [("vscode", "C:\Users\" ++ username ++ "\AppData\Local\Programs\Microsoft VS Code\Code.exe");
         ("chrome", "C:\Program Files\Google\Chrome\Application\chrome.exe");
         ("firefox", "C:\Program Files\Mozilla Firefox\firefox.exe");
         ("brave", "C:\Program Files\BraveSoftware\Brave-Browser\Application\brave.exe");
         ("notepad", "notepad.exe");
         ("calc", "calc.exe");
         ("explorer", "explorer.exe")] in
      let alt_brave_paths :=
        ["C:\Users\" ++ username ++ "\AppData\Local\BraveSoftware\Brave-Browser\Application\brave.exe";
         "C:\Program Files (x86)\BraveSoftware\Brave-Browser\Application\brave.exe"] in
      match table_get "brave" common_paths with
      | Some brave =>
          if path_exists brave then common_paths
          else match List.find path_exists alt_brave_paths with
               | Some path => table_set "brave" path common_paths
               | None => common_paths
               end
      | None =>
          match List.find path_exists alt_brave_paths with
          | Some path => table_set "brave" path common_paths
          | None => common_paths
          end
      end
  | Darwin =>
      [("vscode", "/Applications/Visual Studio Code.app/Contents/MacOS/Electron");
       ("chrome", "/Applications/Google Chrome.app/Contents/MacOS/Google Chrome");
       ("firefox", "/Applications/Firefox.app/Contents/MacOS/firefox");
       ("brave", "/Applications/Brave Browser.app/Contents/MacOS/Brave Browser");
       ("safari", "/Applications/Safari.app/Contents/MacOS/Safari")]
  | Linux =>
      [("vscode", "code");
       ("chrome", "google-chrome");
       ("firefox", "firefox");
       ("brave", "brave-browser")]
  end.

(** [str.replace] of every occurrence of the character [c] by the empty text. *)
Fixpoint remove_char (c : ascii) (s : string) : string :=
  match s with
  | EmptyString => EmptyString
  | String x r => if Ascii.eqb x c then remove_char c r else String x (remove_char c r)
  end.

(** The spaces, the hyphens and the underscores are removed, in this order. *)
Definition squash (s : string) : string :=
  remove_char "_" (remove_char "-" (remove_char " " s)).

Definition name_mapping : list (string * string) :=
  [("vs", "vscode");
   ("vs code", "vscode");
   ("visual studio code", "vscode");
   ("code", "vscode");
   ("visual studio", "vscode")].

Definition _normalize_app_name (app_paths : list (string * string)) (app_name : string) : string :=
  let app_name_lower := strip (lower app_name) in
  match table_get app_name_lower name_mapping with
  | Some standard => standard
  | None =>
      let normalized := squash app_name_lower in
      match List.find (fun key => String.eqb normalized (squash key)) (map fst app_paths) with
      | Some key => key
      | None => app_name_lower
      end
  end.

(** [s.endswith(suffix)] *)
Definition endswith (s suffix : string) : bool :=
  let n := String.length s in
  let m := String.length suffix in
  (m <=? n)%nat && String.eqb (drop (n - m) s) suffix.

Definition file_extensions : list string :=
  [".py"; ".java"; ".js"; ".ts"; ".txt"; ".md"; ".json"; ".html"; ".css"; ".xml"; ".yaml"; ".yml"].

(** The test of [run_command] for a file creation with [echo]: the
    refusal it returns, if any. *)
Definition echo_refusal (command : string) : option value :=
  if contains "echo" (lower command) && (contains ">" command || contains ">>" command) then
    if contains ">" command then
      match split1 command ">" with
      | [_; after] =>
          let file_part := strip after in
          if existsb (endswith file_part) file_extensions then
            Some (VDict
              [("success", VBool false);
               ("error", VStr ("File creation via echo is unreliable. Please use write_file skill with file_path='"
                               ++ file_part ++ "' and content parameters."));
               ("suggestion", VStr "use_write_file_skill")])
          else None
      | _ => None
      end
    else None
  else None.

Section Machine.

(** The machine the executor acts on. *)
Context {World : Type}.

(** What the operating system does for the executor.  [popen args shell]
    is [subprocess.Popen(args, shell=shell)]; [run_process args shell]
    is [subprocess.run] with the output captured as text and a timeout
    of 30 seconds, giving the return code, the standard output and the
    standard error, a command line given as one string being the list of
    that string; [startfile] is [os.startfile]; [read_text] opens the
    file and reads it as UTF-8. *)
Record Machine : Type := {
  system : System;
  username : string;
  path_exists : string -> World -> bool;
  is_file : string -> World -> bool;
  popen : list string -> bool -> World -> result unit * World;
  run_process : list string -> bool -> World -> result (Z * string * string) * World;
  startfile : string -> World -> result unit * World;
  read_text : string -> World -> result string
}.

Variable m : Machine.

(** [self.app_paths], computed when the executor is created in the
    world [w0]. *)
Definition app_paths (w0 : World) : list (string * string) :=
  _load_app_paths (system m) (username m) (fun p => path_exists m p w0).

Definition opened (app_name : string) : value :=
  VDict [("success", VBool true); ("message", VStr ("Opened " ++ app_name))].

Definition _try_open_directly (app_name : string) (previous_error : option string) (w : World)
    : value * World :=
  let failed (e : exn) (w' : World) :=
    let error_msg :=
      match previous_error with
      | Some (String c r) => String c r
      | _ => exn_str e
      end in
    (VDict [("success", VBool false);
            ("error", VStr ("Could not open " ++ app_name ++ ": " ++ error_msg))], w') in
  match system m with
  | Windows =>
      let direct (w1 : World) :=
        match popen m [app_name] true w1 with
        | (Ok _, w2) => (opened app_name, w2)
        | (Raise e, w2) => failed e w2
        end in
      if contains "code" (lower app_name) || contains "vs" (lower app_name) then
        match popen m ["code"] true w with
        | (Ok _, w1) => (opened app_name, w1)
        | (Raise _, w1) => direct w1
        end
      else direct w
  | Darwin =>
      match popen m ["open"; "-a"; app_name] false w with
      | (Ok _, w1) => (opened app_name, w1)
      | (Raise e, w1) => failed e w1
      end
  | Linux =>
      match popen m [app_name] false w with
      | (Ok _, w1) => (opened app_name, w1)
      | (Raise e, w1) => failed e w1
      end
  end.

(** [open_app], for an executor created in the world [w0]. *)
Definition open_app (w0 : World) (app_name : string) (w : World) : value * World :=
  let normalized_name := _normalize_app_name (app_paths w0) app_name in
  match table_get normalized_name (app_paths w0) with
  | Some app_path =>
      let started :=
        match system m with
        | Windows =>
            if path_exists m app_path w then popen m [app_path] false w
            else if String.eqb normalized_name "vscode" then popen m ["code"] true w
            else popen m [app_path] true w
        | _ => popen m [app_path] false w
        end in
      match started with
      | (Ok _, w1) => (opened app_name, w1)
      | (Raise e, w1) => _try_open_directly app_name (Some (exn_str e)) w1
      end
  | None => _try_open_directly app_name None w
  end.

Definition run_command (command : string) (w : World) : value * World :=
  match echo_refusal command with
  | Some refusal => (refusal, w)
  | None =>
      let ran :=
        match system m with
        | Windows => run_process m ["powershell"; "-Command"; command] false w
        | _ => run_process m [command] true w
        end in
      match ran with
      | (Ok (returncode, stdout, stderr), w1) =>
          (VDict [("success", VBool (returncode =? 0)%Z);
                  ("stdout", VStr stdout);
                  ("stderr", VStr stderr);
                  ("returncode", VInt returncode)], w1)
      | (Raise (Exn cls msg), w1) =>
          if String.eqb cls "TimeoutExpired"
          then (VDict [("success", VBool false); ("error", VStr "Command timed out")], w1)
          else (VDict [("success", VBool false); ("error", VStr msg)], w1)
      end
  end.

Definition open_url (url : string) (w : World) : value * World :=
  let started :=
    match system m with
    | Windows => startfile m url w
    | Darwin => popen m ["open"; url] false w
    | Linux => popen m ["xdg-open"; url] false w
    end in
  match started with
  | (Ok _, w1) =>
      (VDict [("success", VBool true); ("message", VStr ("Opened " ++ url ++ " in browser"))], w1)
  | (Raise e, w1) =>
      (VDict [("success", VBool false); ("error", VStr ("Could not open URL: " ++ exn_str e))], w1)
  end.

Definition read_file (file_path : string) (w : World) : value :=
  if negb (path_exists m file_path w) then
    VDict [("success", VBool false); ("error", VStr ("File not found: " ++ file_path))]
  else if negb (is_file m file_path w) then
    VDict [("success", VBool false); ("error", VStr ("Path is not a file: " ++ file_path))]
  else
    match read_text m file_path w with
    | Ok content => VDict [("success", VBool true); ("content", VStr content)]
    | Raise e => VDict [("success", VBool false); ("error", VStr (exn_str e))]
    end.

End Machine.

Arguments Machine : clear implicits.

End CoreExecutor.

(** ** [skills/]: the skills that wrap the executor *)

Module Skills.

Import PyStr SkillRegistry CoreExecutor.

Section Machine.

Context {World : Type}.
Variable m : Machine World.

(** The world in which the skills were created, with their executors. *)
Variable w0 : World.

(** [skills/open_app.py].  A name that is not a string has no method
    [lower]: [open_app] raises on it. *)
Definition open_app_run (parameters : value) (w : World) : result value * World :=
  match Py.get parameters "app_name" VNone with
  | Raise e => (Raise e, w)
  | Ok app_name =>
      if negb (Py.truthy app_name) then (Ok (failure "app_name parameter required"), w)
      else match app_name with
           | VStr s => let (r, w') := open_app m w0 s w in (Ok r, w')
           | _ => (Raise (Exn "AttributeError" "object has no attribute 'lower'"), w)
           end
  end.

Definition OpenAppSkill : Skill World :=
  {| name := "open_app";
     description := "Opens an application by name";
     run := open_app_run |}.

(** [skills/run_command.py].  On a command that is not a string
    [run_command] fails inside its [try] block. *)
Definition run_command_run (parameters : value) (w : World) : result value * World :=
  match Py.get parameters "command" VNone with
  | Raise e => (Raise e, w)
  | Ok command =>
      if negb (Py.truthy command) then (Ok (failure "command parameter required"), w)
      else match command with
           | VStr s => let (r, w') := run_command m s w in (Ok r, w')
           | _ => (Ok (failure "object has no attribute 'lower'"), w)
           end
  end.

Definition RunCommandSkill : Skill World :=
  {| name := "run_command";
     description := "Runs system commands and returns output";
     run := run_command_run |}.

(** [skills/read_file.py].  On a path that is not a string [read_file]
    fails inside its [try] block. *)
Definition read_file_run (parameters : value) (w : World) : result value * World :=
  match Py.get parameters "file_path" VNone with
  | Raise e => (Raise e, w)
  | Ok file_path =>
      if negb (Py.truthy file_path) then (Ok (failure "file_path parameter required"), w)
      else match file_path with
           | VStr s => (Ok (read_file m s w), w)
           | _ => (Ok (failure "expected str, bytes or os.PathLike object"), w)
           end
  end.

Definition ReadFileSkill : Skill World :=
  {| name := "read_file";
     description := "Reads and returns the contents of a file";
     run := read_file_run |}.

(** [skills/conversational.py] *)
Definition conversational_run (parameters : value) (w : World) : result value * World :=
  (Ok (VDict [("success", VBool true);
              ("message", VStr "Conversational request handled by LLM")]), w).

Definition ConversationalSkill : Skill World :=
  {| name := "conversational";
     description := "Handles general conversation and questions";
     run := conversational_run |}.

End Machine.

End Skills.

(** ** [core/memory.py]: the table of user facts *)

Module Facts.

Import Memory.

Record UserFact : Type := {
  fact_id : nat;
  fact_key : string;
  fact_value : string;
  fact_created_at : datetime;
  fact_updated_at : datetime
}.

(** The memory store together with the table [user_facts], which lives
    in the same database. *)
Record Store : Type := {
  base : State;
  user_facts : list UserFact
}.

Definition With (A : Type) : Type := Env -> Store -> result A * Store.

Definition wret {A} (a : A) : With A := fun _ s => (Ok a, s).

Definition wbind {A B} (m : With A) (k : A -> With B) : With B :=
  fun env s =>
    match m env s with
    | (Ok a, s') => k a env s'
    | (Raise e, s') => (Raise e, s')
    end.

Notation "x <~~ m ;; k" := (wbind m (fun x => k))
  (at level 61, m at next level, right associativity).

(** An operation of the memory store, the facts being left as they are. *)
Definition on_base {A} (m : Mem A) : With A :=
  fun env s =>
    let (r, b) := m env (base s) in
    (r, {| base := b; user_facts := user_facts s |}).

Definition noted (ev : event) (s : Store) : Store :=
  {| base := record ev (base s); user_facts := user_facts s |}.

Definition select_facts {A} (q : list UserFact -> A) : With A :=
  fun env s =>
    let s1 := noted (SqlSelect "user_facts") s in
    if sql_up env then (Ok (q (user_facts s)), s1) else (Raise (unreachable "database"), s1).

Definition commit_facts (change : list UserFact -> list UserFact) : With unit :=
  fun env s =>
    let s1 := noted (SqlCommit "user_facts") s in
    if sql_up env
    then (Ok tt, {| base := base s1; user_facts := change (user_facts s1) |})
    else (Raise (unreachable "database"), s1).

Definition first_fact (k : string) (rows : list UserFact) : option UserFact :=
  List.find (fun f => String.eqb (fact_key f) k) rows.

Fixpoint update_first_fact (k v : string) (now : datetime) (rows : list UserFact)
    : list UserFact :=
  match rows with
  | [] => []
  | f :: r =>
      if String.eqb (fact_key f) k
      then {| fact_id := fact_id f; fact_key := fact_key f; fact_value := v;
              fact_created_at := fact_created_at f; fact_updated_at := now |} :: r
      else f :: update_first_fact k v now r
  end.

Definition save_fact (k v : string) : With unit :=
  existing <~~ select_facts (first_fact k) ;;
  match existing with
  | Some _ =>
      now <~~ on_base utcnow ;;
      commit_facts (update_first_fact k v now)
  | None =>
      created <~~ on_base utcnow ;;
      updated <~~ on_base utcnow ;;
      commit_facts (fun rows =>
        (rows ++ [{| fact_id := S (List.length rows); fact_key := k; fact_value := v;
                     fact_created_at := created; fact_updated_at := updated |}])%list)
  end.

Definition get_fact (k : string) : With (option string) :=
  fact <~~ select_facts (first_fact k) ;;
  wret (option_map fact_value fact).

End Facts.

(** ** [core/personalization.py]: what is remembered about the user *)

Module Personalization.

Import PyStr Memory Facts.

Definition nl : string := String (ascii_of_nat 10) EmptyString.

(** [if x:] on an optional string *)
Definition given (x : option string) : list string :=
  match x with
  | None | Some EmptyString => []
  | Some s => [s]
  end.

Definition get_personalization_context : With string :=
  name <~~ on_base (get_preference "user_name") ;;
  tone <~~ on_base (get_preference "tone_style") ;;
  apps <~~ on_base (get_preference "frequent_apps") ;;
  facts <~~ select_facts (fun rows => rows) ;;
  wret (join nl
    (map (fun s => ("User's name: " ++ s)%string) (given name) ++
     map (fun s => ("Preferred tone: " ++ s)%string) (given tone) ++
     map (fun s => ("Frequently used apps: " ++ s)%string) (given apps) ++
     match facts with
     | [] => []
     | _ => "User Facts:" ::
            map (fun f => ("- " ++ fact_key f ++ ": " ++ fact_value f)%string) facts
     end)%list).










End Personalization.

(** * Notions used to state the properties *)

Module Notions.

Import PyStr.

(** [sub] occurs in [s]. *)
Definition Occurs (sub s : string) : Prop :=
  exists pre post, s = pre ++ sub ++ post.

(** ** The intent classifier *)

Import IntentExtractor.

(** The confidence a rule result carries. *)
Definition confidence_of (intent : value) : option Q :=
  match Py.subscript intent "confidence" with
  | Ok (VFloat (Fin c)) => Some c
  | _ => None
  end.

Definition kind_of (intent : value) : option string :=
  match Py.subscript intent "intent" with
  | Ok (VStr k) => Some k
  | _ => None
  end.



(** ** The task planner *)

(** The intent-to-capability mapping as the specification words it: a
    kind maps to the capability of the same name, and a kind that is not
    one of the five known ones maps to the conversational capability. *)
Definition capability_of_kind (kind : string) : string :=
  if IntentExtractor.mem_str kind
       ["open_app"; "web_search"; "run_command"; "read_file"; "conversational"]
  then kind else "conversational".

(** The step that the direct path and the fallback build. *)
Definition the_step (kind : string) (parameters : value) : value :=
  VDict [("step", VInt 1);
         ("skill", VStr (capability_of_kind kind));
         ("parameters", parameters);
         ("description", VStr ("Execute " ++ kind))].

(** ** The execution coordinator *)

(** The unwrapping as the specification words it: the first field that is
    present, in the order formatted, content, message, stdout, and the
    stringification of the result when none is. *)
Fixpoint first_present (fields : list string) (r : list (string * value)) : value :=
  match fields with
  | [] => VStr (Py.str (VDict r))
  | f :: rest =>
      match Py.lookup f r with
      | Some v => v
      | None => first_present rest r
      end
  end.

(** A registry with one skill that reports what it opened. *)
Definition open_app_skill : SkillRegistry.Skill unit :=
  {| SkillRegistry.name := "open_app";
     SkillRegistry.description := "Open an application";
     SkillRegistry.run := fun _ w => (Ok (VDict [("success", VBool true); ("message", VStr "Opened X")]), w) |}.

(** ** The memory store *)

Import Memory.

Local Open Scope Z_scope.

(** The table after [save_preference k v]: the first row with the key
    is updated, or a row is added when there is none. *)
Definition upserted (k v : string) (rows rows' : list UserPreference) : Prop :=
  (first_with_key k rows = None /\
   exists n created updated,
     rows' = (rows ++ [{| pref_id := n; key := k; value_of := v;
                          pref_created_at := created; pref_updated_at := updated |}])%list) \/
  (first_with_key k rows <> None /\ exists now, rows' = update_first k v now rows).

(** The arguments of one call of [save_conversation]. *)
Record Turn : Type := {
  turn_user : string;
  turn_assistant : string;
  turn_intent : option string;
  turn_skills : option (list string)
}.

Definition append_conversation (t : Turn) : Mem unit :=
  save_conversation (turn_user t) (turn_assistant t) (turn_intent t) (turn_skills t).

Fixpoint append_all (ts : list Turn) : Mem unit :=
  match ts with
  | [] => mret tt
  | t :: rest => mbind (append_conversation t) (fun _ => append_all rest)
  end.


(** The record of a turn appended at time [at_], as
    [get_recent_conversations] reports it. *)
Definition reported (t : Turn) (at_ : datetime) : value :=
  VDict [("user_message", VStr (turn_user t));
         ("assistant_response", VStr (turn_assistant t));
         ("intent", match turn_intent t with Some i => VStr i | None => VNone end);
         ("skills_used", VList (map VStr (match turn_skills t with Some l => l | None => [] end)));
         ("created_at", VStr (isoformat at_))].





(** A clock that advances by one microsecond at each reading, and both
    stores within reach. *)
Definition steady : Env :=
  {| clock := fun n => 1730000000000000 + Z.of_nat n; sql_up := true; chroma_up := true |}.

Definition first_turn : Turn :=
  {| turn_user := "open vscode"; turn_assistant := "Opened vscode";
     turn_intent := Some "open_app"; turn_skills := Some ["open_app"] |}.

Definition second_turn : Turn :=
  {| turn_user := "hello"; turn_assistant := "Hi."; turn_intent := Some "conversational";
     turn_skills := None |}.

(** The database out of reach, the collection within reach. *)
Definition database_down : Env :=
  {| clock := fun n => 1730000000000000 + Z.of_nat n; sql_up := false; chroma_up := true |}.

End Notions.

Module MoreNotions.

Import PyStr Notions.

(** [s] is its own lowercase form. *)
Definition lowercase (s : string) : Prop := lower s = s.



(** [step.get(k, default)] on a step known to be a dictionary. *)
Definition field (k : string) (default : value) (st : value) : value :=
  match st with
  | VDict fields => match Py.lookup k fields with Some v => v | None => default end
  | _ => default
  end.


End MoreNotions.

Module BrainNotions.

Import BrainCore.

(** The history is made of whole turns: a user message followed by the
    reply of the assistant, again and again. *)
Fixpoint whole_turns (h : list message) : Prop :=
  match h with
  | [] => True
  | u :: a :: rest => role u = "user" /\ role a = "assistant" /\ whole_turns rest
  | _ => False
  end.

End BrainNotions.

Module SearchNotions.

Import Search.

(** An entry that reports a failure. *)
Definition is_error (e : value) : Prop := exists text, e = error_entry text.

(** An entry that carries a result. *)
Definition is_hit (e : value) : Prop :=
  exists title url snippet, e = VDict [("title", title); ("url", url); ("snippet", snippet)].

(** What [search] promises about its result: it is one failure report
    alone, or results only, at least one. *)
Definition well_formed (results : list value) : Prop :=
  (exists e, results = [e] /\ is_error e) \/ (results <> [] /\ Forall is_hit results).

(** A service that answers every request with three organic results. *)
Definition three_organic_results : Service :=
  fun _ => Ok (tpl "{`organic`: [{`title`: `a`, `link`: `x`}, {`title`: `b`}, {`title`: `c`}]}").

End SearchNotions.

Module ExecutorNotions.

Import CoreExecutor.

(** A machine on which every process starts. *)
Definition always_starts {World : Type} (m : Machine World) : Prop :=
  forall args shell w, exists w', popen m args shell w = (Ok tt, w').

(** A Linux machine without files, on which every process starts and
    every command prints nothing. *)
Definition quiet_machine : Machine unit :=
  {| system := Linux;
     username := "ada";
     path_exists := fun _ _ => false;
     is_file := fun _ _ => false;
     popen := fun _ _ w => (Ok tt, w);
     run_process := fun _ _ w => (Ok (0%Z, EmptyString, EmptyString), w);
     startfile := fun _ w => (Ok tt, w);
     read_text := fun _ _ => Raise (Exn "FileNotFoundError" "No such file or directory") |}.

(** The names of the applications known on a system. *)
Definition app_keys (s : System) : list string :=
  match s with
  | Windows => ["vscode"; "chrome"; "firefox"; "brave"; "notepad"; "calc"; "explorer"]
  | Darwin => ["vscode"; "chrome"; "firefox"; "brave"; "safari"]
  | Linux => ["vscode"; "chrome"; "firefox"; "brave"]
  end.

End ExecutorNotions.

Module PersonalizationNotions.

Import Memory Facts Personalization.

(** The facts after [save_fact k v]. *)
Definition fact_saved (k v : string) (rows rows' : list UserFact) : Prop :=
  option_map fact_value (first_fact k rows') = Some v /\
  forall k', k' <> k -> first_fact k' rows' = first_fact k' rows.

(** The three tables and the semantic store hold the same rows. *)
Definition same_content (s s' : Store) : Prop :=
  user_preferences (base s') = user_preferences (base s) /\
  conversation_history (base s') = conversation_history (base s) /\
  semantic_memory (base s') = semantic_memory (base s) /\
  user_facts s' = user_facts s.

(** A store in which the environment is reachable, for examples. *)
Definition reachable : Env :=
  {| clock := fun n => Z.of_nat n; sql_up := true; chroma_up := true |}.

Definition nothing_stored : Store := {| base := empty; user_facts := [] |}.




End PersonalizationNotions.

(** * Properties *)

(** ** Facts about the string operations *)

Module PyStrFacts.

Import PyStr Notions.

Lemma append_assoc (a b c : string) : (a ++ b) ++ c = a ++ b ++ c.
Proof.
  induction a as [|x a IH]; simpl; [reflexivity|]. rewrite IH. reflexivity.
Qed.


Lemma startswith_app (p s : string) : startswith (p ++ s) p = true.
Proof.
  induction p as [|c p IH]; simpl.
  - reflexivity.
  - rewrite Ascii.eqb_refl. exact IH.
Qed.

Lemma startswith_split (s p : string) :
  startswith s p = true -> exists post, s = p ++ post.
Proof.
  revert s. induction p as [|c p IH]; intros s H.
  - exists s. reflexivity.
  - destruct s as [|d s]; simpl in H; [discriminate|].
    apply andb_true_iff in H. destruct H as [Hc Hs].
    apply Ascii.eqb_eq in Hc. subst d.
    destruct (IH _ Hs) as [post ->]. exists post. reflexivity.
Qed.

Lemma contains_here (sub s : string) :
  startswith s sub = true -> contains sub s = true.
Proof.
  intros H. destruct s; simpl; rewrite H; reflexivity.
Qed.

Lemma contains_app (sub pre post : string) :
  contains sub (pre ++ sub ++ post) = true.
Proof.
  induction pre as [|c pre IH]; simpl.
  - apply contains_here, startswith_app.
  - rewrite IH. apply orb_true_r.
Qed.

(** [sub in s] decides [Occurs sub s]. *)
Lemma contains_spec (sub s : string) :
  contains sub s = true <-> Occurs sub s.
Proof.
  split.
  - induction s as [|c s IH]; simpl; intros H.
    + rewrite orb_false_r in H. apply startswith_split in H.
      destruct H as [post H]. exists EmptyString, post. exact H.
    + apply orb_true_iff in H. destruct H as [H|H].
      * apply startswith_split in H. destruct H as [post H].
        exists EmptyString, post. exact H.
      * destruct (IH H) as [pre [post ->]]. exists (String c pre), post. reflexivity.
  - intros [pre [post ->]]. apply contains_app.
Qed.

Lemma occurs_trans (a b s : string) : Occurs a b -> Occurs b s -> Occurs a s.
Proof.
  intros [p1 [q1 ->]] [p2 [q2 ->]]. exists (p2 ++ p1), (q1 ++ q2).
  rewrite !append_assoc. reflexivity.
Qed.

Lemma lower_app (a b : string) : lower (a ++ b) = lower a ++ lower b.
Proof.
  induction a as [|c a IH]; simpl; [reflexivity|]. rewrite IH. reflexivity.
Qed.

Lemma any_in_true (keywords : list string) (s k : string) :
  In k keywords -> Occurs k s -> any_in keywords s = true.
Proof.
  intros Hin Hocc. unfold any_in. apply existsb_exists.
  exists k. split; [exact Hin|]. apply contains_spec. exact Hocc.
Qed.

Lemma any_in_false (keywords : list string) (s : string) :
  (forall k, In k keywords -> ~ Occurs k s) -> any_in keywords s = false.
Proof.
  intros H. unfold any_in.
  destruct (existsb (fun k => contains k s) keywords) eqn:E; [|reflexivity].
  apply existsb_exists in E. destruct E as [k [Hin Hc]].
  apply contains_spec in Hc. exfalso. exact (H k Hin Hc).
Qed.

End PyStrFacts.

(** ** The intent classifier *)

Module IntentFacts.

Import PyStr IntentExtractor Notions.


(** When the rules are trusted, [extract_intent] is the rule result and
    sends nothing to the completion capability. *)
Lemma extract_intent_trusted (message : string) (c : Q) (brain : Brain) :
  confidence_of (_rule_based_extraction message) = Some c ->
  Py.float_ltb (Fin c) threshold = false ->
  extract_intent message brain = (Ok (_rule_based_extraction message), []).
Proof.
  unfold confidence_of, extract_intent. intros Hc Hlt.
  destruct (Py.subscript (_rule_based_extraction message) "confidence") as [v|e] eqn:E;
    [|discriminate].
  destruct v as [| | |f| | |]; try discriminate.
  destruct f; try discriminate. injection Hc as ->.
  unfold bind, lift. cbn -[Py.float_ltb threshold]. rewrite Hlt. reflexivity.
Qed.

Lemma not_below_threshold (c : Q) :
  (7 # 10 <= c)%Q -> Py.float_ltb (Fin c) threshold = false.
Proof.
  intros H. unfold Py.float_ltb, threshold.
  destruct (Qcompare c (7 # 10)) eqn:E; try reflexivity.
  apply Qlt_alt in E. exfalso. apply (Qlt_not_le _ _ E). exact H.
Qed.

(** The keyword test of the open rule and the keyword loop of
    [_extract_app_name] agree: without a keyword there is no app name. *)
Lemma no_keyword_no_app (message : string) :
  any_in ["open"; "launch"; "start"] (lower message) = false ->
  _extract_app_name message = None.
Proof.
  unfold any_in, _extract_app_name. simpl. intros H.
  repeat (apply orb_false_iff in H; destruct H as [?H H]).
  rewrite H0, H1, H2. reflexivity.
Qed.

Lemma split_ws_aux_nonempty (s cur w : string) :
  In w (split_ws_aux cur s) -> w <> EmptyString.
Proof.
  revert cur. induction s as [|c s IH]; intros cur H; simpl in H.
  - destruct cur; simpl in H; [contradiction|].
    destruct H as [<-|[]]. discriminate.
  - destruct (is_space c).
    + destruct cur.
      * exact (IH _ H).
      * destruct H as [<-|H]; [discriminate|exact (IH _ H)].
    + exact (IH _ H).
Qed.

Lemma app_name_of_nonempty (remaining app : string) :
  app_name_of remaining = Some app -> app <> EmptyString.
Proof.
  unfold app_name_of.
  destruct (List.find _ app_patterns) as [[pat a]|] eqn:F.
  - intros H. injection H as <-. apply find_some in F. destruct F as [F _].
    simpl in F. intuition (match goal with H : _ = (_, _) |- _ => injection H as _ <- end; discriminate).
  - destruct (split_ws remaining) as [|w0 ws] eqn:W; [discriminate|].
    assert (N0 : w0 <> EmptyString).
    { apply (split_ws_aux_nonempty remaining EmptyString). fold (split_ws remaining).
      rewrite W. left. reflexivity. }
    assert (J : forall k, join " " (firstn (S k) (w0 :: ws)) <> EmptyString).
    { intros k. simpl. destruct (firstn k ws); [exact N0|].
      destruct w0; [contradiction|discriminate]. }
    assert (N1 : (1 <? List.length (w0 :: ws))%nat = true -> nth 1 (w0 :: ws) EmptyString <> EmptyString).
    { intros L. destruct ws as [|w1 ws']; [discriminate|]. simpl.
      apply (split_ws_aux_nonempty remaining EmptyString). fold (split_ws remaining).
      rewrite W. right. left. reflexivity. }
    repeat match goal with
           | |- context [if ?b then _ else _] => destruct b eqn:?
           end;
      intros H; injection H as <-;
      first [ discriminate | exact N0 | exact (J 1%nat)
            | apply N1; match goal with
                        | B : _ && _ = true |- _ => apply andb_true_iff in B; tauto
                        end ].
Qed.

Lemma extract_app_name_nonempty (message app : string) :
  _extract_app_name message = Some app -> app <> EmptyString.
Proof.
  unfold _extract_app_name. generalize (lower message) as ml.
  generalize ["open"; "launch"; "start"] as kws.
  induction kws as [|k kws IH]; intros ml; simpl; [discriminate|].
  destruct (contains k ml); [|apply IH].
  destruct (1 <? _)%nat; [|apply IH].
  destruct (app_name_of _) eqn:E; [|apply IH].
  intros H. injection H as <-. exact (app_name_of_nonempty _ _ E).
Qed.

Lemma split1_two (s sep : string) :
  contains sep s = true -> exists a b, split1 s sep = [a; b].
Proof.
  induction s as [|c s IH]; simpl; intros H.
  - rewrite orb_false_r in H. rewrite H. eauto.
  - destruct (startswith (String c s) sep) eqn:E; [eauto|].
    simpl in H. destruct (IH H) as [a [b ->]]. eauto.
Qed.


Lemma rstrip_by_head (p : ascii -> bool) (c : ascii) (s : string) :
  p c = false -> exists r, rstrip_by p (String c s) = String c r.
Proof.
  intros H. simpl. destruct (rstrip_by p s); [rewrite H|]; eauto.
Qed.

Lemma lstrip_by_idem (p : ascii -> bool) (s : string) :
  lstrip_by p (lstrip_by p s) = lstrip_by p s.
Proof.
  induction s as [|c s IH]; simpl; [reflexivity|].
  destruct (p c) eqn:E; [exact IH|]. simpl. rewrite E. reflexivity.
Qed.

Lemma lstrip_by_head (p : ascii -> bool) (s : string) (c : ascii) (r : string) :
  lstrip_by p s = String c r -> p c = false.
Proof.
  induction s as [|d s IH]; simpl; [discriminate|].
  destruct (p d) eqn:E; [exact IH|]. intros H. injection H as <- _. exact E.
Qed.




End IntentFacts.

Module IntentClaims.

Import PyStr IntentExtractor Notions IntentFacts.




(** C5: when the rules give a result of confidence at least 0.7,
    [extract_intent] sends nothing to the completion capability and
    returns the rule result, which depends on the utterance alone: it is
    the same under any two behaviours of the completion capability. *)
Theorem trusted_rule_never_calls_completion (message : string) (c : Q) :
  confidence_of (_rule_based_extraction message) = Some c ->
  (7 # 10 <= c)%Q ->
  forall brain1 brain2 : Brain,
    extract_intent message brain1 = extract_intent message brain2 /\
    snd (extract_intent message brain1) = [] /\
    fst (extract_intent message brain1) = Ok (_rule_based_extraction message).
Proof.
  intros Hc Hle brain1 brain2.
  pose proof (not_below_threshold c Hle) as Hlt.
  rewrite (extract_intent_trusted message c brain1 Hc Hlt).
  rewrite (extract_intent_trusted message c brain2 Hc Hlt).
  repeat split.
Qed.

Lemma trusted_rule_witness :
  confidence_of (_rule_based_extraction "search python decorators") = Some (85 # 100)%Q /\
  (7 # 10 <= 85 # 100)%Q /\
  extract_intent "search python decorators" (fun _ => "yes") =
  extract_intent "search python decorators" (fun _ => "no").
Proof.
  split; [reflexivity|]. split; [unfold Qle; simpl; lia|].
  apply (trusted_rule_never_calls_completion "search python decorators" (85 # 100)).
  - reflexivity.
  - unfold Qle; simpl; lia.
Defined.


End IntentClaims.

(** ** The task planner *)

Module PlannerClaims.

Import PyStr Planner Notions PyStrFacts.

Lemma map_intent_to_skill_spec (kind : string) :
  _map_intent_to_skill (VStr kind) = Ok (capability_of_kind kind).
Proof.
  unfold _map_intent_to_skill, capability_of_kind, mapping. simpl.
  repeat match goal with
         | |- context [String.eqb kind ?k] =>
             destruct (String.eqb_spec kind k); [subst; reflexivity|]
         end.
  reflexivity.
Qed.

Lemma single_step_ok (intent : value) (kind : string) (parameters : value) :
  Py.subscript intent "intent" = Ok (VStr kind) ->
  Py.subscript intent "parameters" = Ok parameters ->
  single_step intent = Ok [the_step kind parameters].
Proof.
  intros Hk Hp. unfold single_step, rbind.
  rewrite Hk, map_intent_to_skill_spec, Hp. reflexivity.
Qed.

Lemma is_complex_request_true (u ind : string) :
  In ind complex_indicators -> Occurs ind (lower u) -> _is_complex_request u = true.
Proof.
  intros Hin Hocc. unfold _is_complex_request. exact (any_in_true _ _ _ Hin Hocc).
Qed.

(** What [plan] does on each of its two paths. *)
Lemma plan_direct (skills : list string) (u : string) (intent kind : value) (brain : Brain) :
  Py.subscript intent "intent" = Ok kind ->
  Py.eq_str kind "multi_step" = false ->
  _is_complex_request u = false ->
  plan skills u intent brain = (single_step intent, []).
Proof.
  intros Hk Hm Hc. unfold plan, bind, lift. rewrite Hk, Hm, Hc. simpl.
  destruct (single_step intent); reflexivity.
Qed.

Lemma plan_llm (skills : list string) (u : string) (intent kind : value) (brain : Brain) :
  Py.subscript intent "intent" = Ok kind ->
  Py.eq_str kind "multi_step" || _is_complex_request u = true ->
  plan skills u intent brain = _llm_plan skills u intent brain.
Proof.
  intros Hk Hc. unfold plan, bind, lift. rewrite Hk, Hc. simpl.
  destruct (_llm_plan skills u intent brain) as [r sent]. reflexivity.
Qed.

Lemma llm_plan_run (skills : list string) (u : string) (intent kind : value) (brain : Brain) :
  Py.subscript intent "intent" = Ok kind ->
  _llm_plan skills u intent brain =
    (match parse_array_text (brain (plan_prompt skills u kind)) with
     | Some steps => Ok steps
     | None => single_step intent
     end, [plan_prompt skills u kind]).
Proof.
  intros Hk. unfold _llm_plan, bind, lift, generate_response, ret. rewrite Hk. simpl.
  destruct (parse_array_text _); simpl; [reflexivity|].
  destruct (single_step intent); reflexivity.
Qed.




(** C6: for an intent whose kind is not [multi_step] and an utterance in
    whose lowercase form none of the compound indicators occurs, [plan]
    returns exactly one step, whose skill is the capability the kind
    maps to, and sends nothing to the completion capability. *)
Theorem simple_request_has_one_mapped_step
    (skills : list string) (u : string) (intent : value) (kind : string)
    (parameters : value) (brain : Brain) :
  Py.subscript intent "intent" = Ok (VStr kind) ->
  Py.subscript intent "parameters" = Ok parameters ->
  kind <> "multi_step" ->
  (forall ind, In ind complex_indicators -> ~ Occurs ind (lower u)) ->
  plan skills u intent brain =
    (Ok [VDict [("step", VInt 1);
                ("skill", VStr (capability_of_kind kind));
                ("parameters", parameters);
                ("description", VStr ("Execute " ++ kind))]], []).
Proof.
  intros Hk Hp Hm Hu.
  rewrite (plan_direct skills u intent (VStr kind) brain Hk).
  - rewrite (single_step_ok _ _ _ Hk Hp). reflexivity.
  - simpl. apply String.eqb_neq. exact Hm.
  - apply any_in_false. exact Hu.
Qed.

Lemma simple_request_witness :
  plan ["open_app"] "open vscode"
    (IntentExtractor.intent_dict "open_app" (9 # 10) [("app_name", VStr "vscode")])
    (fun _ => "unused") =
  (Ok [VDict [("step", VInt 1);
              ("skill", VStr "open_app");
              ("parameters", VDict [("app_name", VStr "vscode")]);
              ("description", VStr "Execute open_app")]], []).
Proof.
  apply (simple_request_has_one_mapped_step ["open_app"] "open vscode"
           (IntentExtractor.intent_dict "open_app" (9 # 10) [("app_name", VStr "vscode")])
           "open_app" (VDict [("app_name", VStr "vscode")]) (fun _ => "unused")).
  - reflexivity.
  - reflexivity.
  - discriminate.
  - intros ind Hin Hocc. apply contains_spec in Hocc. simpl in Hin.
    repeat (destruct Hin as [<-|Hin]; [vm_compute in Hocc; discriminate|]).
    exact Hin.
Defined.

(** C10: compound-request detection is substring containment in the
    lowercase utterance.  Whenever one of the indicators occurs anywhere
    in it, also inside a longer word, [plan] is [_llm_plan] and sends
    exactly one prompt to the completion capability, where the direct
    path sends none; this is so for every utterance in which "command"
    occurs, since "and" occurs in "command". *)
Theorem compound_indicator_forces_llm_path
    (skills : list string) (intent kind : value) (brain : Brain) :
  Py.subscript intent "intent" = Ok kind ->
  (forall u ind, In ind complex_indicators -> Occurs ind (lower u) ->
     plan skills u intent brain = _llm_plan skills u intent brain /\
     snd (plan skills u intent brain) = [plan_prompt skills u kind]) /\
  (forall u, Occurs "command" (lower u) ->
     plan skills u intent brain = _llm_plan skills u intent brain /\
     snd (plan skills u intent brain) = [plan_prompt skills u kind]).
Proof.
  intros Hk.
  assert (G : forall u ind, In ind complex_indicators -> Occurs ind (lower u) ->
     plan skills u intent brain = _llm_plan skills u intent brain /\
     snd (plan skills u intent brain) = [plan_prompt skills u kind]).
  { intros u ind Hin Hocc.
    assert (E : plan skills u intent brain = _llm_plan skills u intent brain).
    { apply (plan_llm skills u intent kind brain Hk).
      rewrite (is_complex_request_true u ind Hin Hocc). apply orb_true_r. }
    split; [exact E|]. rewrite E, (llm_plan_run skills u intent kind brain Hk). reflexivity. }
  split; [exact G|].
  intros u Hocc. apply (G u "and").
  - left. reflexivity.
  - apply (occurs_trans "and" "command"); [|exact Hocc].
    exists "comm", EmptyString. reflexivity.
Qed.

Lemma compound_indicator_witness :
  Occurs "command" (lower "Run the COMMAND ls") /\
  snd (plan ["run_command"] "Run the COMMAND ls"
         (IntentExtractor.intent_dict "run_command" (9 # 10) [("command", VStr "the command ls")])
         (fun _ => "no plan")) =
  [plan_prompt ["run_command"] "Run the COMMAND ls" (VStr "run_command")].
Proof.
  assert (O : Occurs "command" (lower "Run the COMMAND ls")).
  { exists "run the ", " ls". reflexivity. }
  split; [exact O|].
  apply (compound_indicator_forces_llm_path ["run_command"]
           (IntentExtractor.intent_dict "run_command" (9 # 10) [("command", VStr "the command ls")])
           (VStr "run_command") (fun _ => "no plan") eq_refl).
  exact O.
Defined.

End PlannerClaims.

(** ** The capability registry *)

Module RegistryClaims.

Import SkillRegistry.



End RegistryClaims.

(** ** The execution coordinator *)

Module ExecutorClaims.

Import SkillRegistry Executor Notions.

Lemma unwrap_first_present (r : list (string * value)) :
  unwrap (VDict r) = first_present ["formatted"; "content"; "message"; "stdout"] r.
Proof.
  unfold unwrap. simpl. repeat destruct (Py.lookup _ r); reflexivity.
Qed.

(** C7: when the plan has exactly one step and the registry returns for
    it a dictionary whose [success] is true, [execute_plan] returns the
    first present of its fields formatted, content, message, stdout, or
    its stringification when none is present, and sends nothing to the
    completion capability.  In particular the result [{success: True,
    message: "Opened X"}] gives exactly "Opened X". *)
Theorem single_successful_step_is_unwrapped {World : Type}
    (skills : registry World) (fields : list (string * value)) (user_message : string)
    (brain : Brain) (w w' : World) :
  let st := VDict fields in
  let skill_name := match Py.lookup "skill" fields with Some v => v | None => VStr "conversational" end in
  let parameters := match Py.lookup "parameters" fields with Some v => v | None => VDict [] end in
  (forall r success,
     execute_skill skills skill_name parameters w = (Ok (VDict r), w') ->
     Py.lookup "success" r = Some success ->
     Py.truthy success = true ->
     execute_plan skills [st] user_message brain w =
       ((Ok (first_present ["formatted"; "content"; "message"; "stdout"] r), []), w')) /\
  (execute_skill skills skill_name parameters w =
     (Ok (VDict [("success", VBool true); ("message", VStr "Opened X")]), w') ->
   execute_plan skills [st] user_message brain w = ((Ok (VStr "Opened X"), []), w')).
Proof.
  intros st skill_name parameters.
  assert (G : forall r success,
     execute_skill skills skill_name parameters w = (Ok (VDict r), w') ->
     Py.lookup "success" r = Some success ->
     Py.truthy success = true ->
     execute_plan skills [st] user_message brain w =
       ((Ok (first_present ["formatted"; "content"; "message"; "stdout"] r), []), w')).
  { intros r success He Hs Ht.
    unfold execute_plan, run_steps, st, Py.get.
    fold skill_name. fold parameters. rewrite He.
    cbn [step_result]. unfold Py.get. rewrite Hs, Ht, unwrap_first_present. reflexivity. }
  split; [exact G|].
  intros He. exact (G _ (VBool true) He eq_refl eq_refl).
Qed.

Lemma single_successful_step_witness :
  execute_plan [("open_app", open_app_skill)]
    [VDict [("step", VInt 1); ("skill", VStr "open_app");
            ("parameters", VDict [("app_name", VStr "X")]);
            ("description", VStr "Execute open_app")]]
    "open X" (fun _ => "a summary") tt =
  ((Ok (VStr "Opened X"), []), tt).
Proof.
  apply (single_successful_step_is_unwrapped [("open_app", open_app_skill)]
           [("step", VInt 1); ("skill", VStr "open_app");
            ("parameters", VDict [("app_name", VStr "X")]);
            ("description", VStr "Execute open_app")]
           "open X" (fun _ => "a summary") tt tt).
  reflexivity.
Defined.

End ExecutorClaims.

(** ** [json.dumps] followed by [json.loads] on a list of strings *)

Module JsonFacts.

Import PyStr Json PyStrFacts.




Lemma parse_elems_step (fuel : nat) (s : string) (acc : list value) :
  parse_elems (S fuel) s acc =
    match parse_value fuel s with
    | Some (v, r) =>
        let r1 := skip_ws r in
        if next_is "," r1 then parse_elems fuel (skip_ws (tail r1)) (v :: acc)
        else if next_is "]" r1 then Some (VList (rev (v :: acc)), tail r1)
        else None
    | None => None
    end.
Proof. reflexivity. Qed.








(** *** Fuel

    The parser is total in the text: its fuel is an artefact of the
    embedding, and [loads] gives enough of it. *)

Lemma length_lstrip_by (p : ascii -> bool) (s : string) :
  (String.length (lstrip_by p s) <= String.length s)%nat.
Proof.
  induction s as [|c s IH]; simpl; [lia|]. destruct (p c); simpl; lia.
Qed.

Lemma length_skip_ws (s : string) : (String.length (skip_ws s) <= String.length s)%nat.
Proof. apply length_lstrip_by. Qed.

Lemma length_tail (c : ascii) (s : string) :
  next_is c s = true -> String.length s = S (String.length (tail s)).
Proof. destruct s; simpl; [discriminate|reflexivity]. Qed.

Lemma length_tail_le (s : string) : (String.length (tail s) <= String.length s)%nat.
Proof. destruct s; simpl; lia. Qed.

Lemma length_drop_prefix (p s : string) :
  startswith s p = true ->
  (String.length (drop (String.length p) s) + String.length p = String.length s)%nat.
Proof.
  revert s. induction p as [|a p IH]; intros s H; simpl.
  - lia.
  - destruct s as [|b s]; simpl in H; [discriminate|].
    apply andb_true_iff in H. destruct H as [_ H]. specialize (IH _ H). simpl. lia.
Qed.

Lemma after_shorter (p s r : string) :
  after p s = Some r -> p <> EmptyString -> (String.length r < String.length s)%nat.
Proof.
  unfold after. destruct (startswith s p) eqn:E; [|discriminate].
  intros H N. injection H as <-. pose proof (length_drop_prefix p s E).
  destruct p; [contradiction|]. simpl in *. lia.
Qed.

Lemma span_digits_length (s : string) :
  (String.length (snd (span_digits s)) <= String.length s)%nat.
Proof.
  induction s as [|c s IH]; simpl; [lia|].
  destruct (is_digit c); [|simpl; lia].
  destruct (span_digits s). simpl in *. lia.
Qed.

Lemma parse_frac_length (s : string) :
  (String.length (snd (parse_frac s)) <= String.length s)%nat.
Proof.
  unfold parse_frac. destruct (next_is "." s); [|simpl; lia].
  pose proof (span_digits_length (tail s)) as H. pose proof (length_tail_le s).
  destruct (span_digits (tail s)) as [[|d ds] rest]; simpl in *; lia.
Qed.

Lemma parse_exp_length (s : string) :
  (String.length (snd (parse_exp s)) <= String.length s)%nat.
Proof.
  unfold parse_exp. destruct (next_is "e" s || next_is "E" s); [|simpl; lia].
  cbv zeta.
  match goal with |- context [span_digits ?x] =>
    pose proof (span_digits_length x) as H;
    assert (L : (String.length x <= String.length s)%nat)
  end.
  { pose proof (length_tail_le s). pose proof (length_tail_le (tail s)).
    destruct (next_is "-" (tail s) || next_is "+" (tail s)); lia. }
  match goal with |- context [span_digits ?x] =>
    destruct (span_digits x) as [[|d ds] rest]; simpl in *; lia
  end.
Qed.

Lemma parse_number_shorter (s : string) (v : value) (rest : string) :
  parse_number s = Some (v, rest) -> (String.length rest < String.length s)%nat.
Proof.
  unfold parse_number. cbv zeta.
  set (s1 := if next_is "-" s then tail s else s).
  assert (L1 : (String.length s1 <= String.length s)%nat).
  { subst s1. pose proof (length_tail_le s). destruct (next_is "-" s); lia. }
  destruct s1 as [|c r] eqn:E; [discriminate|].
  destruct (is_digit c) eqn:D; [|discriminate].
  assert (L2 : forall ip r1, (if Ascii.eqb c "0" then (String c EmptyString, r)
                              else span_digits (String c r)) = (ip, r1) ->
               (String.length r1 <= String.length r)%nat).
  { intros ip r1 H. destruct (Ascii.eqb c "0").
    - injection H as _ <-. lia.
    - simpl in H. rewrite D in H. pose proof (span_digits_length r).
      destruct (span_digits r). injection H as _ <-. simpl in *. lia. }
  destruct (if Ascii.eqb c "0" then _ else _) as [ip r1] eqn:I.
  specialize (L2 _ _ eq_refl).
  pose proof (parse_frac_length r1) as F. destruct (parse_frac r1) as [frac r2].
  pose proof (parse_exp_length r2) as X. destruct (parse_exp r2) as [ex r3].
  simpl in *. destruct frac, ex; intros H; injection H as _ <-; lia.
Qed.

Lemma parse_atom_shorter (s : string) (v : value) (rest : string) :
  parse_atom s = Some (v, rest) -> (String.length rest < String.length s)%nat.
Proof.
  unfold parse_atom.
  repeat match goal with
         | |- context [after ?p s] =>
             let E := fresh "E" in
             destruct (after p s) eqn:E;
             [intros H; injection H as _ <-; apply (after_shorter _ _ _ E); discriminate|]
         | |- context [parse_number s] =>
             let E := fresh "E" in
             destruct (parse_number s) as [[? ?]|] eqn:E;
             [intros H; injection H as _ <-; exact (parse_number_shorter _ _ _ E)|]
         end.
  discriminate.
Qed.

Lemma cons_fst_some (c : ascii) (p : option (string * string)) (t rest : string) :
  cons_fst c p = Some (t, rest) -> exists t', p = Some (t', rest).
Proof.
  destruct p as [[t' r]|]; simpl; [|discriminate].
  intros H. injection H as _ <-. eauto.
Qed.

Lemma parse_string_shorter_upto (n : nat) :
  forall s t rest, (String.length s <= n)%nat ->
    parse_string s = Some (t, rest) -> (String.length rest < String.length s)%nat.
Proof.
  induction n as [|n IH]; intros s t rest L H.
  - destruct s; [discriminate|simpl in L; lia].
  - destruct s as [|c r]; [discriminate|]. simpl in H, L.
    destruct (Ascii.eqb c dquote); [injection H as _ <-; simpl; lia|].
    destruct (Ascii.eqb c "\").
    + destruct r as [|e r1]; [discriminate|].
      destruct (Ascii.eqb e "u").
      * destruct r1 as [|h1 [|h2 [|h3 [|h4 r2]]]]; try discriminate.
        destruct (hex4 h1 h2 h3 h4); [|discriminate].
        destruct (_ <? 256)%nat; [|discriminate].
        apply cons_fst_some in H. destruct H as [t' H].
        apply IH in H; simpl in *; lia.
      * destruct (unescape e); [|discriminate].
        apply cons_fst_some in H. destruct H as [t' H].
        apply IH in H; simpl in *; lia.
    + destruct (code c <? 32)%nat; [discriminate|].
      apply cons_fst_some in H. destruct H as [t' H].
      apply IH in H; simpl in *; lia.
Qed.

Lemma parse_string_shorter (s t rest : string) :
  parse_string s = Some (t, rest) -> (String.length rest < String.length s)%nat.
Proof. apply (parse_string_shorter_upto (String.length s)). lia. Qed.

(** A successful parse consumes text, and any fuel from the number of
    characters consumed gives the same result. *)
Definition enough_value (f : nat) : Prop :=
  forall s v rest, parse_value f s = Some (v, rest) ->
    (String.length rest < String.length s)%nat /\
    forall g, (String.length s - String.length rest <= g)%nat ->
              parse_value g s = Some (v, rest).

Definition enough_elems (f : nat) : Prop :=
  forall s acc v rest, parse_elems f s acc = Some (v, rest) ->
    (String.length rest < String.length s)%nat /\
    forall g, (String.length s - String.length rest <= g)%nat ->
              parse_elems g s acc = Some (v, rest).

Definition enough_members (f : nat) : Prop :=
  forall s acc v rest, parse_members f s acc = Some (v, rest) ->
    (String.length rest < String.length s)%nat /\
    forall g, (String.length s - String.length rest <= g)%nat ->
              parse_members g s acc = Some (v, rest).

Lemma parse_value_step (f : nat) (s : string) :
  parse_value (S f) s =
    if next_is dquote s then
      match parse_string (tail s) with
      | Some (t, rest) => Some (VStr t, rest)
      | None => None
      end
    else if next_is "[" s then
      if next_is "]" (skip_ws (tail s)) then Some (VList [], tail (skip_ws (tail s)))
      else parse_elems f (skip_ws (tail s)) []
    else if next_is "{" s then
      if next_is "}" (skip_ws (tail s)) then Some (VDict [], tail (skip_ws (tail s)))
      else parse_members f (skip_ws (tail s)) []
    else parse_atom s.
Proof. reflexivity. Qed.

Lemma parse_members_step (f : nat) (s : string) (acc : list (string * value)) :
  parse_members (S f) s acc =
    if next_is dquote s then
      match parse_string (tail s) with
      | Some (k, r1) =>
          if next_is ":" (skip_ws r1) then
            match parse_value f (skip_ws (tail (skip_ws r1))) with
            | Some (v, r3) =>
                if next_is "," (skip_ws r3)
                then parse_members f (skip_ws (tail (skip_ws r3))) ((k, v) :: acc)
                else if next_is "}" (skip_ws r3)
                then Some (VDict (Py.from_pairs (rev ((k, v) :: acc))), tail (skip_ws r3))
                else None
            | None => None
            end
          else None
      | None => None
      end
    else None.
Proof. reflexivity. Qed.

Ltac lengths :=
  repeat match goal with
         | H : next_is _ ?s = true |- _ =>
             lazymatch goal with
             | _ : String.length s = S (String.length (tail s)) |- _ => fail
             | _ => pose proof (length_tail _ _ H)
             end
         | |- context [skip_ws ?s] =>
             lazymatch goal with
             | _ : (String.length (skip_ws s) <= String.length s)%nat |- _ => fail
             | _ => pose proof (length_skip_ws s)
             end
         | _ : context [skip_ws ?s] |- _ =>
             lazymatch goal with
             | _ : (String.length (skip_ws s) <= String.length s)%nat |- _ => fail
             | _ => pose proof (length_skip_ws s)
             end
         end.

Lemma enough_all (f : nat) : enough_value f /\ enough_elems f /\ enough_members f.
Proof.
  induction f as [|f [IHv [IHe IHm]]].
  - repeat split; discriminate.
  - split; [|split].
    + intros s v rest H. rewrite parse_value_step in H.
      destruct (next_is dquote s) eqn:Q.
      { destruct (parse_string (tail s)) as [[t r]|] eqn:P; [|discriminate].
        injection H as <- <-. pose proof (parse_string_shorter _ _ _ P). lengths.
        split; [lia|]. intros [|g] G; [lia|].
        rewrite parse_value_step, Q, P. reflexivity. }
      destruct (next_is "[" s) eqn:B.
      { destruct (next_is "]" (skip_ws (tail s))) eqn:C.
        - injection H as <- <-. lengths. split; [lia|]. intros [|g] G; [lia|].
          rewrite parse_value_step, Q, B, C. reflexivity.
        - destruct (IHe _ _ _ _ H) as [L K]. lengths. split; [lia|].
          intros [|g] G; [lia|]. rewrite parse_value_step, Q, B, C. apply K. lia. }
      destruct (next_is "{" s) eqn:O.
      { destruct (next_is "}" (skip_ws (tail s))) eqn:C.
        - injection H as <- <-. lengths. split; [lia|]. intros [|g] G; [lia|].
          rewrite parse_value_step, Q, B, O, C. reflexivity.
        - destruct (IHm _ _ _ _ H) as [L K]. lengths. split; [lia|].
          intros [|g] G; [lia|]. rewrite parse_value_step, Q, B, O, C. apply K. lia. }
      pose proof (parse_atom_shorter _ _ _ H). split; [lia|].
      intros [|g] G; [lia|]. rewrite parse_value_step, Q, B, O. exact H.
    + intros s acc v rest H. rewrite parse_elems_step in H.
      destruct (parse_value f s) as [[v1 r]|] eqn:P; [|discriminate].
      destruct (IHv _ _ _ P) as [L1 K1]. cbv zeta in H.
      destruct (next_is "," (skip_ws r)) eqn:C.
      * destruct (IHe _ _ _ _ H) as [L2 K2]. lengths. split; [lia|].
        intros [|g] G; [lia|]. rewrite parse_elems_step, (K1 g) by lia.
        cbv zeta. rewrite C. apply K2. lia.
      * destruct (next_is "]" (skip_ws r)) eqn:D; [|discriminate].
        injection H as <- <-. lengths. split; [lia|].
        intros [|g] G; [lia|]. rewrite parse_elems_step, (K1 g) by lia.
        cbv zeta. rewrite C, D. reflexivity.
    + intros s acc v rest H. rewrite parse_members_step in H.
      destruct (next_is dquote s) eqn:Q; [|discriminate].
      destruct (parse_string (tail s)) as [[k r1]|] eqn:P; [|discriminate].
      pose proof (parse_string_shorter _ _ _ P) as LP.
      destruct (next_is ":" (skip_ws r1)) eqn:C; [|discriminate].
      destruct (parse_value f (skip_ws (tail (skip_ws r1)))) as [[v1 r3]|] eqn:V; [|discriminate].
      destruct (IHv _ _ _ V) as [L1 K1].
      destruct (next_is "," (skip_ws r3)) eqn:M.
      * destruct (IHm _ _ _ _ H) as [L2 K2]. lengths. split; [lia|].
        intros [|g] G; [lia|]. rewrite parse_members_step, Q, P, C, (K1 g) by lia.
        rewrite M. apply K2. lia.
      * destruct (next_is "}" (skip_ws r3)) eqn:D; [|discriminate].
        injection H as <- <-. lengths. split; [lia|].
        intros [|g] G; [lia|]. rewrite parse_members_step, Q, P, C, (K1 g) by lia.
        rewrite M, D. reflexivity.
Qed.

(** Fuel never runs out in [loads]: a document that parses with some fuel
    parses, to the same value, with the fuel that [loads] gives. *)
Theorem fuel_is_enough (s : string) (f : nat) (v : value) (rest : string) :
  parse_value f (skip_ws s) = Some (v, rest) ->
  skip_ws rest = EmptyString ->
  loads s = Some v.
Proof.
  intros H E. unfold loads.
  destruct (proj1 (enough_all f) _ _ _ H) as [L K].
  rewrite (K (S (String.length s))), E; [reflexivity|].
  pose proof (length_skip_ws s). lia.
Qed.

End JsonFacts.

(** ** The memory store *)

Module MemoryFacts.

Import Memory Notions.

Local Open Scope Z_scope.

(** *** Preferences *)

Lemma find_app_none {A} (f : A -> bool) (l : list A) (x : A) :
  List.find f l = None -> f x = true -> List.find f (l ++ [x]) = Some x.
Proof.
  induction l as [|a l IH]; simpl; intros Hn Hx.
  - rewrite Hx. reflexivity.
  - destruct (f a); [discriminate|]. exact (IH Hn Hx).
Qed.

Lemma first_after_update (k v : string) (now : datetime) (rows : list UserPreference) :
  first_with_key k rows <> None ->
  option_map value_of (first_with_key k (update_first k v now rows)) = Some v.
Proof.
  unfold first_with_key. induction rows as [|p rows IH]; simpl; intros H.
  - contradiction.
  - destruct (String.eqb (key p) k) eqn:E; simpl.
    + rewrite E. reflexivity.
    + rewrite E. exact (IH H).
Qed.

Lemma length_update_first (k v : string) (now : datetime) (rows : list UserPreference) :
  List.length (update_first k v now rows) = List.length rows.
Proof.
  induction rows as [|p rows IH]; simpl; [reflexivity|].
  destruct (String.eqb (key p) k); simpl; [reflexivity|]. rewrite IH. reflexivity.
Qed.

Lemma save_preference_ok (k v : string) (env : Env) (st st' : State) :
  save_preference k v env st = (Ok tt, st') ->
  sql_up env = true /\ upserted k v (user_preferences st) (user_preferences st').
Proof.
  unfold save_preference, mbind, sql_select, sql_commit, utcnow.
  destruct (sql_up env) eqn:U; [|discriminate].
  cbn [record user_preferences].
  destruct (first_with_key k (user_preferences st)) as [row|] eqn:F; rewrite U;
    intros H; injection H as <-; (split; [reflexivity|]).
  - right. split; [rewrite F; discriminate|]. eexists. reflexivity.
  - left. split; [exact F|]. do 3 eexists. reflexivity.
Qed.

Lemma upserted_first (k v : string) (rows rows' : list UserPreference) :
  upserted k v rows rows' ->
  option_map value_of (first_with_key k rows') = Some v.
Proof.
  intros [[Hn [n [c [u ->]]]]|[Hs [now ->]]].
  - unfold first_with_key in *. rewrite (find_app_none _ _ _ Hn); [reflexivity|].
    simpl. apply String.eqb_refl.
  - exact (first_after_update k v now rows Hs).
Qed.

Lemma set_keys_in (k k' : string) (v : value) (d : list (string * value)) :
  In k' (map fst (Py.set k v d)) <-> k' = k \/ In k' (map fst d).
Proof.
  induction d as [|[a x] d IH]; simpl.
  - intuition.
  - destruct (String.eqb_spec k a) as [->|N]; simpl; [intuition|].
    rewrite IH. intuition.
Qed.

Lemma set_keys_nodup (k : string) (v : value) (d : list (string * value)) :
  NoDup (map fst d) -> NoDup (map fst (Py.set k v d)).
Proof.
  induction d as [|[a x] d IH]; simpl; intros H.
  - constructor; [intros []|constructor].
  - destruct (String.eqb_spec k a) as [->|N]; simpl; [exact H|].
    inversion H as [|? ? Hn Hd]; subst. constructor; [|exact (IH Hd)].
    rewrite set_keys_in. intros [E|I]; [exact (N (eq_sym E))|exact (Hn I)].
Qed.

Lemma fold_set_keys (l : list (string * value)) (acc : list (string * value)) :
  NoDup (map fst acc) ->
  NoDup (map fst (fold_left (fun d kv => Py.set (fst kv) (snd kv) d) l acc)) /\
  forall k, In k (map fst (fold_left (fun d kv => Py.set (fst kv) (snd kv) d) l acc)) <->
            In k (map fst acc) \/ In k (map fst l).
Proof.
  revert acc. induction l as [|[a x] l IH]; simpl; intros acc H.
  - split; [exact H|]. intuition.
  - destruct (IH (Py.set a x acc) (set_keys_nodup a x acc H)) as [N I].
    split; [exact N|]. intros k. rewrite I, set_keys_in. intuition.
Qed.

(** A dictionary comprehension has one entry for each key that occurs. *)
Lemma from_pairs_one_entry (l : list (string * value)) (k : string) :
  In k (map fst l) -> count_occ string_dec (map fst (Py.from_pairs l)) k = 1%nat.
Proof.
  intros H. unfold Py.from_pairs.
  destruct (fold_set_keys l [] (NoDup_nil _)) as [N I].
  apply NoDup_count_occ'; [exact N|]. apply I. right. exact H.
Qed.

Lemma first_with_key_in (k : string) (rows : list UserPreference) (p : UserPreference) :
  first_with_key k rows = Some p -> In k (map key rows).
Proof.
  unfold first_with_key. intros H. apply find_some in H. destruct H as [Hin Hk].
  apply String.eqb_eq in Hk. subst k. apply in_map. exact Hin.
Qed.

(** *** Conversations *)

(** What [save_conversation] does, by the state of the two stores. *)
Lemma save_conversation_run (um ar : string) (it : option string) (sk : option (list string))
    (env : Env) (st : State) :
  let row := {| id := S (List.length (conversation_history st));
                user_message := um; assistant_response := ar; intent := it;
                skills_used := dumps_skills sk; created_at := clock env (ticks st) |} in
  let e := {| entry_id := "conv_" ++ timestamp_str (clock env (S (S (ticks st))));
              document := "User: " ++ um ++ nl ++ "Assistant: " ++ ar;
              metadata := [("intent", VStr (or_else it "unknown"));
                           ("timestamp", VStr (isoformat (clock env (S (ticks st)))));
                           ("skills", VStr (or_else (dumps_skills sk) EmptyString))] |} in
  save_conversation um ar it sk env st =
    if sql_up env then
      if chroma_up env then
        (Ok tt,
         {| user_preferences := user_preferences st;
            conversation_history := (conversation_history st ++ [row])%list;
            semantic_memory := (semantic_memory st ++ [e])%list;
            ticks := S (S (S (ticks st)));
            attempts := ((attempts st ++ [SqlCommit "conversation_history"]) ++
                         [ChromaAdd (entry_id e)])%list |})
      else
        (Raise (unreachable "collection"),
         {| user_preferences := user_preferences st;
            conversation_history := (conversation_history st ++ [row])%list;
            semantic_memory := semantic_memory st;
            ticks := S (S (S (ticks st)));
            attempts := ((attempts st ++ [SqlCommit "conversation_history"]) ++
                         [ChromaAdd (entry_id e)])%list |})
    else
      (Raise (unreachable "database"),
       {| user_preferences := user_preferences st;
          conversation_history := conversation_history st;
          semantic_memory := semantic_memory st;
          ticks := S (ticks st);
          attempts := (attempts st ++ [SqlCommit "conversation_history"])%list |}).
Proof.
  intros row e. subst row e.
  unfold save_conversation, mbind, sql_commit, utcnow, chroma_add.
  cbn [record set_history set_semantic user_preferences conversation_history
       semantic_memory ticks attempts entry_id].
  destruct (sql_up env); [|reflexivity].
  cbn [record set_history set_semantic user_preferences conversation_history
       semantic_memory ticks attempts entry_id].
  destruct (chroma_up env); reflexivity.
Qed.











Section Clock.

Variable env : Env.
Hypothesis clock_increasing : forall i j : nat, (i < j)%nat -> clock env i < clock env j.





End Clock.

End MemoryFacts.

Module MemoryClaims.

Import Memory Notions MemoryFacts.

Local Open Scope Z_scope.

(** C9: after [save_preference k v1] and then [save_preference k v2],
    [get_preference k] returns [v2], [get_all_preferences] has exactly
    one entry for [k], and the second save has updated a row in place:
    the table has as many rows as after the first save. *)
Theorem upsert_round_trip (k v1 v2 : string) (env : Env) (st st1 st2 : State) :
  save_preference k v1 env st = (Ok tt, st1) ->
  save_preference k v2 env st1 = (Ok tt, st2) ->
  fst (get_preference k env st2) = Ok (Some v2) /\
  (exists d, fst (get_all_preferences env st2) = Ok d /\
             count_occ string_dec (map fst d) k = 1%nat) /\
  List.length (user_preferences st2) = List.length (user_preferences st1).
Proof.
  intros H1 H2.
  destruct (save_preference_ok _ _ _ _ _ H1) as [U S1].
  destruct (save_preference_ok _ _ _ _ _ H2) as [_ S2].
  pose proof (upserted_first _ _ _ _ S1) as F1.
  pose proof (upserted_first _ _ _ _ S2) as F2.
  split; [|split].
  - unfold get_preference, mbind, sql_select, mret. rewrite U. simpl. rewrite F2. reflexivity.
  - unfold get_all_preferences, mbind, sql_select, mret. rewrite U. simpl.
    eexists. split; [reflexivity|].
    apply from_pairs_one_entry. rewrite map_map. simpl.
    destruct (first_with_key k (user_preferences st2)) as [p|] eqn:E; [|discriminate].
    exact (first_with_key_in _ _ _ E).
  - destruct S2 as [[Hn _]|[_ [now ->]]].
    + rewrite Hn in F1. discriminate.
    + apply length_update_first.
Qed.

Lemma upsert_round_trip_witness :
  fst (get_preference "tone_style" steady
         (snd (save_preference "tone_style" "casual" steady
                 (snd (save_preference "tone_style" "formal" steady empty))))) =
    Ok (Some "casual") /\
  List.length (user_preferences
         (snd (save_preference "tone_style" "casual" steady
                 (snd (save_preference "tone_style" "formal" steady empty))))) = 1%nat.
Proof.
  pose proof (upsert_round_trip "tone_style" "formal" "casual" steady empty
                (snd (save_preference "tone_style" "formal" steady empty))
                (snd (save_preference "tone_style" "casual" steady
                        (snd (save_preference "tone_style" "formal" steady empty))))
                eq_refl eq_refl) as [G [_ L]].
  split; [exact G|exact L].
Defined.




(** C3, as amended: [save_conversation] is two-phase, the insert into
    the relational store first and the indexing into the semantic store
    second.  The relational insert is always attempted.  If it fails,
    [save_conversation] raises that failure and the semantic store is not
    touched.  If it succeeds, the semantic insert is attempted; when that
    one fails, [save_conversation] raises and the relational row stays
    committed. *)
Theorem save_conversation_phases
    (um ar : string) (it : option string) (sk : option (list string)) (env : Env) (st : State) :
  let out := save_conversation um ar it sk env st in
  (exists later, attempts (snd out) =
     (attempts st ++ SqlCommit "conversation_history" :: later)%list) /\
  (sql_up env = false ->
     (exists e, fst out = Raise e) /\
     attempts (snd out) = (attempts st ++ [SqlCommit "conversation_history"])%list /\
     conversation_history (snd out) = conversation_history st /\
     semantic_memory (snd out) = semantic_memory st) /\
  (sql_up env = true ->
     exists row e,
       conversation_history (snd out) = (conversation_history st ++ [row])%list /\
       attempts (snd out) =
         (attempts st ++ [SqlCommit "conversation_history"; ChromaAdd (entry_id e)])%list /\
       (chroma_up env = true ->
          fst out = Ok tt /\ semantic_memory (snd out) = (semantic_memory st ++ [e])%list) /\
       (chroma_up env = false ->
          (exists x, fst out = Raise x) /\ semantic_memory (snd out) = semantic_memory st)).
Proof.
  intros out. subst out. rewrite save_conversation_run.
  destruct (sql_up env), (chroma_up env); cbn [fst snd attempts conversation_history semantic_memory];
    (split; [eexists; rewrite <- ?app_assoc; reflexivity|]);
    (split; [intros U; try discriminate; repeat split; eexists; reflexivity|]);
    intros U; try discriminate;
    do 2 eexists; (split; [reflexivity|]); (split; [rewrite <- app_assoc; reflexivity|]);
    split; intros C; try discriminate; split; try reflexivity; eexists; reflexivity.
Qed.

Lemma save_conversation_phases_witness :
  sql_up database_down = false /\
  attempts (snd (save_conversation "hi" "hello" None None database_down empty)) =
    [SqlCommit "conversation_history"].
Proof.
  split; [reflexivity|].
  exact (proj1 (proj2 (proj1 (proj2 (save_conversation_phases "hi" "hello" None None
                                        database_down empty)) eq_refl))).
Defined.

(** C3 as stated fails: when the relational insert fails, the semantic
    insert is not attempted and the semantic store stays as it was. *)
Lemma relational_failure_skips_semantic_insert :
  (exists e, fst (save_conversation "hi" "hello" None None database_down empty) = Raise e) /\
  (forall x, ~ In (ChromaAdd x)
       (attempts (snd (save_conversation "hi" "hello" None None database_down empty)))) /\
  semantic_memory (snd (save_conversation "hi" "hello" None None database_down empty)) = [].
Proof.
  split; [eexists; reflexivity|]. split; [|reflexivity].
  intros x [H|[]]. discriminate.
Qed.

End MemoryClaims.

(** ** The scenarios of the specification, evaluated *)

Module Scenarios.

Import IntentExtractor Planner SkillRegistry Notions.

Example open_vscode_intent (brain : Brain) :
  extract_intent "open vscode" brain =
    (Ok (intent_dict "open_app" (9 # 10) [("app_name", VStr "vscode")]), []).
Proof. reflexivity. Qed.

Example open_vscode_plan (brain : Brain) :
  plan ["open_app"; "web_search"] "open vscode"
    (intent_dict "open_app" (9 # 10) [("app_name", VStr "vscode")]) brain =
    (Ok [VDict [("step", VInt 1);
                ("skill", VStr "open_app");
                ("parameters", VDict [("app_name", VStr "vscode")]);
                ("description", VStr "Execute open_app")]], []).
Proof. reflexivity. Qed.

Example search_python_decorators (brain : Brain) :
  extract_intent "search python decorators" brain =
    (Ok (intent_dict "web_search" (85 # 100) [("query", VStr "python decorators")]), []).
Proof. reflexivity. Qed.

(** Without a rule that matches, the completion capability decides, and
    text without a JSON object gives the conversational default. *)
Example hello_falls_back :
  extract_intent "hello there" (fun _ => "I cannot tell.") =
    (Ok conversational_default, [extraction_prompt "hello there"]).
Proof. reflexivity. Qed.

(** "display" contains "play": the play rule comes before the read rule. *)
Example display_is_a_play_request (brain : Brain) :
  fst (extract_intent "display notes.txt" brain) =
    Ok (intent_dict "web_search" (95 # 100) [("query", VStr "notes.txt")]).
Proof. reflexivity. Qed.

End Scenarios.

(** * More properties of the code *)

Module IntentExtras.

Import PyStr IntentExtractor Notions MoreNotions PyStrFacts IntentFacts.





(** [extract_intent] when the rule result is known to be [r]. *)
Lemma extract_intent_trusted' (message : string) (r : value) (c : Q) (brain : Brain) :
  confidence_of r = Some c ->
  Py.float_ltb (Fin c) threshold = false ->
  _rule_based_extraction message = r ->
  extract_intent message brain = (Ok r, []).
Proof.
  intros Hc Hlt <-. exact (extract_intent_trusted message c brain Hc Hlt).
Qed.


(** X2: the keyword "display" of the read rule is never effective.
    "play" occurs in "display", and the play rule comes before the read
    rule, so an utterance whose lowercase form contains "display" is
    classified as [web_search], or as [open_app] when the open rule
    fires, never as [read_file], and without any completion call. *)
Theorem display_is_never_read_file (message : string) (brain : Brain) :
  contains "display" (lower message) = true ->
  exists kind,
    (kind = "open_app" \/ kind = "web_search") /\
    kind_of (_rule_based_extraction message) = Some kind /\
    extract_intent message brain = (Ok (_rule_based_extraction message), []).
Proof.
  intros D.
  assert (P : contains "play" (lower message) = true).
  { apply contains_spec. apply (occurs_trans "play" "display"); [|apply contains_spec; exact D].
    exists "dis", EmptyString. reflexivity. }
  assert (R : exists kind r c,
            (kind = "open_app" \/ kind = "web_search") /\
            _rule_based_extraction message = r /\ kind_of r = Some kind /\
            confidence_of r = Some c /\ Py.float_ltb (Fin c) threshold = false).
  { unfold _rule_based_extraction.
    destruct (if any_in _ _ then _ else None) as [app|].
    - exists "open_app". do 2 eexists. split; [left; reflexivity|].
      split; [reflexivity|]. repeat split.
    - unfold play_rule. rewrite P.
      exists "web_search". do 2 eexists. split; [right; reflexivity|].
      split; [reflexivity|]. repeat split. }
  destruct R as [kind [r [c [K [E [Hk [Hc Hlt]]]]]]].
  exists kind. rewrite E. split; [exact K|]. split; [exact Hk|].
  exact (extract_intent_trusted' message r c brain Hc Hlt E).
Qed.

Lemma display_is_never_read_file_witness :
  contains "display" (lower "Display the file './notes.txt'") = true /\
  exists kind,
    (kind = "open_app" \/ kind = "web_search") /\
    kind_of (_rule_based_extraction "Display the file './notes.txt'") = Some kind /\
    extract_intent "Display the file './notes.txt'" (fun _ => EmptyString) =
      (Ok (_rule_based_extraction "Display the file './notes.txt'"), []).
Proof.
  split; [reflexivity|].
  exact (display_is_never_read_file "Display the file './notes.txt'" (fun _ => EmptyString)
           eq_refl).
Defined.

(** *** Extracted text is in lowercase *)

Lemma lower_char_idem (c : ascii) : lower_char (lower_char c) = lower_char c.
Proof. destruct c as [[] [] [] [] [] [] [] []]; reflexivity. Qed.

Lemma lowercase_lower (s : string) : lowercase (lower s).
Proof.
  unfold lowercase. induction s as [|c s IH]; simpl; [reflexivity|].
  rewrite lower_char_idem, IH. reflexivity.
Qed.

Lemma lowercase_cons (c : ascii) (s : string) :
  lowercase (String c s) <-> lower_char c = c /\ lowercase s.
Proof.
  unfold lowercase. simpl. split.
  - intros H. injection H as H1 H2. auto.
  - intros [H1 H2]. rewrite H1, H2. reflexivity.
Qed.

Lemma lowercase_app (a b : string) : lowercase a -> lowercase b -> lowercase (a ++ b).
Proof. unfold lowercase. intros Ha Hb. rewrite lower_app, Ha, Hb. reflexivity. Qed.

Lemma lowercase_drop (n : nat) : forall s, lowercase s -> lowercase (drop n s).
Proof.
  induction n as [|n IH]; intros s H; [exact H|].
  destruct s as [|c s]; [exact H|]. simpl. apply IH. apply lowercase_cons in H. tauto.
Qed.

Lemma lowercase_split1 (sep : string) :
  forall s a b, lowercase s -> split1 s sep = [a; b] -> lowercase a /\ lowercase b.
Proof.
  induction s as [|c s IH]; intros a b L H; simpl in H.
  - destruct (startswith EmptyString sep); [|discriminate].
    inversion H; subst. split; [reflexivity|apply lowercase_drop; exact L].
  - destruct (startswith (String c s) sep).
    + inversion H; subst. split; [reflexivity|apply lowercase_drop; exact L].
    + apply lowercase_cons in L. destruct L as [Lc Ls].
      destruct (split1 s sep) as [|a' [|b' [|]]] eqn:E; try discriminate.
      inversion H; subst. destruct (IH _ _ Ls eq_refl) as [La Lb].
      split; [apply lowercase_cons; split; assumption|exact Lb].
Qed.

Lemma lowercase_lstrip (p : ascii -> bool) (s : string) :
  lowercase s -> lowercase (lstrip_by p s).
Proof.
  induction s as [|c s IH]; simpl; intros L; [exact L|].
  destruct (p c); [|exact L]. apply IH. apply lowercase_cons in L. tauto.
Qed.

Lemma lowercase_rstrip (p : ascii -> bool) (s : string) :
  lowercase s -> lowercase (rstrip_by p s).
Proof.
  induction s as [|c s IH]; simpl; intros L; [exact L|].
  apply lowercase_cons in L. destruct L as [Lc Ls]. specialize (IH Ls).
  destruct (rstrip_by p s) as [|d r].
  - destruct (p c); [reflexivity|]. apply lowercase_cons. split; [exact Lc|reflexivity].
  - apply lowercase_cons. split; assumption.
Qed.

Lemma lowercase_strip (s : string) : lowercase s -> lowercase (strip s).
Proof. intros L. apply lowercase_rstrip, lowercase_lstrip, L. Qed.

Lemma lowercase_words (s : string) :
  forall cur w, lowercase cur -> lowercase s -> In w (split_ws_aux cur s) -> lowercase w.
Proof.
  induction s as [|c s IH]; intros cur w Lc Ls H; simpl in H.
  - destruct cur; simpl in H; [contradiction|]. destruct H as [<-|[]]. exact Lc.
  - apply lowercase_cons in Ls. destruct Ls as [Lch Ls].
    destruct (is_space c).
    + destruct cur.
      * exact (IH _ _ Lc Ls H).
      * destruct H as [<-|H]; [exact Lc|]. apply (IH EmptyString w); [reflexivity|exact Ls|exact H].
    + apply (IH _ w (lowercase_app _ _ Lc (proj2 (lowercase_cons c EmptyString)
                                              (conj Lch eq_refl))) Ls H).
Qed.

Lemma lowercase_join (l : list string) :
  Forall lowercase l -> lowercase (join " " l).
Proof.
  induction l as [|x l IH]; intros H; [reflexivity|].
  inversion H as [|? ? Hx Hl]; subst. specialize (IH Hl).
  destruct l as [|y l]; [exact Hx|].
  change (join " " (x :: y :: l)) with (x ++ " " ++ join " " (y :: l)).
  apply lowercase_app; [exact Hx|]. apply lowercase_app; [reflexivity|exact IH].
Qed.

Lemma forall_firstn {A} (P : A -> Prop) (n : nat) :
  forall l, Forall P l -> Forall P (firstn n l).
Proof.
  induction n as [|n IH]; intros l H; [constructor|].
  destruct H; simpl; constructor; auto.
Qed.

Lemma lowercase_app_name_of (remaining app : string) :
  lowercase remaining -> app_name_of remaining = Some app -> lowercase app.
Proof.
  intros L. unfold app_name_of.
  destruct (List.find _ app_patterns) as [[pat a]|] eqn:F.
  - intros H. injection H as <-. apply find_some in F. destruct F as [F _].
    simpl in F.
    intuition (match goal with H : _ = (_, _) |- _ => injection H as _ <- end; reflexivity).
  - destruct (split_ws remaining) as [|w0 ws] eqn:W; [discriminate|].
    assert (A : Forall lowercase (w0 :: ws)).
    { apply Forall_forall. intros w Hw. rewrite <- W in Hw.
      exact (lowercase_words remaining EmptyString w eq_refl L Hw). }
    assert (N : lowercase (nth 1 (w0 :: ws) EmptyString)).
    { destruct ws as [|w1 ws']; [reflexivity|]. simpl.
      inversion A as [|? ? _ A']; subst. inversion A'; subst. assumption. }
    assert (J : lowercase (join " " (firstn 2 (w0 :: ws)))).
    { apply lowercase_join, forall_firstn, A. }
    inversion A as [|? ? L0 _]; subst.
    repeat match goal with
           | |- context [if ?b then _ else _] => destruct b
           end;
      intros H; injection H as <-; first [reflexivity | assumption].
Qed.

Lemma lowercase_app_name_loop (kws : list string) (ml app : string) :
  lowercase ml -> app_name_loop kws ml = Some app -> lowercase app.
Proof.
  intros L. induction kws as [|k kws IH]; simpl; [discriminate|].
  destruct (contains k ml) eqn:C; [|exact IH].
  destruct (split1_two _ _ C) as [a [b E]]. rewrite E. simpl.
  destruct (app_name_of (strip b)) eqn:A; [|exact IH].
  intros H. injection H as <-.
  apply (lowercase_app_name_of (strip b)); [|exact A].
  apply lowercase_strip. exact (proj2 (lowercase_split1 k ml a b L E)).
Qed.

Lemma lowercase_text_after (kws : list string) (ml t : string) :
  lowercase ml -> text_after_keyword kws ml = Some t -> lowercase t.
Proof.
  intros L. induction kws as [|k kws IH]; simpl; [discriminate|].
  destruct (contains k ml) eqn:C; [|exact IH].
  destruct (split1_two _ _ C) as [a [b E]]. rewrite E. simpl.
  intros H. injection H as <-.
  apply lowercase_strip. exact (proj2 (lowercase_split1 k ml a b L E)).
Qed.

Lemma text_after_found (kws : list string) (ml : string) :
  any_in kws ml = true -> exists t, text_after_keyword kws ml = Some t.
Proof.
  unfold any_in. induction kws as [|k kws IH]; simpl; [discriminate|].
  destruct (contains k ml) eqn:C; simpl.
  - intros _. destruct (split1_two _ _ C) as [a [b ->]]. simpl. eauto.
  - exact IH.
Qed.

(** X3: what the classifier extracts after a keyword is in lowercase,
    whatever the case of the utterance: every app name (which is also
    never empty), every command found after "run", "execute" or
    "command", and every search query found after "play" or a search
    keyword; the case of a command or of a query is lost.  A query
    extracted from an utterance without any of these keywords is the
    utterance itself, unchanged. *)
Theorem extracted_text_is_lowercase (message : string) :
  (forall app, _extract_app_name message = Some app ->
     lower app = app /\ app <> EmptyString) /\
  (any_in ["run"; "execute"; "command"] (lower message) = true ->
     exists command, _extract_command message = Some command /\ lower command = command) /\
  (any_in ["play"; "search"; "find"; "look up"; "google"; "youtube"] (lower message) = true ->
     lower (_extract_search_query message) = _extract_search_query message) /\
  (any_in ["play"; "search"; "find"; "look up"; "google"; "youtube"] (lower message) = false ->
     _extract_search_query message = message).
Proof.
  pose proof (lowercase_lower message) as L.
  split; [|split; [|split]].
  - intros app H. split; [|exact (extract_app_name_nonempty _ _ H)].
    exact (lowercase_app_name_loop _ _ _ L H).
  - intros K. destruct (text_after_found _ _ K) as [t T].
    exists t. unfold _extract_command. rewrite T. split; [reflexivity|].
    exact (lowercase_text_after _ _ _ L T).
  - intros K. unfold _extract_search_query.
    destruct (text_after_keyword ["play"] (lower message)) as [q|] eqn:P.
    + exact (lowercase_text_after _ _ _ L P).
    + assert (C : contains "play" (lower message) = false).
      { destruct (contains "play" (lower message)) eqn:C; [|reflexivity].
        destruct (text_after_found ["play"] (lower message)) as [t T];
          [unfold any_in; simpl; rewrite C; reflexivity|].
        rewrite T in P. discriminate. }
      assert (K' : any_in ["search"; "find"; "look up"; "google"; "youtube"] (lower message)
                   = true).
      { unfold any_in in *. simpl in *. rewrite C in K. exact K. }
      destruct (text_after_found _ _ K') as [t T]. rewrite T.
      exact (lowercase_text_after _ _ _ L T).
  - intros K. unfold _extract_search_query.
    unfold any_in in K. simpl in K.
    repeat (apply orb_false_iff in K; destruct K as [?C K]).
    simpl. rewrite C, C0, C1, C2, C3, C4. reflexivity.
Qed.

End IntentExtras.

Module PlannerExtras.

Import PyStr Planner Notions PyStrFacts PlannerClaims.


End PlannerExtras.

Module ExecutorExtras.

Import PyStr SkillRegistry Executor Notions MoreNotions PyStrFacts.

Section Run.

Context {World : Type}.
Variable skills : registry World.







Lemma occurs_left (x pre post : string) : Occurs x (pre ++ x ++ post).
Proof. exists pre, post. reflexivity. Qed.





(** X7: a plan of one runnable step that does not signal success.  When
    the skill returns a dictionary whose [success] is missing or false,
    [execute_plan] asks the completion capability for a summary, with
    exactly one prompt.  When the skill returns something that is not a
    dictionary, [execute_plan] raises [AttributeError] and sends
    nothing. *)
Theorem single_step_without_success (fields : list (string * value)) (user_message : string)
    (brain : Brain) (w w' : World) (r : value) :
  let st := VDict fields in
  let entry_ := {| step_number := field "step" (VInt 0) st;
                   step_description := field "description" (VStr EmptyString) st;
                   step_result := r |} in
  execute_skill skills (field "skill" (VStr "conversational") st)
    (field "parameters" (VDict []) st) w = (Ok r, w') ->
  (forall d, r = VDict d ->
     Py.truthy (match Py.lookup "success" d with Some s => s | None => VNone end) = false ->
     execute_plan skills [st] user_message brain w =
       ((Ok (VStr (brain (summary_prompt user_message [entry_]))),
         [summary_prompt user_message [entry_]]), w')) /\
  ((forall d, r <> VDict d) ->
   exists e, execute_plan skills [st] user_message brain w = ((Raise e, []), w')).
Proof.
  intros st entry_ E. subst st entry_. simpl in E.
  split.
  - intros d -> T. unfold execute_plan. cbn [run_steps Py.get]. rewrite E.
    cbn [step_result Py.get]. rewrite T. reflexivity.
  - intros N. unfold execute_plan. cbn [run_steps Py.get]. rewrite E.
    cbn [step_result].
    destruct r; try (eexists; reflexivity). exfalso. exact (N _ eq_refl).
Qed.




End Run.




Lemma single_step_without_success_witness :
  exists prompt,
    execute_plan [("open_app", open_app_skill)] [VDict [("skill", VStr "fly")]] "fly"
        (fun _ => "a summary") tt =
      ((Ok (VStr "a summary"), [prompt]), tt).
Proof.
  eexists.
  apply (proj1 (single_step_without_success [("open_app", open_app_skill)]
                  [("skill", VStr "fly")] "fly" (fun _ => "a summary") tt tt _ eq_refl)
           _ eq_refl).
  reflexivity.
Defined.


End ExecutorExtras.

Module MemoryExtras.

Import Memory Notions MemoryFacts.

Lemma length_insert_desc (c : ConversationHistory) (l : list ConversationHistory) :
  List.length (insert_desc c l) = S (List.length l).
Proof.
  induction l as [|y l IH]; simpl; [reflexivity|].
  destruct (created_at y <=? created_at c)%Z; simpl; [reflexivity|]. rewrite IH. reflexivity.
Qed.

Lemma length_order (l : list ConversationHistory) :
  List.length (order_by_created_at_desc l) = List.length l.
Proof.
  induction l as [|c l IH]; simpl; [reflexivity|]. rewrite length_insert_desc, IH. reflexivity.
Qed.

Lemma length_all_dicts (l : list ConversationHistory) :
  forall ds, all_dicts l = Some ds -> List.length ds = List.length l.
Proof.
  induction l as [|c l IH]; simpl; intros ds H.
  - injection H as <-. reflexivity.
  - destruct (conversation_dict c); [|discriminate].
    destruct (all_dicts l) as [ds'|]; [|discriminate].
    injection H as <-. simpl. rewrite (IH _ eq_refl). reflexivity.
Qed.

(** X9: [get_recent_conversations limit], when it returns, returns
    exactly [min limit n] records, [n] being the number of stored
    conversations: never more than the limit, nothing for the limit 0,
    and every stored conversation when the limit is at least [n]. *)
Theorem recent_conversations_count (limit : nat) (env : Env) (st : State) (ds : list value) :
  fst (get_recent_conversations limit env st) = Ok ds ->
  List.length ds = Nat.min limit (List.length (conversation_history st)).
Proof.
  unfold get_recent_conversations, mbind, sql_select.
  destruct (sql_up env); [|discriminate].
  destruct (all_dicts _) as [ds'|] eqn:A; [|discriminate].
  simpl. intros H. injection H as <-.
  rewrite (length_all_dicts _ _ A), length_rev, length_firstn, length_order. reflexivity.
Qed.

Lemma recent_conversations_count_witness :
  fst (get_recent_conversations 1 steady
         (snd (append_all [first_turn; second_turn] steady empty))) =
    Ok [reported second_turn 1730000000000003%Z] /\
  List.length [reported second_turn 1730000000000003%Z] =
    Nat.min 1 (List.length (conversation_history
                              (snd (append_all [first_turn; second_turn] steady empty)))).
Proof.
  split; [reflexivity|].
  exact (recent_conversations_count 1 steady
           (snd (append_all [first_turn; second_turn] steady empty)) _ eq_refl).
Defined.

Lemma first_other_after_update (k k' v : string) (now : datetime) (rows : list UserPreference) :
  k' <> k ->
  first_with_key k' (update_first k v now rows) = first_with_key k' rows.
Proof.
  intros N. unfold first_with_key.
  induction rows as [|p rows IH]; simpl; [reflexivity|].
  destruct (String.eqb (key p) k) eqn:E; simpl.
  - apply String.eqb_eq in E.
    destruct (String.eqb_spec (key p) k'); [congruence|reflexivity].
  - destruct (String.eqb (key p) k'); [reflexivity|exact IH].
Qed.

Lemma find_app_other {A} (f : A -> bool) (l : list A) (x : A) :
  f x = false -> List.find f (l ++ [x]) = List.find f l.
Proof.
  intros H. induction l as [|a l IH]; simpl; [rewrite H; reflexivity|].
  destruct (f a); [reflexivity|exact IH].
Qed.

Lemma upserted_other (k k' v : string) (rows rows' : list UserPreference) :
  upserted k v rows rows' -> k' <> k ->
  first_with_key k' rows' = first_with_key k' rows.
Proof.
  intros [[_ [n [c [u ->]]]]|[_ [now ->]]] N.
  - unfold first_with_key. apply find_app_other. simpl. apply String.eqb_neq.
    intros E. exact (N (eq_sym E)).
  - exact (first_other_after_update k k' v now rows N).
Qed.

(** What [save_preference] leaves as it was. *)
Lemma save_preference_frame (k v : string) (env : Env) (st st' : State) :
  save_preference k v env st = (Ok tt, st') ->
  conversation_history st' = conversation_history st /\
  semantic_memory st' = semantic_memory st.
Proof.
  unfold save_preference, mbind, sql_select, sql_commit, utcnow.
  destruct (sql_up env) eqn:U; [|discriminate].
  cbn [record user_preferences].
  destruct (first_with_key k (user_preferences st)); rewrite U;
    intros H; injection H as <-; split; reflexivity.
Qed.

(** X10: saving a preference touches that key only: for every other key
    [get_preference] returns afterwards what it returned before, and the
    conversation history and the semantic store are as they were. *)
Theorem save_preference_touches_one_key (k v k' : string) (env : Env) (st st' : State) :
  save_preference k v env st = (Ok tt, st') ->
  k' <> k ->
  fst (get_preference k' env st') = fst (get_preference k' env st) /\
  conversation_history st' = conversation_history st /\
  semantic_memory st' = semantic_memory st.
Proof.
  intros H N. destruct (save_preference_ok _ _ _ _ _ H) as [U S].
  split; [|exact (save_preference_frame _ _ _ _ _ H)].
  unfold get_preference, mbind, sql_select, mret. rewrite U. simpl.
  rewrite (upserted_other _ _ _ _ _ S N). reflexivity.
Qed.

Lemma save_preference_touches_one_key_witness :
  fst (get_preference "user_name" steady
         (snd (save_preference "tone_style" "formal" steady
                 (snd (save_preference "user_name" "Ada" steady empty))))) =
  fst (get_preference "user_name" steady
         (snd (save_preference "user_name" "Ada" steady empty))).
Proof.
  refine (proj1 (save_preference_touches_one_key "tone_style" "formal" "user_name" steady
                   (snd (save_preference "user_name" "Ada" steady empty))
                   (snd (save_preference "tone_style" "formal" steady
                           (snd (save_preference "user_name" "Ada" steady empty))))
                   eq_refl _)).
  discriminate.
Defined.

Lemma keys_update_first (k v : string) (now : datetime) (rows : list UserPreference) :
  map key (update_first k v now rows) = map key rows.
Proof.
  induction rows as [|p rows IH]; simpl; [reflexivity|].
  destruct (String.eqb (key p) k); simpl; [reflexivity|]. rewrite IH. reflexivity.
Qed.

Lemma first_none_not_in (k : string) (rows : list UserPreference) :
  first_with_key k rows = None -> ~ In k (map key rows).
Proof.
  unfold first_with_key. intros H I. apply in_map_iff in I. destruct I as [p [E I]].
  pose proof (find_none _ _ H p I) as F. simpl in F. rewrite E, String.eqb_refl in F.
  discriminate.
Qed.

Lemma nodup_snoc {A} (x : A) (l : list A) :
  ~ In x l -> NoDup l -> NoDup (l ++ [x]).
Proof.
  intros Hx N. induction N as [|a l Ha N IH]; simpl.
  - constructor; [intros []|constructor].
  - constructor.
    + intros I. apply in_app_or in I. destruct I as [I|[<-|[]]]; [exact (Ha I)|].
      apply Hx. left. reflexivity.
    + apply IH. intros I. apply Hx. right. exact I.
Qed.

Lemma upserted_nodup (k v : string) (rows rows' : list UserPreference) :
  upserted k v rows rows' -> NoDup (map key rows) -> NoDup (map key rows').
Proof.
  intros [[Hn [n [c [u ->]]]]|[_ [now ->]]] N.
  - rewrite map_app. simpl. exact (nodup_snoc _ _ (first_none_not_in _ _ Hn) N).
  - rewrite keys_update_first. exact N.
Qed.

Lemma set_fresh (k : string) (v : value) (d : list (string * value)) :
  ~ In k (map fst d) -> Py.set k v d = (d ++ [(k, v)])%list.
Proof.
  induction d as [|[a x] d IH]; simpl; intros N; [reflexivity|].
  destruct (String.eqb_spec k a) as [->|_]; [exfalso; apply N; left; reflexivity|].
  rewrite IH; [reflexivity|]. intros I. apply N. right. exact I.
Qed.

Lemma fold_set_nodup (l : list (string * value)) :
  forall acc, NoDup (map fst (acc ++ l)) ->
    fold_left (fun d kv => Py.set (fst kv) (snd kv) d) l acc = (acc ++ l)%list.
Proof.
  induction l as [|[a x] l IH]; intros acc N; simpl.
  - rewrite app_nil_r. reflexivity.
  - rewrite set_fresh.
    + rewrite IH; rewrite <- app_assoc; [reflexivity|exact N].
    + rewrite map_app in N. simpl in N. apply NoDup_remove_2 in N.
      intros I. apply N. apply in_or_app. left. exact I.
Qed.

(** A comprehension over pairs with distinct keys is the list of pairs. *)
Lemma from_pairs_nodup (l : list (string * value)) :
  NoDup (map fst l) -> Py.from_pairs l = l.
Proof. intros N. unfold Py.from_pairs. exact (fold_set_nodup l [] N). Qed.

Lemma lookup_rows (k : string) (rows : list UserPreference) :
  Py.lookup k (map (fun p => (key p, VStr (value_of p))) rows) =
  option_map (fun p => VStr (value_of p)) (first_with_key k rows).
Proof.
  unfold first_with_key. induction rows as [|p rows IH]; simpl; [reflexivity|].
  rewrite String.eqb_sym. destruct (String.eqb (key p) k); [reflexivity|exact IH].
Qed.

(** X11: [save_preference] keeps the keys of the table distinct, so a
    table filled through it never holds two rows for one key.  On such a
    table [get_all_preferences] and [get_preference] agree: the dictionary
    has, for every key, the value that [get_preference] returns, and no
    entry for a key that [get_preference] does not find. *)
Theorem preference_keys_stay_distinct (k v : string) (env : Env) (st st' : State) :
  NoDup (map key (user_preferences st)) ->
  save_preference k v env st = (Ok tt, st') ->
  NoDup (map key (user_preferences st')) /\
  exists d,
    fst (get_all_preferences env st') = Ok d /\
    forall k', exists found,
      fst (get_preference k' env st') = Ok found /\
      Py.lookup k' d = option_map VStr found.
Proof.
  intros N H. destruct (save_preference_ok _ _ _ _ _ H) as [U S].
  pose proof (upserted_nodup _ _ _ _ S N) as N'.
  split; [exact N'|].
  unfold get_all_preferences, get_preference, mbind, sql_select, mret. rewrite U. simpl.
  eexists. split; [reflexivity|]. intros k'. eexists. split; [reflexivity|].
  rewrite from_pairs_nodup by (rewrite map_map; exact N').
  rewrite lookup_rows. destruct (first_with_key k' (user_preferences st')); reflexivity.
Qed.

Lemma preference_keys_stay_distinct_witness :
  NoDup (map key (user_preferences empty)) /\
  NoDup (map key (user_preferences (snd (save_preference "user_name" "Ada" steady empty)))).
Proof.
  split; [constructor|].
  exact (proj1 (preference_keys_stay_distinct "user_name" "Ada" steady empty
                  (snd (save_preference "user_name" "Ada" steady empty))
                  (NoDup_nil _) eq_refl)).
Defined.

End MemoryExtras.

Module BrainExtras.

Import PyStr BrainCore BrainNotions Notions PyStrFacts.

Lemma skipn_suffix {A} (k : nat) (l : list A) : exists dropped, l = (dropped ++ skipn k l)%list.
Proof. exists (firstn k l). symmetry. apply firstn_skipn. Qed.

Lemma last_n_suffix {A} (n : Z) (l : list A) : exists dropped, l = (dropped ++ last_n n l)%list.
Proof. unfold last_n. destruct (0 <? n)%Z; apply skipn_suffix. Qed.

Lemma length_last_n {A} (n : Z) (l : list A) :
  (0 < n)%Z -> (n < Z.of_nat (List.length l))%Z ->
  Z.of_nat (List.length (last_n n l)) = n.
Proof.
  intros P L. unfold last_n. destruct (Z.ltb_spec 0 n); [|lia].
  rewrite length_skipn. lia.
Qed.

Lemma last_of_skipn {A} (k : nat) (l : list A) (d : A) :
  (k < List.length l)%nat -> last (skipn k l) d = last l d.
Proof.
  revert l. induction k as [|k IH]; intros l H; [reflexivity|].
  destruct l as [|x l]; [simpl in H; lia|]. simpl in H. simpl skipn.
  rewrite IH by lia. destruct l; [simpl in H; lia|reflexivity].
Qed.

Lemma last_two {A} (l : list A) (x y d : A) : last (l ++ [x; y]) d = y.
Proof.
  change (l ++ [x; y])%list with (l ++ [x] ++ [y])%list.
  rewrite app_assoc. apply last_last.
Qed.

(** X12: [add_to_history] keeps a rolling window.  What it leaves is
    always the end of the old history followed by the new turn.  With a
    limit of at least 1 the history never has more entries than the
    limit and its last entry is the reply just added; with the limit 0
    nothing is ever dropped, since [h[-0:]] is the whole list. *)
Theorem add_to_history_window (limit : Z) (h : list message) (u a : string) :
  let turn := [{| role := "user"; content := u |}; {| role := "assistant"; content := a |}] in
  (exists dropped, (h ++ turn)%list = (dropped ++ add_to_history limit h u a)%list) /\
  ((1 <= limit)%Z ->
     (Z.of_nat (List.length (add_to_history limit h u a)) <= limit)%Z /\
     last (add_to_history limit h u a) {| role := EmptyString; content := EmptyString |} =
       {| role := "assistant"; content := a |}) /\
  (limit = 0%Z -> add_to_history limit h u a = (h ++ turn)%list).
Proof.
  intros turn. unfold add_to_history. fold turn.
  split; [|split].
  - destruct (limit <? _)%Z; [apply last_n_suffix|exists []; reflexivity].
  - intros L. destruct (Z.ltb_spec limit (Z.of_nat (List.length (h ++ turn)))) as [C|C].
    + split; [rewrite length_last_n; lia|].
      unfold last_n. destruct (Z.ltb_spec 0 limit); [|lia].
      rewrite last_of_skipn by lia.
      unfold turn. apply last_two.
    + split; [lia|]. unfold turn. apply last_two.
  - intros ->. rewrite length_app. simpl.
    destruct (Z.ltb_spec 0 (Z.of_nat (List.length h + 2))); [|lia]. reflexivity.
Qed.

Lemma whole_turns_pairs (P : list message -> Prop) :
  P [] ->
  (forall u a rest, role u = "user" -> role a = "assistant" ->
     whole_turns rest -> P rest -> P (u :: a :: rest)) ->
  forall h, whole_turns h -> P h.
Proof.
  intros P0 P2.
  assert (G : forall n h, (List.length h <= n)%nat -> whole_turns h -> P h).
  { induction n as [|n IH]; intros h L W.
    - destruct h; [exact P0|simpl in L; lia].
    - destruct h as [|u [|a rest]]; [exact P0|destruct W|].
      destruct W as (U & A & W). apply P2; auto. apply IH; [simpl in L; lia|exact W]. }
  intros h. apply (G (List.length h)). lia.
Qed.

Lemma whole_turns_app (h h' : list message) :
  whole_turns h -> whole_turns h' -> whole_turns (h ++ h').
Proof.
  intros W W'. revert h W. apply whole_turns_pairs; [exact W'|].
  intros u a rest U A _ IH. simpl. auto.
Qed.

Lemma whole_turns_even (h : list message) :
  whole_turns h -> exists k, List.length h = (2 * k)%nat.
Proof.
  revert h. apply whole_turns_pairs; [exists 0%nat; reflexivity|].
  intros u a rest _ _ _ [k E]. exists (S k). simpl. rewrite E. lia.
Qed.

Lemma whole_turns_skipn (k : nat) (h : list message) :
  whole_turns h -> whole_turns (skipn (2 * k) h).
Proof.
  revert h. induction k as [|k IH]; intros h W; [exact W|].
  replace (2 * S k)%nat with (S (S (2 * k))) by lia.
  destruct h as [|u [|a rest]]; [exact I|destruct W|].
  destruct W as (_ & _ & W). simpl skipn. apply IH, W.
Qed.

Lemma whole_turns_skipn_odd (k : nat) (h : list message) :
  whole_turns h -> (2 * k + 1 < List.length h)%nat ->
  exists m rest, skipn (2 * k + 1) h = m :: rest /\ role m = "assistant".
Proof.
  revert h. induction k as [|k IH]; intros h W L.
  - destruct h as [|u [|a rest]]; [simpl in L; lia|destruct W|].
    destruct W as (_ & A & _). exists a, rest. split; [reflexivity|exact A].
  - destruct h as [|u [|a rest]]; [simpl in L; lia|destruct W|].
    destruct W as (_ & _ & W).
    replace (2 * S k + 1)%nat with (S (S (2 * k + 1))) by lia. simpl skipn.
    apply IH; [exact W|simpl in L; lia].
Qed.

(** X13: with an even limit (as the default, 50) [add_to_history] keeps
    the history made of whole turns: it never cuts a turn in two.  With
    an odd limit it does, as soon as something is dropped: the history
    then starts with a reply whose user message is gone. *)
Theorem even_limit_keeps_whole_turns (limit : Z) (h : list message) (u a : string) :
  whole_turns h -> (0 <= limit)%Z ->
  (Z.even limit = true -> whole_turns (add_to_history limit h u a)) /\
  (Z.odd limit = true -> (limit < Z.of_nat (List.length h) + 2)%Z ->
     exists m rest, add_to_history limit h u a = m :: rest /\ role m = "assistant").
Proof.
  intros W L.
  assert (W2 : whole_turns (h ++ [{| role := "user"; content := u |};
                                  {| role := "assistant"; content := a |}])).
  { apply whole_turns_app; [exact W|]. simpl. auto. }
  destruct (whole_turns_even _ W2) as [n N].
  unfold add_to_history.
  set (h2 := (h ++ _)%list) in *.
  assert (N2 : List.length h2 = (List.length h + 2)%nat)
    by (unfold h2; rewrite length_app; reflexivity).
  split.
  - intros E. destruct (limit <? _)%Z eqn:C; [|exact W2].
    apply Z.ltb_lt in C. unfold last_n.
    destruct (Z.ltb_spec 0 limit) as [P|P].
    + apply Zeven_bool_iff in E. destruct (Zeven_ex _ E) as [m M].
      replace (List.length h2 - Z.to_nat limit)%nat with (2 * (n - Z.to_nat m))%nat by lia.
      apply whole_turns_skipn, W2.
    + replace limit with 0%Z by lia. exact W2.
  - intros O C. destruct (Z.ltb_spec limit (Z.of_nat (List.length h2))) as [C'|C']; [|lia].
    unfold last_n. apply Zodd_bool_iff in O. destruct (Zodd_ex _ O) as [m M].
    destruct (Z.ltb_spec 0 limit) as [P|P]; [|lia].
    replace (List.length h2 - Z.to_nat limit)%nat with (2 * (n - Z.to_nat m - 1) + 1)%nat by lia.
    apply whole_turns_skipn_odd; [exact W2|lia].
Qed.

Lemma even_limit_keeps_whole_turns_witness :
  let h := [{| role := "user"; content := "hi" |}; {| role := "assistant"; content := "hello" |}] in
  whole_turns h /\
  whole_turns (add_to_history 2 h "open chrome" "done") /\
  exists m rest, add_to_history 3 h "open chrome" "done" = m :: rest /\ role m = "assistant".
Proof.
  intros h.
  assert (W : whole_turns h) by (simpl; auto).
  split; [exact W|]. split.
  - apply (even_limit_keeps_whole_turns 2 h "open chrome" "done" W); [lia|reflexivity].
  - apply (even_limit_keeps_whole_turns 3 h "open chrome" "done" W); [lia|reflexivity|simpl; lia].
Defined.







End BrainExtras.

Module SearchExtras.

Import PyStr Search SearchNotions.

Lemma organic_entries_hits (items : list value) :
  forall r, organic_entries items = Ok r ->
            Forall is_hit r /\ List.length r = List.length items.
Proof.
  induction items as [|item items IH]; intros r H.
  - inversion H. split; [constructor|reflexivity].
  - cbn [organic_entries] in H.
    destruct item; try discriminate. cbn [Py.get rbind] in H.
    destruct (organic_entries items) as [more|e]; [|discriminate].
    cbn [rbind] in H. inversion H; subst.
    destruct (IH more eq_refl) as [F L].
    split; [|simpl; rewrite L; reflexivity].
    constructor; [|exact F]. do 3 eexists. reflexivity.
Qed.

Lemma duckduckgo_entries_hits (items : list value) :
  forall r, duckduckgo_entries items = Ok r -> Forall is_hit r.
Proof.
  induction items as [|item items IH]; intros r H.
  - inversion H. constructor.
  - cbn [duckduckgo_entries] in H.
    destruct item; try discriminate. cbn [Py.get rbind] in H.
    destruct (duckduckgo_entries items) as [more|e]; [|discriminate].
    cbn [rbind] in H. inversion H; subst.
    constructor; [|exact (IH more eq_refl)]. do 3 eexists. reflexivity.
Qed.

Lemma one_error (text : string) : well_formed [error_entry text].
Proof. left. exists (error_entry text). split; [reflexivity|]. exists text. reflexivity. Qed.

Lemma hits_or_error (results : list value) :
  Forall is_hit results ->
  well_formed (match results with
               | [] => [error_entry "No search results found"]
               | _ => results
               end).
Proof.
  intros F. destruct results as [|x r]; [apply one_error|].
  right. split; [discriminate|exact F].
Qed.

Lemma one_hit (title url snippet : value) :
  Forall is_hit [VDict [("title", title); ("url", url); ("snippet", snippet)]].
Proof. constructor; [|constructor]. do 3 eexists. reflexivity. Qed.

Lemma serper_results_well_formed (response_data : value) (query : string) (max_results : Z) :
  forall r, serper_results response_data query max_results = Ok r -> well_formed r.
Proof.
  intros r H. unfold serper_results in H.
  destruct (contains_key "organic" response_data) as [has|e]; [|discriminate].
  cbn [rbind] in H.
  destruct (if has then _ else _) as [results|e] eqn:R; [|discriminate].
  cbn [rbind] in H.
  assert (F : Forall is_hit results).
  { destruct has; [|inversion R; constructor].
    destruct (Py.subscript response_data "organic") as [organic|e]; [|discriminate].
    cbn [rbind] in R.
    destruct (slice_items organic max_results) as [items|e]; [|discriminate].
    cbn [rbind] in R. exact (proj1 (organic_entries_hits _ _ R)). }
  destruct results as [|x results].
  - destruct (contains_key "answerBox" response_data) as [[|]|e]; [| |discriminate];
      cbn [rbind] in H.
    + destruct (Py.subscript response_data "answerBox") as [answer|e]; [|discriminate].
      cbn [rbind] in H. destruct answer; try discriminate. cbn [Py.get rbind] in H.
      inversion H. right. split; [discriminate|apply one_hit].
    + destruct (contains_key "knowledgeGraph" response_data) as [[|]|e]; [| |discriminate];
        cbn [rbind] in H.
      * destruct (Py.subscript response_data "knowledgeGraph") as [kg|e]; [|discriminate].
        cbn [rbind] in H. destruct kg; try discriminate. cbn [Py.get rbind] in H.
        inversion H. right. split; [discriminate|apply one_hit].
      * inversion H. apply one_error.
  - cbn [rbind] in H. inversion H. right. split; [discriminate|exact F].
Qed.

Lemma search_serper_well_formed (post : Service) (query : string) (max_results : Z) :
  well_formed (_search_serper post query max_results).
Proof.
  unfold _search_serper.
  destruct (post _) as [data|e]; [|apply one_error]. cbn [rbind].
  destruct (loads data) as [response_data|e]; [|apply one_error]. cbn [rbind].
  destruct (serper_results response_data query max_results) as [r|e] eqn:R; [|apply one_error].
  exact (serper_results_well_formed _ _ _ _ R).
Qed.

Lemma search_duckduckgo_well_formed (ddgs : option Ddgs) (query : string) (max_results : Z) :
  well_formed (_search_duckduckgo ddgs query max_results).
Proof.
  unfold _search_duckduckgo. destruct ddgs as [text|]; [|apply one_error].
  destruct (text query max_results) as [found|e]; [|apply one_error]. cbn [rbind].
  destruct (duckduckgo_entries found) as [r|e] eqn:R; [|apply one_error].
  pose proof (duckduckgo_entries_hits _ _ R) as F.
  destruct r as [|x r]; [apply one_error|]. right. split; [discriminate|exact F].
Qed.

Lemma format_lines_hits (results : list value) :
  forall i, Forall is_hit results -> exists lines, format_lines i results = Ok lines.
Proof.
  induction results as [|r results IH]; intros i F; [exists []; reflexivity|].
  inversion F as [|? ? H F']; subst.
  destruct H as (title & url & snippet & ->).
  destruct (IH (i + 1)%Z F') as [more M].
  cbn [format_lines contains_key Py.lookup String.eqb Ascii.eqb Bool.eqb rbind Py.subscript].
  cbn. rewrite M. cbn. eauto.
Qed.

(** X15: [search] never raises and never returns an empty list: it
    returns either one failure report alone, or results only, each a
    dictionary with exactly the keys [title], [url] and [snippet],
    whatever the service answers (a text that is not JSON, JSON of any
    shape, an exception).  [format_results] therefore never raises on
    what [search] returns. *)
Theorem search_result_is_well_formed (ws : WebSearch) (query : string) (max_results : Z) :
  well_formed (search ws query max_results) /\
  exists text, format_results (search ws query max_results) = Ok text.
Proof.
  assert (W : well_formed (search ws query max_results)).
  { unfold search. destruct (use_serper ws);
      [apply search_serper_well_formed|apply search_duckduckgo_well_formed]. }
  split; [exact W|].
  destruct W as [(e & -> & text & ->)|[N F]].
  - eexists. reflexivity.
  - destruct (format_lines_hits _ 1%Z F) as [lines L].
    unfold format_results. destruct (search ws query max_results); [congruence|].
    rewrite L. eexists. reflexivity.
Qed.

Lemma length_upto {A} (n : Z) (l : list A) :
  (0 <= n)%Z -> (Z.of_nat (List.length (upto n l)) <= n)%Z.
Proof.
  intros P. unfold upto. destruct (Z.ltb_spec n 0); [lia|].
  rewrite length_firstn. lia.
Qed.

Lemma length_slice_items (v : value) (n : Z) (items : list value) :
  (0 <= n)%Z -> slice_items v n = Ok items -> (Z.of_nat (List.length items) <= n)%Z.
Proof.
  intros P H. destruct v; try discriminate; inversion H; subst.
  - rewrite length_map. apply length_upto, P.
  - apply length_upto, P.
Qed.

Lemma serper_results_length (response_data : value) (query : string) (max_results : Z) :
  (0 <= max_results)%Z ->
  forall r, serper_results response_data query max_results = Ok r ->
            (Z.of_nat (List.length r) <= Z.max 1 max_results)%Z.
Proof.
  intros P r H. unfold serper_results in H.
  destruct (contains_key "organic" response_data) as [has|e]; [|discriminate].
  cbn [rbind] in H.
  destruct (if has then _ else _) as [results|e] eqn:R; [|discriminate].
  cbn [rbind] in H.
  assert (L : (Z.of_nat (List.length results) <= max_results)%Z).
  { destruct has; [|inversion R; simpl; lia].
    destruct (Py.subscript response_data "organic") as [organic|e]; [|discriminate].
    cbn [rbind] in R.
    destruct (slice_items organic max_results) as [items|e] eqn:S; [|discriminate].
    cbn [rbind] in R. rewrite (proj2 (organic_entries_hits _ _ R)).
    exact (length_slice_items _ _ _ P S). }
  destruct results as [|x results].
  - destruct (contains_key "answerBox" response_data) as [[|]|e]; [| |discriminate];
      cbn [rbind] in H.
    + destruct (Py.subscript response_data "answerBox") as [answer|e]; [|discriminate].
      cbn [rbind] in H. destruct answer; try discriminate. cbn [Py.get rbind] in H.
      inversion H. simpl. lia.
    + destruct (contains_key "knowledgeGraph" response_data) as [[|]|e]; [| |discriminate];
        cbn [rbind] in H.
      * destruct (Py.subscript response_data "knowledgeGraph") as [kg|e]; [|discriminate].
        cbn [rbind] in H. destruct kg; try discriminate. cbn [Py.get rbind] in H.
        inversion H. simpl. lia.
      * inversion H. simpl. lia.
  - cbn [rbind] in H. inversion H; subst. lia.
Qed.

(** X16: with a limit that is not negative, [_search_serper] returns at
    most that many entries, and never more than one when the limit is 0:
    the organic results are cut at the limit, and the answer box or the
    knowledge graph, used when there is no organic result left, gives
    one entry. *)
Theorem serper_respects_the_limit (post : Service) (query : string) (max_results : Z) :
  (0 <= max_results)%Z ->
  (Z.of_nat (List.length (_search_serper post query max_results)) <= Z.max 1 max_results)%Z.
Proof.
  intros P. unfold _search_serper.
  destruct (post _) as [data|e]; [|simpl; lia]. cbn [rbind].
  destruct (loads data) as [response_data|e]; [|simpl; lia]. cbn [rbind].
  destruct (serper_results response_data query max_results) as [r|e] eqn:R; [|simpl; lia].
  exact (serper_results_length _ _ _ P _ R).
Qed.

Lemma serper_respects_the_limit_witness :
  (Z.of_nat (List.length (_search_serper three_organic_results "rocq" 2)) <= Z.max 1 2)%Z.
Proof.
  apply (serper_respects_the_limit three_organic_results "rocq" 2). lia.
Defined.

End SearchExtras.

Module CoreExecutorExtras.

Import PyStr CoreExecutor Notions MoreNotions ExecutorNotions PyStrFacts IntentFacts IntentExtras.

Lemma keys_of_app_paths (s : System) (username : string) (path_exists : string -> bool) :
  map fst (_load_app_paths s username path_exists) = app_keys s.
Proof.
  destruct s; [|reflexivity|reflexivity].
  unfold _load_app_paths. cbn [table_get String.eqb Ascii.eqb Bool.eqb].
  destruct (path_exists _); [reflexivity|].
  cbn [List.find].
  destruct (path_exists _); [reflexivity|].
  destruct (path_exists _); reflexivity.
Qed.

Lemma app_keys_squashed (s : System) (k : string) : In k (app_keys s) -> squash k = k.
Proof.
  destruct s; simpl; intros H;
    repeat (destruct H as [<-|H]; [reflexivity|]); contradiction.
Qed.

Lemma app_keys_plain (s : System) (k : string) :
  In k (app_keys s) -> strip (lower k) = k /\ table_get k name_mapping = None.
Proof.
  destruct s; simpl; intros H;
    repeat (destruct H as [<-|H]; [split; reflexivity|]); contradiction.
Qed.

Lemma name_mapping_cases (x standard : string) :
  table_get x name_mapping = Some standard ->
  standard = "vscode" /\
  (squash x = "vs" \/ squash x = "vscode" \/ squash x = "visualstudiocode" \/
   squash x = "code" \/ squash x = "visualstudio").
Proof.
  unfold name_mapping. cbn [table_get].
  destruct (String.eqb_spec x "vs") as [->|_];
    [intros H; inversion H; split; [reflexivity|left; reflexivity]|].
  destruct (String.eqb_spec x "vs code") as [->|_];
    [intros H; inversion H; split; [reflexivity|right; left; reflexivity]|].
  destruct (String.eqb_spec x "visual studio code") as [->|_];
    [intros H; inversion H; split; [reflexivity|right; right; left; reflexivity]|].
  destruct (String.eqb_spec x "code") as [->|_];
    [intros H; inversion H; split; [reflexivity|right; right; right; left; reflexivity]|].
  destruct (String.eqb_spec x "visual studio") as [->|_];
    [intros H; inversion H; split; [reflexivity|right; right; right; right; reflexivity]|].
  discriminate.
Qed.

Lemma vscode_is_the_only_alias_key (s : System) (k : string) :
  In k (app_keys s) ->
  k = "vs" \/ k = "vscode" \/ k = "visualstudiocode" \/ k = "code" \/ k = "visualstudio" ->
  k = "vscode".
Proof.
  intros H C. destruct s; simpl in H;
    repeat (destruct H as [<-|H];
            [try reflexivity;
             destruct C as [C|[C|[C|[C|C]]]]; discriminate C|]); contradiction.
Qed.

Lemma find_key (s : System) (normalized : string) :
  match List.find (fun key => String.eqb normalized (squash key)) (app_keys s) with
  | Some key => key = normalized /\ In key (app_keys s)
  | None => ~ In normalized (app_keys s)
  end.
Proof.
  destruct (List.find _ (app_keys s)) as [key|] eqn:F.
  - apply find_some in F. destruct F as [I E].
    apply String.eqb_eq in E. rewrite (app_keys_squashed s key I) in E. auto.
  - intros I. pose proof (find_none _ _ F _ I) as N. cbv beta in N.
    rewrite (app_keys_squashed s _ I), String.eqb_refl in N. discriminate.
Qed.

(** X17: [_normalize_app_name] finds a known application whatever the
    case of the name, the whitespace around it and the spaces, hyphens
    and underscores inside it: a name that is a key of the table of
    the system once put in lowercase, stripped and freed of these
    separators is normalized to that key. *)
Theorem normalize_ignores_case_and_separators (s : System) (username : string)
    (path_exists : string -> bool) (app_name key : string) :
  In key (map fst (_load_app_paths s username path_exists)) ->
  squash (strip (lower app_name)) = key ->
  _normalize_app_name (_load_app_paths s username path_exists) app_name = key.
Proof.
  rewrite keys_of_app_paths. intros I E. unfold _normalize_app_name.
  rewrite keys_of_app_paths.
  destruct (table_get (strip (lower app_name)) name_mapping) as [standard|] eqn:M.
  - destruct (name_mapping_cases _ _ M) as [-> C]. rewrite E in C.
    symmetry. exact (vscode_is_the_only_alias_key s key I C).
  - rewrite E. pose proof (find_key s key) as F.
    destruct (List.find _ (app_keys s)) as [found|]; [exact (proj1 F)|contradiction].
Qed.

Lemma normalize_ignores_case_and_separators_witness :
  _normalize_app_name (_load_app_paths Windows "ada" (fun _ => false)) "  Note-Pad " = "notepad".
Proof.
  apply (normalize_ignores_case_and_separators Windows "ada" (fun _ => false)
           "  Note-Pad " "notepad").
  - simpl. tauto.
  - reflexivity.
Defined.

Lemma rstrip_by_cons (p : ascii -> bool) (d : ascii) (s : string) :
  rstrip_by p (String d s) =
    match rstrip_by p s with
    | EmptyString => if p d then EmptyString else String d EmptyString
    | r => String d r
    end.
Proof. reflexivity. Qed.

Lemma rstrip_by_nonempty (p : ascii -> bool) (s : string) (c : ascii) (r : string) :
  rstrip_by p s = String c r -> rstrip_by p (String c r) = String c r.
Proof.
  revert c r. induction s as [|d s IH]; intros c r H; [discriminate|].
  rewrite rstrip_by_cons in H.
  destruct (rstrip_by p s) as [|c' r'] eqn:R.
  - destruct (p d) eqn:P; [discriminate|]. inversion H; subst.
    cbn [rstrip_by]. rewrite P. reflexivity.
  - inversion H; subst. rewrite rstrip_by_cons, (IH c' r' eq_refl). reflexivity.
Qed.

Lemma rstrip_by_idem (p : ascii -> bool) (s : string) :
  rstrip_by p (rstrip_by p s) = rstrip_by p s.
Proof.
  destruct (rstrip_by p s) as [|c r] eqn:R; [reflexivity|].
  exact (rstrip_by_nonempty p s c r R).
Qed.

Lemma strip_idem (s : string) : strip (strip s) = strip s.
Proof.
  unfold strip.
  destruct (lstrip_by is_space s) as [|c r] eqn:L; [reflexivity|].
  pose proof (lstrip_by_head _ _ _ _ L) as Hc.
  destruct (rstrip_by_head is_space c r Hc) as [r' E]. rewrite E.
  cbn [lstrip_by]. rewrite Hc. rewrite <- E. apply rstrip_by_idem.
Qed.

(** X18: [_normalize_app_name] is idempotent on every system: a
    normalized name is normalized to itself. *)
Theorem normalize_is_idempotent (s : System) (username : string)
    (path_exists : string -> bool) (app_name : string) :
  let app_paths := _load_app_paths s username path_exists in
  _normalize_app_name app_paths (_normalize_app_name app_paths app_name) =
    _normalize_app_name app_paths app_name.
Proof.
  intros app_paths.
  assert (K : forall key, In key (app_keys s) -> _normalize_app_name app_paths key = key).
  { intros key I. apply normalize_ignores_case_and_separators.
    - rewrite keys_of_app_paths. exact I.
    - rewrite (proj1 (app_keys_plain s key I)). exact (app_keys_squashed s key I). }
  assert (V : In "vscode" (app_keys s)) by (destruct s; simpl; tauto).
  assert (C : In (_normalize_app_name app_paths app_name) (app_keys s) \/
              (_normalize_app_name app_paths app_name = strip (lower app_name) /\
               table_get (strip (lower app_name)) name_mapping = None /\
               List.find (fun key => String.eqb (squash (strip (lower app_name))) (squash key))
                 (app_keys s) = None)).
  { unfold _normalize_app_name, app_paths. rewrite keys_of_app_paths.
    destruct (table_get (strip (lower app_name)) name_mapping) as [standard|] eqn:M.
    - destruct (name_mapping_cases _ _ M) as [-> _]. left. exact V.
    - pose proof (find_key s (squash (strip (lower app_name)))) as F.
      destruct (List.find _ (app_keys s)) as [found|] eqn:E.
      + left. exact (proj2 F).
      + right. auto. }
  destruct C as [I|(E & M & F)]; [exact (K _ I)|].
  rewrite E. unfold _normalize_app_name, app_paths. rewrite keys_of_app_paths.
  assert (L : lower (strip (lower app_name)) = strip (lower app_name))
    by exact (lowercase_strip _ (lowercase_lower app_name)).
  rewrite L, strip_idem, M, F. reflexivity.
Qed.

Lemma split1_first (c : ascii) (before after : string) :
  contains (String c EmptyString) before = false ->
  split1 (before ++ String c after) (String c EmptyString) = [before; after].
Proof.
  induction before as [|d before IH]; intros H.
  - cbn. rewrite Ascii.eqb_refl. reflexivity.
  - cbn [contains] in H. apply orb_false_iff in H. destruct H as [S H].
    cbn [startswith] in S. rewrite andb_true_r in S.
    cbn [append split1 startswith]. rewrite S. cbn [andb].
    rewrite (IH H). reflexivity.
Qed.

Section Machine.

Context {World : Type}.
Variable m : Machine World.

(** X19: [run_command] never runs a command that redirects an [echo]
    into a file with one of the listed extensions.  A command that
    holds "echo", in any case, before its first [>], and whose text
    after that [>] ends, once stripped, with such an extension (so also
    an append with [>>]) is refused: the machine is left as it is, and
    the failure names the text after the [>] as the file. *)
Theorem echo_redirect_is_refused (before after : string) (w : World) :
  contains "echo" (lower before) = true ->
  contains ">" before = false ->
  existsb (endswith (strip after)) file_extensions = true ->
  run_command m (before ++ ">" ++ after) w =
    (VDict [("success", VBool false);
            ("error", VStr ("File creation via echo is unreliable. Please use write_file skill with file_path='"
                            ++ strip after ++ "' and content parameters."));
            ("suggestion", VStr "use_write_file_skill")], w).
Proof.
  intros E N X. unfold run_command, echo_refusal.
  assert (E' : contains "echo" (lower (before ++ ">" ++ after)) = true).
  { apply contains_spec. rewrite lower_app.
    apply contains_spec in E. destruct E as [pre [post E]].
    exists pre, (post ++ lower (">" ++ after)). rewrite E, !append_assoc. reflexivity. }
  assert (G : contains ">" (before ++ ">" ++ after) = true) by apply contains_app.
  rewrite E', G. cbn [andb orb].
  change (before ++ ">" ++ after) with (before ++ String ">" after).
  rewrite (split1_first ">" before after N), X. reflexivity.
Qed.

End Machine.

Lemma echo_redirect_is_refused_witness :
  exists refusal,
    run_command quiet_machine ("ECHO print(1) " ++ ">" ++ "> run.py") tt = (refusal, tt).
Proof.
  eexists.
  apply (echo_redirect_is_refused quiet_machine "ECHO print(1) " "> run.py" tt);
    reflexivity.
Defined.

End CoreExecutorExtras.

Module SkillsExtras.

Import PyStr IntentExtractor Planner SkillRegistry Executor CoreExecutor Skills.
Import Notions MoreNotions ExecutorNotions PyStrFacts IntentFacts IntentExtras PlannerClaims.

Section Machine.

Context {World : Type}.
Variable m : Machine World.

Lemma try_open_directly_starts (app_name : string) (previous_error : option string) (w : World) :
  always_starts m ->
  exists w', _try_open_directly m app_name previous_error w = (opened app_name, w').
Proof.
  intros H. unfold _try_open_directly. destruct (system m).
  - destruct (contains "code" (lower app_name) || contains "vs" (lower app_name)).
    + destruct (H ["code"] true w) as [w' ->]. eauto.
    + destruct (H [app_name] true w) as [w' ->]. eauto.
  - destruct (H ["open"; "-a"; app_name] false w) as [w' ->]. eauto.
  - destruct (H [app_name] false w) as [w' ->]. eauto.
Qed.

Lemma open_app_starts (w0 : World) (app_name : string) (w : World) :
  always_starts m ->
  exists w', open_app m w0 app_name w = (opened app_name, w').
Proof.
  intros H. unfold open_app.
  destruct (table_get _ (app_paths m w0)) as [app_path|];
    [|apply try_open_directly_starts, H].
  destruct (system m).
  - destruct (path_exists m app_path w).
    + destruct (H [app_path] false w) as [w' ->]. eauto.
    + destruct (String.eqb _ "vscode").
      * destruct (H ["code"] true w) as [w' ->]. eauto.
      * destruct (H [app_path] true w) as [w' ->]. eauto.
  - destruct (H [app_path] false w) as [w' ->]. eauto.
  - destruct (H [app_path] false w) as [w' ->]. eauto.
Qed.

Lemma open_rule_fires (message app : string) :
  _extract_app_name message = Some app ->
  _rule_based_extraction message = intent_dict "open_app" (9 # 10) [("app_name", VStr app)].
Proof.
  intros E. unfold _rule_based_extraction.
  destruct (any_in ["open"; "launch"; "start"] (lower message)) eqn:K.
  - rewrite E. pose proof (extract_app_name_nonempty _ _ E) as N.
    destruct app; [congruence|reflexivity].
  - rewrite (no_keyword_no_app _ K) in E. discriminate.
Qed.

(** X20: a request to open an application, from the utterance to the
    reply.  When [_extract_app_name] finds a name and the utterance has
    no compound indicator, the classifier, the planner and the
    coordinator together never call the completion capability: the plan
    is the single step for [open_app] with the name found, and on a
    machine where every process starts the reply is "Opened " followed
    by that name. *)
Theorem open_request_end_to_end (skills : registry World) (available : list string)
    (message app : string) (brain : Brain) (w : World) :
  _extract_app_name message = Some app ->
  _is_complex_request message = false ->
  skills_get skills "open_app" = Some (OpenAppSkill m w) ->
  always_starts m ->
  exists intent step w',
    extract_intent message brain = (Ok intent, []) /\
    plan available message intent brain = (Ok [step], []) /\
    step = the_step "open_app" (VDict [("app_name", VStr app)]) /\
    execute_plan skills [step] message brain w = ((Ok (VStr ("Opened " ++ app)), []), w').
Proof.
  intros E C S H.
  pose proof (open_rule_fires _ _ E) as R.
  pose proof (extract_app_name_nonempty _ _ E) as N.
  destruct (open_app_starts w app w H) as [w' O].
  exists (intent_dict "open_app" (9 # 10) [("app_name", VStr app)]),
         (the_step "open_app" (VDict [("app_name", VStr app)])), w'.
  split; [|split; [|split; [reflexivity|]]].
  - apply (extract_intent_trusted' message _ (9 # 10)%Q brain); [reflexivity| |exact R].
    apply not_below_threshold. unfold Qle. simpl. lia.
  - rewrite (plan_direct available message
               (intent_dict "open_app" (9 # 10) [("app_name", VStr app)])
               (VStr "open_app") brain eq_refl eq_refl C).
    rewrite (single_step_ok (intent_dict "open_app" (9 # 10) [("app_name", VStr app)])
               "open_app" (VDict [("app_name", VStr app)]) eq_refl eq_refl).
    reflexivity.
  - unfold execute_plan, the_step. cbn [run_steps Py.get Py.lookup String.eqb Ascii.eqb Bool.eqb].
    cbn. unfold execute_skill, get_skill. rewrite S. cbn [run OpenAppSkill].
    unfold open_app_run. cbn [Py.get Py.lookup String.eqb Ascii.eqb Bool.eqb].
    cbn. destruct app as [|c app]; [congruence|]. cbn. cbn in O. rewrite O. reflexivity.
Qed.

(** X21: the skills check their required parameter before they touch
    the machine.  Run through the registry, [open_app], [run_command]
    and [read_file] return a failure and leave the machine as it is
    whenever the parameters are not a dictionary, or are a dictionary in
    which the required parameter is missing or falsy (empty text, null,
    zero, empty list); in the second case the error text is the
    parameter's name followed by " parameter required". *)
Theorem required_parameter_is_checked (skills : registry World) (w0 : World)
    (sk : Skill World) (key : string) (parameters : value) (w : World) :
  In (sk, key) [(OpenAppSkill m w0, "app_name");
                (RunCommandSkill m, "command");
                (ReadFileSkill m, "file_path")] ->
  skills_get skills (name sk) = Some sk ->
  (forall d, parameters = VDict d ->
     Py.truthy (match Py.lookup key d with Some v => v | None => VNone end) = false) ->
  exists error,
    execute_skill skills (VStr (name sk)) parameters w = (Ok (failure error), w) /\
    (forall d, parameters = VDict d -> error = key ++ " parameter required").
Proof.
  intros I S F. unfold execute_skill, get_skill. rewrite S.
  destruct parameters as [| | | | | |d];
    try (destruct I as [I|[I|[I|[]]]]; inversion I; subst;
         eexists; (split; [reflexivity|intros ? X; discriminate X])).
  specialize (F d eq_refl).
  destruct I as [I|[I|[I|[]]]]; inversion I; subst; clear I;
    cbn [run OpenAppSkill RunCommandSkill ReadFileSkill];
    unfold open_app_run, run_command_run, read_file_run; cbn [Py.get];
    rewrite F; cbn [negb];
    (eexists; (split; [reflexivity|intros; reflexivity])).
Qed.

(** X27: an intent of an unknown kind gets the stock reply.  When the
    kind of the intent is none of the five known ones nor "multi_step"
    (a kind only the completion capability can invent) and the utterance
    has no compound indicator, the plan is one step for the
    conversational skill, and [execute_plan] returns the fixed text of
    that skill, "Conversational request handled by LLM", without asking
    the completion capability anything. *)
Theorem unknown_kind_gets_the_stock_reply (skills : registry World) (available : list string)
    (user_request kind : string) (intent parameters : value) (brain : Brain) (w : World) :
  Py.subscript intent "intent" = Ok (VStr kind) ->
  Py.subscript intent "parameters" = Ok parameters ->
  mem_str kind ["open_app"; "web_search"; "run_command"; "read_file"; "conversational";
                "multi_step"] = false ->
  _is_complex_request user_request = false ->
  skills_get skills "conversational" = Some ConversationalSkill ->
  exists step,
    plan available user_request intent brain = (Ok [step], []) /\
    execute_plan skills [step] user_request brain w =
      ((Ok (VStr "Conversational request handled by LLM"), []), w).
Proof.
  intros K P U C S.
  assert (M : Py.eq_str (VStr kind) "multi_step" = false /\ capability_of_kind kind = "conversational").
  { unfold capability_of_kind. cbn [mem_str existsb] in U |- *.
    repeat (apply orb_false_iff in U; destruct U as [?E U]).
    cbn [Py.eq_str]. rewrite E, E0, E1, E2, E3, E4. split; reflexivity. }
  destruct M as [M Cap].
  exists (the_step kind parameters). split.
  - rewrite (plan_direct available user_request intent (VStr kind) brain K M C).
    rewrite (single_step_ok intent kind parameters K P). reflexivity.
  - unfold execute_plan, the_step. rewrite Cap.
    cbn [run_steps Py.get Py.lookup String.eqb Ascii.eqb Bool.eqb]. cbn.
    unfold execute_skill, get_skill. rewrite S. reflexivity.
Qed.

End Machine.

Lemma unknown_kind_gets_the_stock_reply_witness :
  exists step,
    plan ["conversational"] "good morning"
        (VDict [("intent", VStr "greeting"); ("confidence", VFloat (Fin (9 # 10)));
                ("parameters", VDict [])]) (fun _ => EmptyString) = (Ok [step], []) /\
    execute_plan [("conversational", @ConversationalSkill unit)] [step] "good morning"
        (fun _ => EmptyString) tt =
      ((Ok (VStr "Conversational request handled by LLM"), []), tt).
Proof.
  apply (unknown_kind_gets_the_stock_reply [("conversational", @ConversationalSkill unit)]
           ["conversational"] "good morning" "greeting"
           (VDict [("intent", VStr "greeting"); ("confidence", VFloat (Fin (9 # 10)));
                   ("parameters", VDict [])])
           (VDict []) (fun _ => EmptyString) tt); reflexivity.
Defined.

Lemma open_request_end_to_end_witness :
  exists intent step w',
    extract_intent "Please launch Firefox" (fun _ => EmptyString) = (Ok intent, []) /\
    plan ["open_app"] "Please launch Firefox" intent (fun _ => EmptyString) = (Ok [step], []) /\
    step = the_step "open_app" (VDict [("app_name", VStr "firefox")]) /\
    execute_plan [("open_app", OpenAppSkill quiet_machine tt)] [step] "Please launch Firefox"
        (fun _ => EmptyString) tt =
      ((Ok (VStr ("Opened " ++ "firefox")), []), w').
Proof.
  apply (open_request_end_to_end quiet_machine [("open_app", OpenAppSkill quiet_machine tt)]
           ["open_app"] "Please launch Firefox" "firefox" (fun _ => EmptyString) tt).
  - reflexivity.
  - reflexivity.
  - reflexivity.
  - intros args shell w. exists w. reflexivity.
Defined.

Lemma required_parameter_is_checked_witness :
  exists error,
    execute_skill [("run_command", RunCommandSkill quiet_machine)] (VStr "run_command")
        (VDict [("command", VStr EmptyString)]) tt = (Ok (failure error), tt) /\
    (forall d, VDict [("command", VStr EmptyString)] = VDict d ->
               error = "command" ++ " parameter required").
Proof.
  apply (required_parameter_is_checked quiet_machine [("run_command", RunCommandSkill quiet_machine)]
           tt (RunCommandSkill quiet_machine) "command" (VDict [("command", VStr EmptyString)]) tt).
  - simpl. tauto.
  - reflexivity.
  - intros d E. inversion E. reflexivity.
Defined.

End SkillsExtras.

Module PersonalizationExtras.

Import PyStr Memory Facts Personalization IntentExtractor.
Import Notions MoreNotions PersonalizationNotions PyStrFacts MemoryFacts MemoryExtras.

(** *** The table of facts *)

Lemma first_fact_after_update (k v : string) (now : datetime) (rows : list UserFact) :
  first_fact k rows <> None ->
  option_map fact_value (first_fact k (update_first_fact k v now rows)) = Some v.
Proof.
  unfold first_fact. induction rows as [|f rows IH]; simpl; intros H.
  - contradiction.
  - destruct (String.eqb (fact_key f) k) eqn:E; simpl.
    + rewrite E. reflexivity.
    + rewrite E. exact (IH H).
Qed.

Lemma first_fact_other_after_update (k k' v : string) (now : datetime) (rows : list UserFact) :
  k' <> k ->
  first_fact k' (update_first_fact k v now rows) = first_fact k' rows.
Proof.
  intros N. unfold first_fact.
  induction rows as [|f rows IH]; simpl; [reflexivity|].
  destruct (String.eqb (fact_key f) k) eqn:E; simpl.
  - apply String.eqb_eq in E.
    destruct (String.eqb_spec (fact_key f) k'); [congruence|reflexivity].
  - destruct (String.eqb (fact_key f) k'); [reflexivity|exact IH].
Qed.

Lemma save_fact_run (k v : string) (env : Env) (s : Store) :
  if sql_up env then
    exists s', save_fact k v env s = (Ok tt, s') /\
               fact_saved k v (user_facts s) (user_facts s') /\
               user_preferences (base s') = user_preferences (base s) /\
               conversation_history (base s') = conversation_history (base s) /\
               semantic_memory (base s') = semantic_memory (base s)
  else exists e s', save_fact k v env s = (Raise e, s') /\ user_facts s' = user_facts s.
Proof.
  unfold save_fact, wbind, select_facts, commit_facts, on_base, utcnow.
  destruct (sql_up env) eqn:U; [|do 2 eexists; split; reflexivity].
  destruct (first_fact k (user_facts s)) as [row|] eqn:F; cbn; rewrite U;
    eexists; (split; [reflexivity|]); cbn; (split; [|repeat split]).
  - split.
    + apply first_fact_after_update. rewrite F. discriminate.
    + intros k' N. apply first_fact_other_after_update, N.
  - split.
    + unfold first_fact in *. rewrite (find_app_none _ _ _ F); [reflexivity|].
      simpl. apply String.eqb_refl.
    + intros k' N. unfold first_fact. apply find_app_other. simpl.
      apply String.eqb_neq. intros E. exact (N (eq_sym E)).
Qed.

Lemma get_fact_run (k : string) (env : Env) (s : Store) :
  sql_up env = true ->
  fst (get_fact k env s) = Ok (option_map fact_value (first_fact k (user_facts s))).
Proof.
  intros U. unfold get_fact, wbind, select_facts, wret. rewrite U. reflexivity.
Qed.

(** X22: [save_fact] then [get_fact].  After a [save_fact] that
    returns, [get_fact] on the same key returns the value saved, and on
    every other key what it returned before; the preferences, the
    conversations and the semantic store are as they were. *)
Theorem save_fact_round_trip (k v : string) (env : Env) (s s' : Store) :
  save_fact k v env s = (Ok tt, s') ->
  fst (get_fact k env s') = Ok (Some v) /\
  (forall k', k' <> k -> fst (get_fact k' env s') = fst (get_fact k' env s)) /\
  user_preferences (base s') = user_preferences (base s) /\
  conversation_history (base s') = conversation_history (base s) /\
  semantic_memory (base s') = semantic_memory (base s).
Proof.
  intros H. pose proof (save_fact_run k v env s) as R.
  destruct (sql_up env) eqn:U.
  - destruct R as (s1 & E & [V O] & P & C & M). rewrite E in H. inversion H; subst s1.
    split; [rewrite (get_fact_run _ _ _ U), V; reflexivity|].
    split; [|auto].
    intros k' N. rewrite !(get_fact_run _ _ _ U), (O k' N). reflexivity.
  - destruct R as (e & s1 & E & _). rewrite E in H. discriminate.
Qed.

Lemma save_fact_round_trip_witness :
  fst (get_fact "job" reachable (snd (save_fact "job" "engineer" reachable nothing_stored))) =
    Ok (Some "engineer").
Proof.
  exact (proj1 (save_fact_round_trip "job" "engineer" reachable nothing_stored
                  (snd (save_fact "job" "engineer" reachable nothing_stored)) eq_refl)).
Defined.

(** *** The extraction by the completion capability *)






(** *** The name and the tone found by the rules *)



















(** *** The context given to the prompts *)

Lemma context_run (env : Env) (s : Store) :
  sql_up env = true ->
  let pref k := option_map value_of (first_with_key k (user_preferences (base s))) in
  fst (get_personalization_context env s) =
    Ok (join Personalization.nl
      (map (fun x => ("User's name: " ++ x)%string) (given (pref "user_name")) ++
       map (fun x => ("Preferred tone: " ++ x)%string) (given (pref "tone_style")) ++
       map (fun x => ("Frequently used apps: " ++ x)%string) (given (pref "frequent_apps")) ++
       match user_facts s with
       | [] => []
       | _ => "User Facts:" ::
              map (fun f => ("- " ++ fact_key f ++ ": " ++ fact_value f)%string) (user_facts s)
       end)%list).
Proof.
  intros U pref. unfold get_personalization_context, wbind, on_base, select_facts, wret.
  unfold get_preference, mbind, sql_select, mret. rewrite U. reflexivity.
Qed.

Lemma join_empty (sep : string) (l : list string) :
  Forall (fun x => x <> EmptyString) l -> join sep l = EmptyString -> l = [].
Proof.
  intros F H. destruct l as [|x [|y r]]; [reflexivity| |];
    inversion F as [|? ? Nx _]; subst; exfalso; apply Nx.
  - exact H.
  - change (join sep (x :: y :: r)) with (x ++ sep ++ join sep (y :: r)) in H.
    destruct x; [reflexivity|discriminate].
Qed.

Lemma labelled_nonempty (label : string) (l : list string) :
  label <> EmptyString -> Forall (fun x => x <> EmptyString) (map (fun x => label ++ x) l).
Proof.
  intros N. apply Forall_forall. intros x H. apply in_map_iff in H.
  destruct H as [y [<- _]]. destruct label; [congruence|discriminate].
Qed.

(** X26: [get_personalization_context] is the empty text exactly when
    there is nothing to say: no name, no tone and no frequent
    applications are stored, or they are stored as empty texts, and the
    table of facts is empty. *)
Theorem context_is_empty_iff_nothing_known (env : Env) (s : Store) :
  sql_up env = true ->
  let pref k := option_map value_of (first_with_key k (user_preferences (base s))) in
  fst (get_personalization_context env s) = Ok EmptyString <->
  (given (pref "user_name") = [] /\ given (pref "tone_style") = [] /\
   given (pref "frequent_apps") = [] /\ user_facts s = []).
Proof.
  intros U pref. rewrite (context_run env s U). subst pref. cbv beta. split.
  - intros H. injection H as J. apply join_empty in J.
    + apply app_eq_nil in J. destruct J as [J1 J].
      apply app_eq_nil in J. destruct J as [J2 J].
      apply app_eq_nil in J. destruct J as [J3 J4].
      apply map_eq_nil in J1, J2, J3.
      repeat split; try assumption. destruct (user_facts s); [reflexivity|discriminate].
    + apply Forall_app. split; [apply (labelled_nonempty "User's name: "); discriminate|].
      apply Forall_app. split; [apply (labelled_nonempty "Preferred tone: "); discriminate|].
      apply Forall_app.
      split; [apply (labelled_nonempty "Frequently used apps: "); discriminate|].
      destruct (user_facts s) as [|f r]; [constructor|].
      constructor; [discriminate|].
      apply Forall_forall. intros x I. apply in_map_iff in I.
      destruct I as [y [<- _]]. discriminate.
  - intros (-> & -> & -> & ->). reflexivity.
Qed.

Lemma context_is_empty_iff_nothing_known_witness :
  fst (get_personalization_context reachable nothing_stored) = Ok EmptyString.
Proof.
  apply (proj2 (context_is_empty_iff_nothing_known reachable nothing_stored eq_refl)).
  repeat split.
Defined.

End PersonalizationExtras.
